(** * SCADA polling and alerting core: protocol framing, sample buffer,
      alert rule engine and notification dispatch.

    Shallow embedding of [industrial_protocols.py] and
    [realtime_monitoring.py], followed by the properties of the
    specification that concern them.

    Conventions of the embedding:
    - a Python [bytes] object is a [list Z] whose elements are the byte
      values (0..255); [struct.pack] is the only producer and checks ranges;
    - a Python [int] is a [Z]; a [datetime] is a [Z] (microseconds);
    - an exception is a value of [PyExc]; a function that may raise returns
      a [result];
    - a Python [dict] whose iteration order the code observes is an
      insertion-ordered association list ([PyDict]); the cooldown tracker,
      only ever indexed by key, is a [gmap]. *)

From Stdlib Require Import ZArith List Lia Sorting.Sorted Sorting.Permutation.
From stdpp Require Import base option list gmap strings pretty.

Local Open Scope Z_scope.

(** ** Python runtime values shared by both modules *)

Module Py.

Inductive PyExc : Type :=
| TypeError (msg : string)
| KeyError (key : string)
| ValueError
| IndexError
| AttributeError
| StructError
| SyntaxError
| NameError
| OverflowError
| IOError.

Inductive result (A : Type) : Type :=
| Ok (a : A)
| Raise (e : PyExc).
Arguments Ok {A} a.
Arguments Raise {A} e.

Definition bind {A B} (r : result A) (k : A -> result B) : result B :=
  match r with
  | Ok a => k a
  | Raise e => Raise e
  end.

(** [try: body  except Exception: handler] for a body whose value is
    returned. *)
Definition try_except {A} (body : result A) (handler : PyExc -> A) : A :=
  match body with
  | Ok a => a
  | Raise e => handler e
  end.

(** [seq[i]] for a non-negative index. *)
Definition index {A} (l : list A) (i : nat) : result A :=
  match l !! i with
  | Some x => Ok x
  | None => Raise IndexError
  end.

(** [seq[lo:hi]] for non-negative bounds: never raises, clips. *)
Definition slice {A} (l : list A) (lo hi : nat) : list A :=
  take (hi - lo) (drop lo l).

(** [seq[:-n]] and [seq[-n:]]. *)
Definition drop_last {A} (n : nat) (l : list A) : list A :=
  take (length l - n) l.
Definition last_n {A} (n : nat) (l : list A) : list A :=
  drop (length l - n) l.

End Py.

Import Py.

#[export] Instance result_ret : MRet Py.result := @Py.Ok.
#[export] Instance result_bind : MBind Py.result :=
  fun A B k r => Py.bind r k.

(** ** [struct]: the format codes used by the protocol classes *)

Module Struct.

Definition is_u8 (v : Z) : bool := (0 <=? v) && (v <=? 255).
Definition is_u16 (v : Z) : bool := (0 <=? v) && (v <=? 65535).

(** ['B'] *)
Definition pack_B (v : Z) : result (list Z) :=
  if is_u8 v then Ok [v] else Raise StructError.

(** ['>H'] *)
Definition pack_H_be (v : Z) : result (list Z) :=
  if is_u16 v then Ok [v / 256; v mod 256] else Raise StructError.

(** ['<H'] *)
Definition pack_H_le (v : Z) : result (list Z) :=
  if is_u16 v then Ok [v mod 256; v / 256] else Raise StructError.

(** [struct.pack('>HHHB', a, b, c, d)] *)
Definition pack_HHHB_be (a b c d : Z) : result (list Z) :=
  pa ← pack_H_be a; pb ← pack_H_be b; pc ← pack_H_be c;
  pd ← pack_B d; Ok (pa ++ pb ++ pc ++ pd).

(** [struct.pack('>BHH', a, b, c)] *)
Definition pack_BHH_be (a b c : Z) : result (list Z) :=
  pa ← pack_B a; pb ← pack_H_be b; pc ← pack_H_be c;
  Ok (pa ++ pb ++ pc).

(** [struct.pack('>BBHH', a, b, c, d)] *)
Definition pack_BBHH_be (a b c d : Z) : result (list Z) :=
  pa ← pack_B a; pb ← pack_B b; pc ← pack_H_be c;
  pd ← pack_H_be d; Ok (pa ++ pb ++ pc ++ pd).

(** [struct.unpack('>H', bs)[0]]: exactly two bytes are required. *)
Definition unpack_H_be (bs : list Z) : result Z :=
  match bs with
  | [hi; lo] => Ok (hi * 256 + lo)
  | _ => Raise StructError
  end.

(** [struct.unpack('<H', bs)[0]] *)
Definition unpack_H_le (bs : list Z) : result Z :=
  match bs with
  | [lo; hi] => Ok (hi * 256 + lo)
  | _ => Raise StructError
  end.

End Struct.

(** ** industrial_protocols.py *)

Module Protocols.

Import Struct.

Record ProtocolConfig := {
  host : string;
  port : Z;
  unit_id : Z;
  timeout : Z;
  retries : Z
}.

(** The peer of a connection: the bytes it answers to a frame written to
    it, as returned by the single [recv(1024)] / [read(1024)] that follows
    the write, or the exception that the write or the read raises. *)
Definition Peer := list Z -> result (list Z).

(** What one call did on the wire and what it returned. *)
Record Outcome := {
  sent : list (list Z);      (* frames handed to send/write, in order *)
  connects : nat;            (* calls to connect() made by the call *)
  returned : option (list Z) (* the return value; None is Python's None *)
}.

(** The register loop shared by both Modbus readers:
    [for i in range(0, len(data), 2):
         values.append(struct.unpack('>H', data[i:i+2])[0])]. *)
Fixpoint unpack_registers (data : list Z) : result (list Z) :=
  match data with
  | [] => Ok []
  | hi :: lo :: rest =>
      v ← unpack_H_be [hi; lo];
      vs ← unpack_registers rest;
      Ok (v :: vs)
  | [b] => v ← unpack_H_be [b]; Ok [v]
  end.

(** *** ModbusTCPProtocol *)

Record ModbusTCPProtocol := {
  tcp_config : ProtocolConfig;
  socket : option Peer;
  transaction_id : Z
}.

Definition tcp_set_transaction_id (self : ModbusTCPProtocol) (t : Z) :=
  {| tcp_config := tcp_config self; socket := socket self;
     transaction_id := t |}.

(** The frame built by [read_holding_registers] (lines 77-86). *)
Definition holding_registers_frame (tid unit address count : Z)
  : result (list Z) :=
  header ← pack_HHHB_be tid 0 6 unit;
  pdu ← pack_BHH_be 3 address count;
  Ok (header ++ pdu).

(** The response parser of [read_holding_registers] (lines 93-104). *)
Definition parse_holding_registers (response : list Z)
  : result (option (list Z)) :=
  if bool_decide (9 <= length response)%nat then
    fc ← index response 7;
    if fc =? 3 then
      byte_count ← index response 8;
      let data := slice response 9 (9 + Z.to_nat byte_count)%nat in
      values ← unpack_registers data;
      Ok (Some values)
    else Ok None
  else Ok None.

(** [read_holding_registers]: the transaction id is incremented before
    anything can fail; every exception of the body is caught and turned
    into [None]. *)
Definition read_holding_registers (self : ModbusTCPProtocol)
    (address count : Z) : ModbusTCPProtocol * Outcome :=
  let self' := tcp_set_transaction_id self (transaction_id self + 1) in
  match holding_registers_frame (transaction_id self')
          (unit_id (tcp_config self')) address count with
  | Raise _ => (self', {| sent := []; connects := 0; returned := None |})
  | Ok frame =>
      match socket self' with
      | None => (* None.send raises AttributeError *)
          (self', {| sent := []; connects := 0; returned := None |})
      | Some peer =>
          let ret :=
            try_except
              (response ← peer frame;
               parse_holding_registers (take 1024 response))
              (fun _ => None) in
          (self', {| sent := [frame]; connects := 0; returned := ret |})
      end
  end.

(** *** ModbusRTUProtocol *)

Record ModbusRTUProtocol := {
  rtu_config : ProtocolConfig;
  serial_port : option Peer
}.

Definition crc_shift (crc : Z) : Z :=
  if Z.land crc 1 =? 0 then Z.shiftr crc 1
  else Z.lxor (Z.shiftr crc 1) 0xA001.

Definition crc_update (crc byte : Z) : Z :=
  Nat.iter 8 crc_shift (Z.lxor crc byte).

Definition _calculate_crc (data : list Z) : Z :=
  fold_left crc_update data 0xFFFF.

(** The request built by [read_input_registers] (lines 175-178). *)
Definition input_registers_frame (unit address count : Z)
  : result (list Z) :=
  frame_data ← pack_BBHH_be unit 4 address count;
  crc_bytes ← pack_H_le (_calculate_crc frame_data);
  Ok (frame_data ++ crc_bytes).

(** The response parser of [read_input_registers] (lines 185-200). *)
Definition parse_input_registers (response : list Z)
  : result (option (list Z)) :=
  if bool_decide (5 <= length response)%nat then
    let data_part := drop_last 2 response in
    received_crc ← unpack_H_le (last_n 2 response);
    let calculated_crc := _calculate_crc data_part in
    if received_crc =? calculated_crc then
      fc ← index response 1;
      if fc =? 4 then
        byte_count ← index response 2;
        let data := slice response 3 (3 + Z.to_nat byte_count)%nat in
        values ← unpack_registers data;
        Ok (Some values)
      else Ok None
    else Ok None
  else Ok None.

Definition read_input_registers (self : ModbusRTUProtocol)
    (address count : Z) : Outcome :=
  match input_registers_frame (unit_id (rtu_config self)) address count with
  | Raise _ => {| sent := []; connects := 0; returned := None |}
  | Ok frame =>
      match serial_port self with
      | None => {| sent := []; connects := 0; returned := None |}
      | Some peer =>
          {| sent := [frame]; connects := 0;
             returned :=
               try_except
                 (response ← peer frame;
                  parse_input_registers (take 1024 response))
                 (fun _ => None) |}
      end
  end.

(** *** ModbusTCPProtocol.write_single_register *)

(** The frame built by [write_single_register] (lines 115-119). *)
Definition single_register_frame (tid unit address value : Z)
  : result (list Z) :=
  header ← pack_HHHB_be tid 0 6 unit;
  pdu ← pack_BHH_be 6 address value;
  Ok (header ++ pdu).

(** [len(response) >= 9 and response[7] == 6] *)
Definition write_acknowledged (response : list Z) : bool :=
  bool_decide (9 <= length response)%nat
  && match response !! 7%nat with
     | Some fc => fc =? 6
     | None => false
     end.

(** What a write did on the wire and the boolean it returned. *)
Record WriteOutcome := {
  written : list (list Z);
  succeeded : bool
}.

Definition write_single_register (self : ModbusTCPProtocol)
    (address value : Z) : ModbusTCPProtocol * WriteOutcome :=
  let self' := tcp_set_transaction_id self (transaction_id self + 1) in
  match single_register_frame (transaction_id self')
          (unit_id (tcp_config self')) address value with
  | Raise _ => (self', {| written := []; succeeded := false |})
  | Ok frame =>
      match socket self' with
      | None => (self', {| written := []; succeeded := false |})
      | Some peer =>
          (self',
           {| written := [frame];
              succeeded :=
                try_except
                  (response ← peer frame;
                   Ok (write_acknowledged (take 1024 response)))
                  (fun _ => false) |})
      end
  end.

(** *** DNP3Protocol *)

Record DNP3Protocol := {
  dnp3_config : ProtocolConfig;
  dnp3_socket : option Peer;
  sequence_number : Z
}.

(** [struct.pack('<HBBHH', a, b, c, d, e)] *)
Definition pack_HBBHH_le (a b c d e : Z) : result (list Z) :=
  pa ← pack_H_le a; pb ← pack_B b; pc ← pack_B c;
  pd ← pack_H_le d; pe ← pack_H_le e;
  Ok (pa ++ pb ++ pc ++ pd ++ pe).

(** [struct.pack('BBB', a, b, c)] *)
Definition pack_BBB (a b c : Z) : result (list Z) :=
  pa ← pack_B a; pb ← pack_B b; pc ← pack_B c; Ok (pa ++ pb ++ pc).

(** The transport byte of [read_analog_inputs] (line 248). *)
Definition transport_byte (sequence_number : Z) : Z :=
  Z.lor 0x40 (Z.land sequence_number 0x3F).

(** The frame of [read_analog_inputs] (lines 239-258). *)
Definition analog_inputs_frame (unit sequence_number : Z)
  : result (list Z) :=
  dl_header ← pack_HBBHH_le 0x0564 10 0x44 unit 1;
  body ← pack_BBB (transport_byte sequence_number) 0 1;
  object_header ← pack_BBB 30 1 6;
  Ok (dl_header ++ body ++ object_header).

(** The values [read_analog_inputs] returns (line 266): [i * 10.5] for
    [i] below [count], each as the numerator of a fraction over 2. *)
Definition mock_analog_halves (count : Z) : list Z :=
  map (fun i : nat => 21 * Z.of_nat i) (seq 0 (Z.to_nat count)).

(** What a DNP3 read did and returned; the values are in halves. *)
Record AnalogOutcome := {
  analog_sent : list (list Z);
  analog_halves : option (list Z)
}.

(** [read_analog_inputs]: the data-link header is packed before the
    sequence number is incremented, the rest after. *)
Definition read_analog_inputs (self : DNP3Protocol)
    (start_index count : Z) : DNP3Protocol * AnalogOutcome :=
  match pack_HBBHH_le 0x0564 10 0x44 (unit_id (dnp3_config self)) 1 with
  | Raise _ => (self, {| analog_sent := []; analog_halves := None |})
  | Ok _ =>
      let self' :=
        {| dnp3_config := dnp3_config self;
           dnp3_socket := dnp3_socket self;
           sequence_number := sequence_number self + 1 |} in
      match analog_inputs_frame (unit_id (dnp3_config self))
              (sequence_number self) with
      | Raise _ => (self', {| analog_sent := []; analog_halves := None |})
      | Ok frame =>
          match dnp3_socket self with
          | None =>
              (self', {| analog_sent := []; analog_halves := None |})
          | Some peer =>
              (self',
               {| analog_sent := [frame];
                  analog_halves :=
                    try_except
                      (response ← peer frame;
                       if bool_decide
                            (10 < length (take 1024 response))%nat
                       then Ok (Some (mock_analog_halves count))
                       else Ok None)
                      (fun _ => None) |})
          end
      end
  end.

End Protocols.

(** ** Insertion-ordered dictionaries *)

Module PyDict.

Section Dict.
Context {V : Type}.

Definition t := list (string * V).

Definition empty : t := [].

(** [d.get(k)] / [d[k]] *)
Fixpoint get (d : t) (k : string) : option V :=
  match d with
  | [] => None
  | (k', v) :: d' => if String.eqb k k' then Some v else get d' k
  end.

(** [k in d] *)
Definition contains (d : t) (k : string) : bool :=
  match get d k with Some _ => true | None => false end.

(** [d[k] = v]: an existing key keeps its position, a new key goes
    last. *)
Fixpoint set (d : t) (k : string) (v : V) : t :=
  match d with
  | [] => [(k, v)]
  | (k', v') :: d' =>
      if String.eqb k k' then (k, v) :: d' else (k', v') :: set d' k v
  end.

(** [del d[k]] for a key that is present; keys are unique in a
    dictionary, so at most one entry goes. *)
Fixpoint del (d : t) (k : string) : t :=
  match d with
  | [] => []
  | (k', v') :: d' =>
      if String.eqb k k' then del d' k else (k', v') :: del d' k
  end.

Definition keys (d : t) : list string := map fst d.
Definition values (d : t) : list V := map snd d.

End Dict.

Arguments t V : clear implicits.

End PyDict.

(** ** industrial_protocols.py: IEC61850Protocol and ProtocolManager *)

Module Manager.

Import Struct Protocols.

Inductive ProtocolType :=
| MODBUS_TCP | MODBUS_RTU | DNPV3 | IEC_61850 | OPC_UA | PROFINET | ETHERCAT.

(** [ProtocolConfig] together with its [protocol_type] field. *)
Record ManagedConfig := {
  protocol_type : ProtocolType;
  settings : ProtocolConfig
}.

Record IEC61850Protocol := {
  iec_config : ProtocolConfig;
  iec_socket : option Peer
}.

(** The objects held in [ProtocolManager.connections]. *)
Inductive Connection :=
| TCPConnection (c : ModbusTCPProtocol)
| RTUConnection (c : ModbusRTUProtocol)
| DNP3Connection (c : DNP3Protocol)
| IECConnection (c : IEC61850Protocol).

(** What [connect] reaches: a TCP address or a serial device. The network
    tells which of them accept a connection, and as which peer. *)
Inductive Endpoint :=
| TcpEndpoint (host : string) (port : Z)
| SerialEndpoint (device : string).

Definition Network := Endpoint -> option Peer.

(** The port [IEC61850Protocol.connect] uses (line 285). *)
Definition iec_port (config : ProtocolConfig) : Z :=
  if port config =? 502 then 102 else port config.

(** Construction of the protocol object followed by [connect()]
    (lines 337-349); [None] when [connect] returns [False] or the type is
    not supported. *)
Definition open_connection (net : Network) (config : ManagedConfig)
  : option Connection :=
  let c := settings config in
  match protocol_type config with
  | MODBUS_TCP =>
      peer ← net (TcpEndpoint (host c) (port c));
      Some (TCPConnection
              {| tcp_config := c; socket := Some peer;
                 transaction_id := 0 |})
  | MODBUS_RTU =>
      peer ← net (SerialEndpoint (host c));
      Some (RTUConnection {| rtu_config := c; serial_port := Some peer |})
  | DNPV3 =>
      peer ← net (TcpEndpoint (host c) (port c));
      Some (DNP3Connection
              {| dnp3_config := c; dnp3_socket := Some peer;
                 sequence_number := 0 |})
  | IEC_61850 =>
      peer ← net (TcpEndpoint (host c) (iec_port c));
      Some (IECConnection {| iec_config := c; iec_socket := Some peer |})
  | OPC_UA | PROFINET | ETHERCAT => None
  end.

Record ProtocolManager := {
  connections : PyDict.t Connection
}.

Definition ProtocolManager_init : ProtocolManager :=
  {| connections := PyDict.empty |}.

Definition add_connection (net : Network) (self : ProtocolManager)
    (name : string) (config : ManagedConfig) : ProtocolManager * bool :=
  match open_connection net config with
  | Some protocol =>
      ({| connections := PyDict.set (connections self) name protocol |},
       true)
  | None => (self, false)
  end.

Definition remove_connection (self : ProtocolManager) (name : string)
  : ProtocolManager :=
  if PyDict.contains (connections self) name
  then {| connections := PyDict.del (connections self) name |}
  else self.

Definition get_connection (self : ProtocolManager) (name : string)
  : option Connection :=
  PyDict.get (connections self) name.

(** [shutdown]: every name of a copy of the key list is removed. *)
Definition shutdown (self : ProtocolManager) : ProtocolManager :=
  fold_left remove_connection (PyDict.keys (connections self)) self.







End Manager.

(** ** realtime_monitoring.py: enumerations and dataclasses *)

Module Monitoring.

Inductive AlertPriority := LOW | MEDIUM | HIGH | CRITICAL | EMERGENCY.

(** [AlertPriority.<member>.value] *)
Definition priority_value (p : AlertPriority) : Z :=
  match p with
  | LOW => 1 | MEDIUM => 2 | HIGH => 3 | CRITICAL => 4 | EMERGENCY => 5
  end.

#[export] Instance AlertPriority_eq_dec : EqDecision AlertPriority.
Proof. solve_decision. Defined.

Inductive AlertType :=
| SYSTEM_FAULT | PROCESS_ALARM | SECURITY_BREACH | EQUIPMENT_FAILURE
| QUALITY_DEVIATION | MAINTENANCE_DUE | PERFORMANCE_DEGRADATION.

Inductive MonitoringStatus := ACTIVE | PAUSED | ERROR | OFFLINE.

#[export] Instance MonitoringStatus_eq_dec : EqDecision MonitoringStatus.
Proof. solve_decision. Defined.

Module MonitoringPoint.
Record t := {
  point_id : string;
  name : string;
  data_type : string;
  source_address : string;
  scan_rate_ms : Z;
  alarm_high : option Z;
  alarm_low : option Z;
  warning_high : option Z;
  warning_low : option Z;
  enabled : bool
(* deadband, a float that no code path reads, is left out *)
}.
End MonitoringPoint.

Module AlertRule.
Record t := {
  rule_id : string;
  name : string;
  condition : string;
  alert_type : AlertType;
  priority : AlertPriority;
  message_template : string;
  cooldown_minutes : Z;
  enabled : bool;
  acknowledgement_required : bool
}.
End AlertRule.

Module Alert.
Record t := {
  alert_id : string;
  rule_id : string;
  timestamp : Z;
  alert_type : AlertType;
  priority : AlertPriority;
  message : string;
  source_point : string;
  current_value : option Z;
  acknowledged : bool;
  acknowledged_by : option string;
  acknowledged_time : option Z;
  resolved : bool;
  resolved_time : option Z
}.

(** The dataclass fields, in declaration order, and those without a
    default. *)
Definition fields : list string :=
  ["alert_id"; "rule_id"; "timestamp"; "alert_type"; "priority";
   "message"; "source_point"; "current_value"; "acknowledged";
   "acknowledged_by"; "acknowledged_time"; "resolved";
   "resolved_time"]%string.

Definition required : list string :=
  ["alert_id"; "rule_id"; "timestamp"; "alert_type"; "priority";
   "message"; "source_point"; "current_value"]%string.

Definition set_acknowledged (a : t) (by_ : string) (at_ : Z) : t :=
  {| alert_id := alert_id a; rule_id := rule_id a;
     timestamp := timestamp a; alert_type := alert_type a;
     priority := priority a; message := message a;
     source_point := source_point a; current_value := current_value a;
     acknowledged := true; acknowledged_by := Some by_;
     acknowledged_time := Some at_;
     resolved := resolved a; resolved_time := resolved_time a |}.

Definition set_resolved (a : t) (at_ : Z) : t :=
  {| alert_id := alert_id a; rule_id := rule_id a;
     timestamp := timestamp a; alert_type := alert_type a;
     priority := priority a; message := message a;
     source_point := source_point a; current_value := current_value a;
     acknowledged := acknowledged a;
     acknowledged_by := acknowledged_by a;
     acknowledged_time := acknowledged_time a;
     resolved := true; resolved_time := Some at_ |}.
End Alert.

Module MonitoringData.
Record t := {
  point_id : string;
  timestamp : Z;
  value : Z;
  quality : string;
  status : string
}.
End MonitoringData.

(** *** DataBuffer *)

Record DataBuffer := {
  max_size : Z;
  buffer : PyDict.t (list MonitoringData.t)
}.

(** [DataBuffer(max_size)] *)
Definition DataBuffer_init (max_size : Z) : DataBuffer :=
  {| max_size := max_size; buffer := PyDict.empty |}.

Definition default_max_size : Z := 10000.

(** [self.buffer[point_id]] once the key has been created *)
Definition samples (self : DataBuffer) (point_id : string)
  : list MonitoringData.t :=
  default [] (PyDict.get (buffer self) point_id).

Definition add_point (self : DataBuffer) (point_id : string)
    (data : MonitoringData.t) : DataBuffer :=
  let buffer0 :=
    if PyDict.contains (buffer self) point_id then buffer self
    else PyDict.set (buffer self) point_id [] in
  let appended := default [] (PyDict.get buffer0 point_id) ++ [data] in
  let kept :=
    if max_size self <? Z.of_nat (length appended)
    then tail appended   (* pop(0) *)
    else appended in
  {| max_size := max_size self;
     buffer := PyDict.set buffer0 point_id kept |}.

Definition get_latest (self : DataBuffer) (point_id : string)
  : option MonitoringData.t :=
  match PyDict.get (buffer self) point_id with
  | None => None
  | Some l => last l
  end.

(** [get_all_latest]: one entry per buffered point that has a sample, in
    the buffer's key order. *)
Definition get_all_latest (self : DataBuffer)
  : PyDict.t MonitoringData.t :=
  fold_left
    (fun result point_id =>
       match get_latest self point_id with
       | Some latest => PyDict.set result point_id latest
       | None => result
       end)
    (PyDict.keys (buffer self)) PyDict.empty.


(** *** The parts of the Python runtime the alert engine calls *)

Class PyRuntime := {
(** truth value of [eval] on the condition, without builtins, in the
    context that binds [data], [time], [get_value] and [get_quality]
    over the given snapshot *)
py_eval : string -> PyDict.t MonitoringData.t -> Z -> result bool;
(** [template.format(value=..., point=..., time=...)] *)
str_format : string -> option Z -> string -> string -> result string;
(** [datetime.strftime] with the date-and-time pattern of line 231 *)
strftime : Z -> string
}.

(** Values passed as keyword arguments to a dataclass constructor. *)
Inductive PyVal :=
| VNone
| VStr (s : string)
| VInt (z : Z)
| VBool (b : bool)
| VTime (t : Z)
| VAlertType (t : AlertType)
| VPriority (p : AlertPriority).

Definition mem_string (k : string) (l : list string) : bool :=
  existsb (String.eqb k) l.

(** Binding of keyword arguments by the generated [__init__]: a keyword
    that is not a field, or a field without default that is not given,
    is a [TypeError]. *)
Definition dataclass_bind (fields required : list string)
    (kwargs : list (string * PyVal)) : result unit :=
  match find (fun k => negb (mem_string k fields)) (map fst kwargs) with
  | Some k =>
      Raise (TypeError
               ("__init__() got an unexpected keyword argument '"
                  ++ k ++ "'"))
  | None =>
      match find (fun f => negb (mem_string f (map fst kwargs))) required
      with
      | Some f =>
          Raise (TypeError
                   ("__init__() missing required argument '" ++ f ++ "'"))
      | None => Ok ()
      end
  end.

Fixpoint kwarg (kwargs : list (string * PyVal)) (k : string) : PyVal :=
  match kwargs with
  | [] => VNone
  | (k', v) :: rest => if String.eqb k k' then v else kwarg rest k
  end.

Definition as_str (v : PyVal) : string :=
  match v with VStr s => s | _ => "" end.
Definition as_time (v : PyVal) : Z :=
  match v with VTime t => t | VInt t => t | _ => 0 end.
Definition as_opt_int (v : PyVal) : option Z :=
  match v with VInt z => Some z | _ => None end.
Definition as_alert_type (v : PyVal) : AlertType :=
  match v with VAlertType t => t | _ => SYSTEM_FAULT end.
Definition as_priority (v : PyVal) : AlertPriority :=
  match v with VPriority p => p | _ => LOW end.

(** The constructor [Alert], called with keyword arguments only: the
    lifecycle fields take their defaults. *)
Definition Alert_init (kwargs : list (string * PyVal)) : result Alert.t :=
  _ ← dataclass_bind Alert.fields Alert.required kwargs;
  Ok {| Alert.alert_id := as_str (kwarg kwargs "alert_id");
        Alert.rule_id := as_str (kwarg kwargs "rule_id");
        Alert.timestamp := as_time (kwarg kwargs "timestamp");
        Alert.alert_type := as_alert_type (kwarg kwargs "alert_type");
        Alert.priority := as_priority (kwarg kwargs "priority");
        Alert.message := as_str (kwarg kwargs "message");
        Alert.source_point := as_str (kwarg kwargs "source_point");
        Alert.current_value := as_opt_int (kwarg kwargs "current_value");
        Alert.acknowledged := false;
        Alert.acknowledged_by := None;
        Alert.acknowledged_time := None;
        Alert.resolved := false;
        Alert.resolved_time := None |}.

(** *** AlertManager *)

(** Alert objects live in [heap]; the active set, the history and the
    notification queue hold references to them, so that a mutation made
    through one of them is seen through the others. *)
Definition ref := nat.

Record AlertManager := {
  alert_rules : PyDict.t AlertRule.t;
  active_alerts : PyDict.t ref;
  alert_history : list ref;
  cooldown_tracker : gmap string Z;
  alert_queue : list ref;
  heap : gmap ref Alert.t
}.

Definition AlertManager_init : AlertManager :=
  {| alert_rules := PyDict.empty; active_alerts := PyDict.empty;
     alert_history := []; cooldown_tracker := ∅; alert_queue := [];
     heap := ∅ |}.

Definition add_alert_rule (self : AlertManager) (rule : AlertRule.t)
  : AlertManager :=
  {| alert_rules :=
       PyDict.set (alert_rules self) (AlertRule.rule_id rule) rule;
     active_alerts := active_alerts self;
     alert_history := alert_history self;
     cooldown_tracker := cooldown_tracker self;
     alert_queue := alert_queue self;
     heap := heap self |}.

(** [timedelta(minutes=m)] in the unit of the clock *)
Definition timedelta_minutes (m : Z) : Z := m * 60 * 1000000.

(** [int(time.time())] at clock reading [now] *)
Definition epoch_seconds (now : Z) : Z := now / 1000000.

(** [sub in s] on strings *)
Fixpoint str_contains (sub s : string) : bool :=
  String.prefix sub s
  || match s with
     | EmptyString => false
     | String _ s' => str_contains sub s'
     end.

(** The source-point loop of [_trigger_alert] (lines 218-225). *)
Fixpoint find_source (condition : string)
    (monitoring_data : PyDict.t MonitoringData.t) : string * option Z :=
  match monitoring_data with
  | [] => ("unknown"%string, None)
  | (point_id, d) :: rest =>
      if str_contains point_id condition
      then (point_id, Some (MonitoringData.value d))
      else find_source condition rest
  end.

Definition opt_val (v : option Z) : PyVal :=
  match v with Some z => VInt z | None => VNone end.

Section Engine.
Context `{PyRuntime}.

(** [_trigger_alert]: every statement that can raise comes before the
    first mutation of [self], so an exception leaves [self] as it
    was. All clock reads of one call see the reading [now]. *)
Definition _trigger_alert (self : AlertManager) (rule : AlertRule.t)
    (monitoring_data : PyDict.t MonitoringData.t) (now : Z)
  : result AlertManager :=
  let alert_id :=
    (AlertRule.rule_id rule ++ "_" ++ pretty (epoch_seconds now))%string
  in
  let '(source_point, current_value) :=
    find_source (AlertRule.condition rule) monitoring_data in
  message ← str_format (AlertRule.message_template rule)
              current_value source_point (strftime now);
  alert ← Alert_init
            [("alert_id", VStr alert_id);
             ("rule_id", VStr (AlertRule.rule_id rule));
             ("timestamp", VTime now);
             ("alert_type", VAlertType (AlertRule.alert_type rule));
             ("priority", VPriority (AlertRule.priority rule));
             ("message", VStr message);
             ("source_point", VStr source_point);
             ("current_value", opt_val current_value);
             ("acknowledgement_required",
               VBool (AlertRule.acknowledgement_required rule))]%string;
  let r : ref := fresh (dom (heap self)) in
  Ok {| alert_rules := alert_rules self;
        active_alerts := PyDict.set (active_alerts self) alert_id r;
        alert_history := alert_history self ++ [r];
        cooldown_tracker :=
          <[AlertRule.rule_id rule := now]> (cooldown_tracker self);
        alert_queue := alert_queue self ++ [r];
        heap := <[r := alert]> (heap self) |}.

(** The cooldown test of [evaluate_alerts] (lines 192-195). *)
Definition in_cooldown (self : AlertManager) (rule_id : string)
    (rule : AlertRule.t) (now : Z) : bool :=
  match cooldown_tracker self !! rule_id with
  | Some last =>
      now <? last + timedelta_minutes (AlertRule.cooldown_minutes rule)
  | None => false
  end.

(** One pass of the loop body of [evaluate_alerts]. *)
Definition evaluate_rule (monitoring_data : PyDict.t MonitoringData.t)
    (now : Z) (self : AlertManager) (item : string * AlertRule.t)
  : AlertManager :=
  let '(rule_id, rule) := item in
  if negb (AlertRule.enabled rule) then self
  else if in_cooldown self rule_id rule now then self
  else
    try_except
      (fires ← py_eval (AlertRule.condition rule) monitoring_data now;
       if fires : bool then _trigger_alert self rule monitoring_data now
       else Ok self)
      (fun _ => self).

Definition evaluate_alerts (self : AlertManager)
    (monitoring_data : PyDict.t MonitoringData.t) (now : Z)
  : AlertManager :=
  fold_left (evaluate_rule monitoring_data now) (alert_rules self) self.

End Engine.

Definition acknowledge_alert (self : AlertManager) (alert_id : string)
    (acknowledged_by : string) (now : Z) : AlertManager * bool :=
  match PyDict.get (active_alerts self) alert_id with
  | Some r =>
      ({| alert_rules := alert_rules self;
          active_alerts := active_alerts self;
          alert_history := alert_history self;
          cooldown_tracker := cooldown_tracker self;
          alert_queue := alert_queue self;
          heap :=
            alter (fun a => Alert.set_acknowledged a acknowledged_by now)
              r (heap self) |}, true)
  | None => (self, false)
  end.

Definition resolve_alert (self : AlertManager) (alert_id : string)
    (now : Z) : AlertManager * bool :=
  match PyDict.get (active_alerts self) alert_id with
  | Some r =>
      ({| alert_rules := alert_rules self;
          active_alerts := PyDict.del (active_alerts self) alert_id;
          alert_history := alert_history self;
          cooldown_tracker := cooldown_tracker self;
          alert_queue := alert_queue self;
          heap := alter (fun a => Alert.set_resolved a now) r (heap self)
       |}, true)
  | None => (self, false)
  end.


(** The sort key of [get_active_alerts] and the order of Python tuples
    on it. *)
Definition alert_key (a : Alert.t) : Z * Z :=
  (priority_value (Alert.priority a), Alert.timestamp a).

Definition key_lt (k1 k2 : Z * Z) : bool :=
  (k1.1 <? k2.1) || ((k1.1 =? k2.1) && (k1.2 <? k2.2)).

(** [sorted(l, key=key, reverse=True)]: descending, and elements with
    equal keys stay in their original order. *)
Fixpoint insert_desc {A} (key : A -> Z * Z) (x : A) (l : list A)
  : list A :=
  match l with
  | [] => [x]
  | y :: l' =>
      if key_lt (key x) (key y) then y :: insert_desc key x l'
      else x :: y :: l'
  end.

Definition sorted_reverse {A} (key : A -> Z * Z) (l : list A) : list A :=
  foldr (insert_desc key) [] l.

(** [list(self.active_alerts.values())] as objects *)
Definition active_alert_objects (self : AlertManager) : list Alert.t :=
  omap (fun r : ref => heap self !! r) (PyDict.values (active_alerts self)).

(** [get_active_alerts]: a member of [AlertPriority] is always truthy,
    so the filter is applied whenever one is given. *)
Definition get_active_alerts (self : AlertManager)
    (priority_filter : option AlertPriority) : list Alert.t :=
  let alerts := active_alert_objects self in
  let alerts :=
    match priority_filter with
    | Some p => filter (fun a => Alert.priority a = p) alerts
    | None => alerts
    end in
  sorted_reverse alert_key alerts.

(** *** RealTimeMonitoringSystem *)

Record PerformanceStats := {
  points_scanned : Z;
  alerts_generated : Z;
  notifications_sent : Z;
  last_scan_time : option Z
}.

Record RealTimeMonitoringSystem := {
  monitoring_points : PyDict.t MonitoringPoint.t;
  data_buffer : DataBuffer;
  alert_manager : AlertManager;
  status : MonitoringStatus;
  scan_threads : PyDict.t ref;    (* the thread_info object of each point *)
  thread_infos : list bool;       (* the stop flag of each thread_info object *)
  performance_stats : PerformanceStats
}.

Definition RealTimeMonitoringSystem_init : RealTimeMonitoringSystem :=
  {| monitoring_points := PyDict.empty;
     data_buffer := DataBuffer_init default_max_size;
     alert_manager := AlertManager_init;
     status := OFFLINE;
     scan_threads := PyDict.empty;
     thread_infos := [];
     performance_stats :=
       {| points_scanned := 0; alerts_generated := 0;
          notifications_sent := 0; last_scan_time := None |} |}.

(** The methods of [NotificationSystem] and the live broadcast, as the
    dispatcher calls them. Each of them catches its own exceptions. *)
Inductive Call :=
| Call_send_webhook_alert
| Call_send_email_alert
| Call_send_sms_alert
| Call_broadcast_alert.

#[export] Instance Call_eq_dec : EqDecision Call.
Proof. solve_decision. Defined.

(** [_process_alert_notification] (lines 668-693); the calls to
    [send_email_alert] and [send_sms_alert] are commented out in every
    branch. *)
Definition _process_alert_notification (self : RealTimeMonitoringSystem)
    (alert : Alert.t) : RealTimeMonitoringSystem * list Call :=
  let by_priority :=
    if bool_decide (Alert.priority alert ∈ [EMERGENCY; CRITICAL])
    then [Call_send_webhook_alert]
    else if bool_decide (Alert.priority alert = HIGH)
    then [Call_send_webhook_alert]
    else [Call_send_webhook_alert] in
  let stats := performance_stats self in
  ({| monitoring_points := monitoring_points self;
      data_buffer := data_buffer self;
      alert_manager := alert_manager self;
      status := status self;
      scan_threads := scan_threads self;
      thread_infos := thread_infos self;
      performance_stats :=
        {| points_scanned := points_scanned stats;
           alerts_generated := alerts_generated stats;
           notifications_sent := notifications_sent stats + 1;
           last_scan_time := last_scan_time stats |} |},
   by_priority ++ [Call_broadcast_alert]).

(** The loop test of [scan_loop] (line 569). The loop reads the stop
    flag of the [thread_info] object it created itself, whatever
    [scan_threads] holds for the point by then. *)
Definition scan_guard (self : RealTimeMonitoringSystem)
    (thread_info : ref) : bool :=
  negb (default false (thread_infos self !! thread_info))
  && bool_decide (status self = ACTIVE).

(** One pass of the body of [scan_loop] (lines 570-599). [read] is what
    [_read_point_value] does in this pass (a value, standing for the
    float it returns, or an exception), [now] the clock reading. The
    sleep that ends the pass changes nothing of the state. *)
Definition scan_iteration (self : RealTimeMonitoringSystem)
    (point : MonitoringPoint.t) (read : result Z) (now : Z)
  : RealTimeMonitoringSystem :=
  match read with
  | Ok value =>
      let data :=
        {| MonitoringData.point_id := MonitoringPoint.point_id point;
           MonitoringData.timestamp := now;
           MonitoringData.value := value;
           MonitoringData.quality := "GOOD";
           MonitoringData.status := "ONLINE" |} in
      let stats := performance_stats self in
      {| monitoring_points := monitoring_points self;
         data_buffer :=
           add_point (data_buffer self)
             (MonitoringPoint.point_id point) data;
         alert_manager := alert_manager self;
         status := status self;
         scan_threads := scan_threads self;
         thread_infos := thread_infos self;
         performance_stats :=
           {| points_scanned := points_scanned stats + 1;
              alerts_generated := alerts_generated stats;
              notifications_sent := notifications_sent stats;
              last_scan_time := Some now |} |}
  | Raise _ => self
  end.

(** The [while] loop of [scan_loop] (lines 569-599) over the passes
    described by [env], run by the thread whose object is
    [thread_info]. *)
Fixpoint scan_loop (self : RealTimeMonitoringSystem)
    (point : MonitoringPoint.t) (thread_info : ref)
    (env : list (result Z * Z))
  : RealTimeMonitoringSystem :=
  match env with
  | [] => self
  | (read, now) :: env' =>
      if scan_guard self thread_info
      then scan_loop (scan_iteration self point read now) point
             thread_info env'
      else self
  end.

(** Passes of the scan loops of several points, in the order in which
    they append to the buffer. *)
Definition ScanEvent : Type := MonitoringPoint.t * result Z * Z.

Definition event_point (e : ScanEvent) : string :=
  MonitoringPoint.point_id e.1.1.
Definition event_time (e : ScanEvent) : Z := e.2.

Definition scan_event (self : RealTimeMonitoringSystem) (e : ScanEvent)
  : RealTimeMonitoringSystem :=
  scan_iteration self e.1.1 e.1.2 e.2.

Definition run_scans (self : RealTimeMonitoringSystem)
    (events : list ScanEvent) : RealTimeMonitoringSystem :=
  fold_left scan_event events self.

(** [_alert_evaluation_loop] for the cycles whose clock readings are
    [clock], over a snapshot that stays the same. *)
Definition evaluation_cycles `{PyRuntime} (self : AlertManager)
    (monitoring_data : PyDict.t MonitoringData.t) (clock : list Z)
  : AlertManager :=
  fold_left (fun m now => evaluate_alerts m monitoring_data now) clock self.

(** *** Further methods of DataBuffer and AlertManager *)

(** [timedelta(minutes=m)]: a [timedelta] holds at most 999999999 days
    either way. *)
Definition timedelta (minutes : Z) : result Z :=
  if (-999999999 <=? minutes / 1440) && (minutes / 1440 <=? 999999999)
  then Ok (timedelta_minutes minutes)
  else Raise OverflowError.

(** [datetime.min] and [datetime.max], the first microsecond of year 1
    and the last of year 9999, counted from 1970. *)
Definition datetime_min : Z := -62135596800000000.
Definition datetime_max : Z := 253402300799999999.

(** [t - delta] on a [datetime] and a [timedelta] *)
Definition datetime_sub (t delta : Z) : result Z :=
  if (datetime_min <=? t - delta) && (t - delta <=? datetime_max)
  then Ok (t - delta)
  else Raise OverflowError.

(** [get_history] at clock reading [now] (lines 141-152). The test for
    the point comes before the cut-off is computed. *)
Definition get_history (self : DataBuffer) (point_id : string)
    (minutes : Z) (now : Z) : result (list MonitoringData.t) :=
  match PyDict.get (buffer self) point_id with
  | None => Ok []
  | Some l =>
      delta ← timedelta minutes;
      cutoff_time ← datetime_sub now delta;
      Ok (filter (fun d => cutoff_time <= MonitoringData.timestamp d) l)
  end.

Definition remove_alert_rule (self : AlertManager) (rule_id : string)
  : AlertManager :=
  if PyDict.contains (alert_rules self) rule_id
  then {| alert_rules := PyDict.del (alert_rules self) rule_id;
          active_alerts := active_alerts self;
          alert_history := alert_history self;
          cooldown_tracker := cooldown_tracker self;
          alert_queue := alert_queue self;
          heap := heap self |}
  else self.

(** *** NotificationSystem *)

Record NotificationSystem := {
  email_configured : bool;   (* [email_config] is not the empty dict *)
  sms_configured : bool;     (* [sms_config] is not the empty dict *)
  webhook_urls : list string
}.

Definition NotificationSystem_init : NotificationSystem :=
  {| email_configured := false; sms_configured := false;
     webhook_urls := [] |}.

Definition add_webhook (self : NotificationSystem) (url : string)
  : NotificationSystem :=
  {| email_configured := email_configured self;
     sms_configured := sms_configured self;
     webhook_urls := webhook_urls self ++ [url] |}.

(** The loop of [send_webhook_alert] (lines 409-416): [post url] is what
    [requests.post] followed by [raise_for_status] does for that URL. The
    first exception ends the loop. The result lists the URLs contacted. *)
Fixpoint post_each (post : string -> result unit) (urls : list string)
  : list string * bool :=
  match urls with
  | [] => ([], true)
  | url :: rest =>
      match post url with
      | Ok _ =>
          let '(contacted, ok) := post_each post rest in
          (url :: contacted, ok)
      | Raise _ => ([url], false)
      end
  end.

Definition send_webhook_alert (self : NotificationSystem)
    (post : string -> result unit) (alert : Alert.t)
  : list string * bool :=
  post_each post (webhook_urls self).

(** *** Further methods of RealTimeMonitoringSystem *)

Definition with_points_and_threads (self : RealTimeMonitoringSystem)
    (points : PyDict.t MonitoringPoint.t) (threads : PyDict.t ref)
    (infos : list bool)
  : RealTimeMonitoringSystem :=
  {| monitoring_points := points;
     data_buffer := data_buffer self;
     alert_manager := alert_manager self;
     status := status self;
     scan_threads := threads;
     thread_infos := infos;
     performance_stats := performance_stats self |}.

(** [remove_monitoring_point] (lines 505-514): the stop flag is set on
    the object that [scan_threads] holds for the point. *)
Definition remove_monitoring_point (self : RealTimeMonitoringSystem)
    (point_id : string) : RealTimeMonitoringSystem :=
  if PyDict.contains (monitoring_points self) point_id
  then with_points_and_threads self
         (PyDict.del (monitoring_points self) point_id)
         (scan_threads self)
         (match PyDict.get (scan_threads self) point_id with
          | Some thread_info => <[thread_info := true]> (thread_infos self)
          | None => thread_infos self
          end)
  else self.

(** The first two statements of [scan_loop] (lines 566-567): a new
    [thread_info] object with the flag down, stored under the point id
    in place of what was there. The second component is the new
    object. *)
Definition register_scan_thread (self : RealTimeMonitoringSystem)
    (point : MonitoringPoint.t) : RealTimeMonitoringSystem * ref :=
  let thread_info := length (thread_infos self) in
  (with_points_and_threads self (monitoring_points self)
     (PyDict.set (scan_threads self) (MonitoringPoint.point_id point)
        thread_info)
     (thread_infos self ++ [false]),
   thread_info).

(** [stop_monitoring]: the status goes to OFFLINE and the stop flag of
    every object in [scan_threads] to [True]. *)
Definition stop_monitoring (self : RealTimeMonitoringSystem)
  : RealTimeMonitoringSystem :=
  {| monitoring_points := monitoring_points self;
     data_buffer := data_buffer self;
     alert_manager := alert_manager self;
     status := OFFLINE;
     scan_threads := scan_threads self;
     thread_infos :=
       fold_left (fun infos thread_info => <[thread_info := true]> infos)
         (PyDict.values (scan_threads self)) (thread_infos self);
     performance_stats := performance_stats self |}.

(** [MonitoringStatus.<member>.value] *)
Definition status_value (s : MonitoringStatus) : string :=
  match s with
  | ACTIVE => "active" | PAUSED => "paused"
  | ERROR => "error" | OFFLINE => "offline"
  end.

(** The dictionary [get_system_status] returns; [uptime] is the clock
    reading whose ISO text the code returns. *)
Record SystemStatus := {
  status_text : string;
  monitoring_points_count : nat;
  active_alerts_count : nat;
  connected_clients_count : nat;
  stats : PerformanceStats;
  uptime : Z
}.

(** [get_system_status]: the key [last_scan_time] is always present in
    [performance_stats], so [get] never falls back to its default, and
    [isoformat] is called on [None] until a scan has succeeded. *)
Definition get_system_status (self : RealTimeMonitoringSystem)
    (connected_clients : nat) : result SystemStatus :=
  match last_scan_time (performance_stats self) with
  | None => Raise AttributeError
  | Some t =>
      Ok {| status_text := status_value (status self);
            monitoring_points_count := length (monitoring_points self);
            active_alerts_count :=
              length (active_alerts (alert_manager self));
            connected_clients_count := connected_clients;
            stats := performance_stats self;
            uptime := t |}
  end.

Definition with_queue (m : AlertManager) (queue : list ref)
  : AlertManager :=
  {| alert_rules := alert_rules m; active_alerts := active_alerts m;
     alert_history := alert_history m;
     cooldown_tracker := cooldown_tracker m;
     alert_queue := queue; heap := heap m |}.

Definition count_alert_generated (self : RealTimeMonitoringSystem)
  : RealTimeMonitoringSystem :=
  let stats := performance_stats self in
  {| monitoring_points := monitoring_points self;
     data_buffer := data_buffer self;
     alert_manager := alert_manager self;
     status := status self;
     scan_threads := scan_threads self;
     thread_infos := thread_infos self;
     performance_stats :=
       {| points_scanned := points_scanned stats;
          alerts_generated := alerts_generated stats + 1;
          notifications_sent := notifications_sent stats;
          last_scan_time := last_scan_time stats |} |}.

(** One pass of [_notification_processing_loop] (lines 653-666): an
    empty queue times out and the pass does nothing. The calls of the
    dispatcher are listed with the alert object they were given. *)
Definition notification_pass (self : RealTimeMonitoringSystem)
  : RealTimeMonitoringSystem * list (ref * Call) :=
  match alert_queue (alert_manager self) with
  | [] => (self, [])
  | r :: rest =>
      let taken :=
        {| monitoring_points := monitoring_points self;
           data_buffer := data_buffer self;
           alert_manager := with_queue (alert_manager self) rest;
           status := status self;
           scan_threads := scan_threads self;
           thread_infos := thread_infos self;
           performance_stats := performance_stats self |} in
      match heap (alert_manager self) !! r with
      | Some alert =>
          let '(self', calls) := _process_alert_notification taken alert in
          (count_alert_generated self', map (pair r) calls)
      | None => (taken, [])
      end
  end.

Fixpoint notification_passes (n : nat) (self : RealTimeMonitoringSystem)
  : RealTimeMonitoringSystem * list (ref * Call) :=
  match n with
  | O => (self, [])
  | S n' =>
      if bool_decide (status self = ACTIVE) then
        let '(self1, calls1) := notification_pass self in
        let '(self2, calls2) := notification_passes n' self1 in
        (self2, calls1 ++ calls2)
      else (self, [])
  end.

End Monitoring.

(** ** A runtime for the conditions and templates of the shipped rules

    The rules configured in [realtime_monitoring.py] compare one point
    with an integer literal ([get_value('T001') > 95]) and use templates
    whose replacement fields are plain names. [Runtime] evaluates exactly
    these; any other text is reported by an exception. The properties
    below that quantify over [PyRuntime] do not depend on it. *)

Module Runtime.

Import Monitoring.

Definition strip_prefix (p s : string) : option string :=
  if String.prefix p s
  then Some (String.substring (String.length p)
               (String.length s - String.length p) s)
  else None.

Fixpoint digits_value (s : string) (acc : Z) : option Z :=
  match s with
  | EmptyString => Some acc
  | String c s' =>
      let n := Z.of_nat (Ascii.nat_of_ascii c) - 48 in
      if (0 <=? n) && (n <=? 9) then digits_value s' (acc * 10 + n)
      else None
  end.

Definition parse_int (s : string) : option Z :=
  match s with
  | EmptyString => None
  | _ => digits_value s 0
  end.

Definition parse_op (s : string) : option (Z -> Z -> bool) :=
  if String.eqb s ">" then Some Z.gtb
  else if String.eqb s "<" then Some Z.ltb
  else if String.eqb s ">=" then Some Z.geb
  else if String.eqb s "<=" then Some Z.leb
  else if String.eqb s "==" then Some Z.eqb
  else if String.eqb s "!=" then Some (fun a b => negb (a =? b))
  else None.

Definition parse_comparison (src : string)
  : option (string * (Z -> Z -> bool) * Z) :=
  rest ← strip_prefix "get_value('" src;
  i ← String.index 0 "'" rest;
  let point_id := String.substring 0 i rest in
  rest ← strip_prefix "') "
           (String.substring i (String.length rest - i) rest);
  j ← String.index 0 " " rest;
  op ← parse_op (String.substring 0 j rest);
  n ← parse_int
        (String.substring (j + 1) (String.length rest - (j + 1)) rest);
  Some (point_id, op, n).

(** [get_value]: the value of the point, 0 for a point that is not in
    the snapshot. *)
Definition get_value (monitoring_data : PyDict.t MonitoringData.t)
    (point_id : string) : Z :=
  match PyDict.get monitoring_data point_id with
  | Some d => MonitoringData.value d
  | None => 0
  end.

Definition eval_comparison (src : string)
    (monitoring_data : PyDict.t MonitoringData.t) (now : Z)
  : result bool :=
  match parse_comparison src with
  | Some (point_id, op, n) => Ok (op (get_value monitoring_data point_id) n)
  | None => Raise SyntaxError
  end.

(** [str(value)] for an int or [None] *)
Definition str_of_value (v : option Z) : string :=
  match v with Some z => pretty z | None => "None" end.

Fixpoint format_go (value point time : string) (s : string)
    (field : option string) : result string :=
  match s, field with
  | EmptyString, None => Ok EmptyString
  | EmptyString, Some _ => Raise ValueError
  | String c s', Some name =>
      if Ascii.eqb c (Ascii.ascii_of_nat 125) then
        v ← (if String.eqb name "value" then Ok value
             else if String.eqb name "point" then Ok point
             else if String.eqb name "time" then Ok time
             else Raise (KeyError name));
        rest ← format_go value point time s' None;
        Ok (v ++ rest)%string
      else format_go value point time s' (Some (name ++ String c "")%string)
  | String c s', None =>
      if Ascii.eqb c (Ascii.ascii_of_nat 123) then format_go value point time s' (Some ""%string)
      else if Ascii.eqb c (Ascii.ascii_of_nat 125) then Raise ValueError
      else rest ← format_go value point time s' None; Ok (String c rest)
  end.

Definition format_fields (template : string) (value : option Z)
    (point time : string) : result string :=
  format_go (str_of_value value) point time template None.

#[export] Instance runtime : PyRuntime := {
  py_eval := eval_comparison;
  str_format := format_fields;
  strftime := fun now => pretty now
}.

(** The configuration of the entry point of [realtime_monitoring.py]
    (lines 839-847) and a snapshot in which T001 reads 96. *)
Definition TEMP_HIGH : AlertRule.t :=
  {| AlertRule.rule_id := "TEMP_HIGH";
     AlertRule.name := "High Temperature Alert";
     AlertRule.condition := "get_value('T001') > 95";
     AlertRule.alert_type := PROCESS_ALARM;
     AlertRule.priority := CRITICAL;
     AlertRule.message_template :=
       "Temperature alarm: {value}°C at point {point}";
     AlertRule.cooldown_minutes := 5;
     AlertRule.enabled := true;
     AlertRule.acknowledgement_required := true |}.

Definition T001_96 (now : Z) : MonitoringData.t :=
  {| MonitoringData.point_id := "T001";
     MonitoringData.timestamp := now;
     MonitoringData.value := 96;
     MonitoringData.quality := "GOOD";
     MonitoringData.status := "ONLINE" |}.

Definition snapshot_96 (now : Z) : PyDict.t MonitoringData.t :=
  [("T001"%string, T001_96 now)].

Definition manager_TEMP_HIGH : AlertManager :=
  add_alert_rule AlertManager_init TEMP_HIGH.

(** One clock reading per second for [n] seconds from [t0]. *)
Definition every_second (t0 : Z) (n : nat) : list Z :=
  map (fun i : nat => t0 + Z.of_nat i * 1000000) (seq 0 n).

End Runtime.

(** ** Well-behaved Modbus devices

    The peers against which the round trips are stated: a device that
    holds 16-bit registers [mem] and answers a read request with the
    registers it names, framed as the Modbus application protocol
    prescribes. *)

Module Device.

Import Protocols.

Definition be16_bytes (v : Z) : list Z := [v / 256; v mod 256].

Definition registers_at (mem : Z -> Z) (address count : Z) : list Z :=
  map (fun i : nat => mem (address + Z.of_nat i) mod 65536)
      (seq 0 (Z.to_nat count)).

(** Modbus TCP: MBAP header echoing the transaction and unit ids, then
    function code, byte count and the registers, big-endian. *)
Definition tcp_server (mem : Z -> Z) : Peer :=
  fun request =>
    match request with
    | [t1; t0; _; _; _; _; u; fc; a1; a0; c1; c0] =>
        let address := a1 * 256 + a0 in
        let count := c1 * 256 + c0 in
        Ok ([t1; t0; 0; 0] ++ be16_bytes (3 + 2 * count)
              ++ [u; fc; 2 * count]
              ++ flat_map be16_bytes (registers_at mem address count))
    | _ => Raise IOError
    end.

(** Modbus RTU: unit id, function code, byte count, the registers, and
    the CRC of all of these, low byte first. *)
Definition rtu_frame (body : list Z) : list Z :=
  body ++ [_calculate_crc body mod 256; _calculate_crc body / 256].

Definition rtu_response (unit : Z) (regs : list Z) : list Z :=
  rtu_frame ([unit; 4; 2 * Z.of_nat (length regs)]
               ++ flat_map be16_bytes regs).

Definition rtu_device (mem : Z -> Z) : Peer :=
  fun request =>
    match request with
    | [u; _; a1; a0; c1; c0; _; _] =>
        Ok (rtu_response u
              (registers_at mem (a1 * 256 + a0) (c1 * 256 + c0)))
    | _ => Raise IOError
    end.

(** A frame whose last two bytes are the CRC of the bytes before them,
    low byte first. *)
Definition crc_valid (frame : list Z) : Prop :=
  exists body lo hi,
    frame = body ++ [lo; hi] /\ hi * 256 + lo = _calculate_crc body.

Definition is_byte (b : Z) : Prop := 0 <= b <= 255.
Definition is_word (v : Z) : Prop := 0 <= v <= 65535.

End Device.

(** ** Notions used to state the properties *)

Module Notions.

Import Monitoring.

(** CRC-16 as the specification words it, bit by bit: the register
    starts at 0xFFFF; the bits of each byte enter least significant bit
    first; a bit is compared with the lowest bit of the register, the
    register moves one place to the right, and the polynomial 0xA001 is
    added to it when the two bits differed. *)
Definition crc16_bit (crc : Z) (bit : bool) : Z :=
  if xorb (Z.testbit crc 0) bit
  then Z.lxor (Z.shiftr crc 1) 0xA001
  else Z.shiftr crc 1.

Definition bits_lsb_first (byte : Z) : list bool :=
  map (Z.testbit byte) [0; 1; 2; 3; 4; 5; 6; 7].

Definition crc16_lsb_first (data : list Z) : Z :=
  fold_left crc16_bit (flat_map bits_lsb_first data) 0xFFFF.

(** Samples added one after the other, each to its own point. *)
Definition add_all (self : DataBuffer)
    (inserts : list (string * MonitoringData.t)) : DataBuffer :=
  fold_left (fun b i => add_point b i.1 i.2) inserts self.

(** What [add_point] leaves in the buffer of the point it writes. *)
Definition after_append (max_size : Z) (old : list MonitoringData.t)
    (data : MonitoringData.t) : list MonitoringData.t :=
  if max_size <? Z.of_nat (length (old ++ [data]))
  then tail (old ++ [data]) else old ++ [data].

Definition inserted_for (p : string)
    (inserts : list (string * MonitoringData.t)) : list MonitoringData.t :=
  map snd (filter (fun i => i.1 = p) inserts).

(** The sample a pass of a scan loop appends, if any. *)
Definition event_insert (e : ScanEvent)
  : option (string * MonitoringData.t) :=
  match e.1.2 with
  | Ok value =>
      Some (event_point e,
            {| MonitoringData.point_id := event_point e;
               MonitoringData.timestamp := event_time e;
               MonitoringData.value := value;
               MonitoringData.quality := "GOOD";
               MonitoringData.status := "ONLINE" |})
  | Raise _ => None
  end.




(** The reading claimed for a failed read: a sample of quality BAD and
    status OFFLINE in the buffer of the point. *)
Definition records_bad_sample (self : RealTimeMonitoringSystem)
    (p : string) : Prop :=
  exists d, d ∈ samples (data_buffer self) p
            /\ MonitoringData.quality d = "BAD"%string
            /\ MonitoringData.status d = "OFFLINE"%string.






(** What the dispatcher does with a queue of alerts when it serves them
    first in, first out: each alert in turn goes to the webhook sender
    and then to the live broadcast. *)
Definition served_in_queue_order (queue : list ref) : list (ref * Call) :=
  flat_map
    (fun r => [(r, Call_send_webhook_alert); (r, Call_broadcast_alert)])
    queue.



(** The frame a read of [self] puts on the wire and the bytes that the
    [recv(1024)] or [read(1024)] after it returns. *)
Definition tcp_exchange (self : Protocols.ModbusTCPProtocol)
    (address count : Z) (frame response : list Z) : Prop :=
  Protocols.holding_registers_frame (Protocols.transaction_id self + 1)
    (Protocols.unit_id (Protocols.tcp_config self)) address count
  = Ok frame
  /\ exists peer reply,
       Protocols.socket self = Some peer
       /\ peer frame = Ok reply /\ response = take 1024 reply.

Definition rtu_exchange (self : Protocols.ModbusRTUProtocol)
    (address count : Z) (frame response : list Z) : Prop :=
  Protocols.input_registers_frame
    (Protocols.unit_id (Protocols.rtu_config self)) address count
  = Ok frame
  /\ exists peer reply,
       Protocols.serial_port self = Some peer
       /\ peer frame = Ok reply /\ response = take 1024 reply.

(** Reads made one after the other on the same protocol object. *)
Fixpoint read_many (self : Protocols.ModbusTCPProtocol)
    (requests : list (Z * Z))
  : Protocols.ModbusTCPProtocol * list Protocols.Outcome :=
  match requests with
  | [] => (self, [])
  | (address, count) :: rest =>
      let '(self1, out) :=
        Protocols.read_holding_registers self address count in
      let '(self2, outs) := read_many self1 rest in
      (self2, out :: outs)
  end.

(** A read that put nothing on the wire and returned [None]. *)
Definition silent_failure (out : Protocols.Outcome) : Prop :=
  Protocols.sent out = [] /\ Protocols.returned out = None.

(** The successful reads among the passes of a scan loop, and the clock
    reading of the last of them. *)
Definition successful_reads (env : list (result Z * Z)) : list Z :=
  omap (fun pass : result Z * Z =>
          match pass.1 with Ok _ => Some pass.2 | Raise _ => None end) env.

(** A queue whose references all point to alert objects. *)
Definition queue_valid (m : Monitoring.AlertManager) : Prop :=
  Forall (fun r => is_Some (Monitoring.heap m !! r))
    (Monitoring.alert_queue m).

(** [sub] occurs in [s]. *)
Definition occurs_in (sub s : string) : Prop :=
  exists pre post, s = (pre ++ sub ++ post)%string.

End Notions.

(** ** Configurations used as instances *)

Module Examples.

Import Protocols Device Monitoring.

Definition example_registers (address : Z) : Z := 1000 + address.

Definition example_tcp : ModbusTCPProtocol :=
  {| tcp_config :=
       {| host := "192.168.1.100"; port := 502; unit_id := 1;
          timeout := 5; retries := 3 |};
     socket := Some (tcp_server example_registers);
     transaction_id := 0 |}.

Definition example_point (point_id name : string) (scan_rate_ms : Z)
  : MonitoringPoint.t :=
  {| MonitoringPoint.point_id := point_id;
     MonitoringPoint.name := name;
     MonitoringPoint.data_type := "float";
     MonitoringPoint.source_address := "192.168.1.100:502";
     MonitoringPoint.scan_rate_ms := scan_rate_ms;
     MonitoringPoint.alarm_high := None;
     MonitoringPoint.alarm_low := None;
     MonitoringPoint.warning_high := None;
     MonitoringPoint.warning_low := None;
     MonitoringPoint.enabled := true |}.

Definition T001 := example_point "T001" "Reactor Temperature" 1000.





(** The system once [start_monitoring] has set the status and the scan
    loop of T001 has registered its stop flag. *)
Definition scanning_T001 : RealTimeMonitoringSystem :=
  {| monitoring_points := [("T001"%string, T001)];
     data_buffer := DataBuffer_init default_max_size;
     alert_manager := AlertManager_init;
     status := ACTIVE;
     scan_threads := [("T001"%string, 0%nat)];
     thread_infos := [false];
     performance_stats :=
       performance_stats RealTimeMonitoringSystem_init |}.

Definition unreachable_device : ModbusTCPProtocol :=
  {| tcp_config :=
       {| host := "192.168.1.100"; port := 502; unit_id := 1;
          timeout := 5; retries := 3 |};
     socket := Some (fun _ => Raise IOError);
     transaction_id := 0 |}.

Definition example_alert (priority : AlertPriority) : Alert.t :=
  {| Alert.alert_id := "TEMP_HIGH_1700000000";
     Alert.rule_id := "TEMP_HIGH";
     Alert.timestamp := 1700000000000000;
     Alert.alert_type := PROCESS_ALARM;
     Alert.priority := priority;
     Alert.message := "Temperature alarm: 96°C at point T001";
     Alert.source_point := "T001";
     Alert.current_value := Some 96;
     Alert.acknowledged := false;
     Alert.acknowledged_by := None;
     Alert.acknowledged_time := None;
     Alert.resolved := false;
     Alert.resolved_time := None |}.

Definition manager_with_active_alert : AlertManager :=
  {| alert_rules := PyDict.empty;
     active_alerts := [("TEMP_HIGH_1700000000"%string, 0%nat)];
     alert_history := [0%nat];
     cooldown_tracker := ∅;
     alert_queue := [];
     heap := {[ 0%nat := example_alert CRITICAL ]} |}.

Definition manager_with_three_alerts : AlertManager :=
  {| alert_rules := PyDict.empty;
     active_alerts :=
       [("A"%string, 0%nat); ("B"%string, 1%nat); ("C"%string, 2%nat)];
     alert_history := [0%nat; 1%nat; 2%nat];
     cooldown_tracker := ∅;
     alert_queue := [];
     heap := {[ 0%nat := example_alert HIGH;
                1%nat := example_alert EMERGENCY;
                2%nat := example_alert CRITICAL ]} |}.

End Examples.

(** * Properties *)

(** ** Protocol codec *)

Section ProtocolFacts.

Import Struct Protocols Device.

Lemma lxor_bound n a b :
  0 <= n -> 0 <= a < 2 ^ n -> 0 <= b < 2 ^ n -> 0 <= Z.lxor a b < 2 ^ n.
Proof.
  intros Hn Ha Hb.
  assert (Hx : 0 <= Z.lxor a b) by (apply Z.lxor_nonneg; lia).
  split; [exact Hx|].
  destruct (Z.eq_dec (Z.lxor a b) 0) as [Hz|Hne].
  { rewrite Hz. apply Z.pow_pos_nonneg; lia. }
  assert (Hn' : 0 < n).
  { destruct (Z.eq_dec n 0) as [->|]; [|lia].
    change (2 ^ 0) with 1 in *.
    assert (a = 0) by lia. assert (b = 0) by lia. subst.
    exfalso. apply Hne. reflexivity. }
  assert (Hlog : forall c, 0 <= c < 2 ^ n -> Z.log2 c < n).
  { intros c Hc. destruct (Z.eq_dec c 0) as [->|].
    - exact Hn'.
    - apply Z.log2_lt_pow2; lia. }
  apply Z.log2_lt_pow2; [lia|].
  pose proof (Z.log2_lxor a b ltac:(lia) ltac:(lia)) as Hl.
  pose proof (Hlog a Ha). pose proof (Hlog b Hb). lia.
Qed.

Lemma crc_shift_word crc : is_word crc -> is_word (crc_shift crc).
Proof.
  unfold is_word, crc_shift. intros Hc.
  assert (Hs : 0 <= Z.shiftr crc 1 < 2 ^ 16).
  { rewrite Z.shiftr_div_pow2 by lia. change (2 ^ 1) with 2.
    change (2 ^ 16) with 65536.
    split; [apply Z.div_pos; lia|].
    apply Z.div_lt_upper_bound; lia. }
  destruct (Z.land crc 1 =? 0).
  - change (2 ^ 16) with 65536 in Hs. lia.
  - pose proof (lxor_bound 16 (Z.shiftr crc 1) 0xA001 ltac:(lia) Hs
                  ltac:(change (2 ^ 16) with 65536; lia)) as Hx.
    change (2 ^ 16) with 65536 in Hx. lia.
Qed.

Lemma crc_update_word crc b :
  is_word crc -> is_byte b -> is_word (crc_update crc b).
Proof.
  intros Hc Hb. unfold crc_update.
  assert (Hx : is_word (Z.lxor crc b)).
  { unfold is_word, is_byte in *.
    pose proof (lxor_bound 16 crc b ltac:(lia)
                  ltac:(change (2 ^ 16) with 65536; lia)
                  ltac:(change (2 ^ 16) with 65536; lia)) as Hx.
    change (2 ^ 16) with 65536 in Hx. lia. }
  generalize 8%nat. intros k. induction k as [|k IH]; simpl.
  - exact Hx.
  - apply crc_shift_word, IH.
Qed.

Lemma calculate_crc_word data :
  Forall is_byte data -> is_word (_calculate_crc data).
Proof.
  unfold _calculate_crc.
  assert (H0 : is_word 0xFFFF) by (unfold is_word; lia).
  revert H0. generalize 0xFFFF. intros crc Hc Hd. revert crc Hc.
  induction Hd as [|b data Hb _ IH]; intros crc Hc; simpl.
  - exact Hc.
  - apply IH, crc_update_word; assumption.
Qed.

Lemma be16_bytes_are_bytes v : is_word v -> Forall is_byte (be16_bytes v).
Proof.
  unfold is_word, is_byte, be16_bytes. intros Hv.
  repeat constructor.
  - apply Z.div_pos; lia.
  - assert (v / 256 < 256) by (apply Z.div_lt_upper_bound; lia). lia.
  - apply Z.mod_pos_bound; lia.
  - pose proof (Z.mod_pos_bound v 256); lia.
Qed.

Lemma flat_be16_bytes regs :
  Forall is_word regs -> Forall is_byte (flat_map be16_bytes regs).
Proof.
  induction 1 as [|v regs Hv _ IH]; [constructor|].
  cbn [flat_map]. apply Forall_app. split; [|exact IH].
  apply (be16_bytes_are_bytes v Hv).
Qed.

Lemma flat_be16_length regs :
  length (flat_map be16_bytes regs) = (2 * length regs)%nat.
Proof. induction regs as [|v regs IH]; simpl; lia. Qed.

(** Decoding the big-endian image of 16-bit registers gives them back. *)
Lemma unpack_registers_be16 regs :
  Forall is_word regs ->
  unpack_registers (flat_map be16_bytes regs) = Ok regs.
Proof.
  induction 1 as [|v regs Hv _ IH]; [reflexivity|].
  cbn [flat_map be16_bytes app]. cbn [unpack_registers].
  rewrite IH. cbn.
  f_equal. f_equal. pose proof (Z.div_mod v 256). lia.
Qed.

Lemma registers_at_words mem address count :
  Forall is_word (registers_at mem address count).
Proof.
  unfold registers_at. apply Forall_forall. intros v Hv.
  apply list_elem_of_In, in_map_iff in Hv. destruct Hv as (i & <- & _).
  unfold is_word. pose proof (Z.mod_pos_bound (mem (address + Z.of_nat i)) 65536).
  lia.
Qed.

Lemma registers_at_length mem address count :
  length (registers_at mem address count) = Z.to_nat count.
Proof. unfold registers_at. rewrite length_map, length_seq. reflexivity. Qed.

End ProtocolFacts.

Section ProtocolTheorems.

Import Struct Protocols Device Notions Examples.

Lemma pack_B_ok v : is_byte v -> pack_B v = Ok [v].
Proof.
  unfold is_byte, pack_B, is_u8. intros Hv.
  destruct (Z.leb_spec 0 v), (Z.leb_spec v 255); try lia. reflexivity.
Qed.

Lemma pack_H_be_ok v : is_word v -> pack_H_be v = Ok (be16_bytes v).
Proof.
  unfold is_word, pack_H_be, is_u16. intros Hv.
  destruct (Z.leb_spec 0 v), (Z.leb_spec v 65535); try lia. reflexivity.
Qed.

Lemma pack_H_le_ok v : is_word v -> pack_H_le v = Ok [v mod 256; v / 256].
Proof.
  unfold is_word, pack_H_le, is_u16. intros Hv.
  destruct (Z.leb_spec 0 v), (Z.leb_spec v 65535); try lia. reflexivity.
Qed.

Lemma be16_value v : v / 256 * 256 + v mod 256 = v.
Proof. pose proof (Z.div_mod v 256). lia. Qed.

Lemma holding_registers_frame_ok tid unit address count :
  is_word tid -> is_byte unit -> is_word address -> is_word count ->
  holding_registers_frame tid unit address count =
    Ok [tid / 256; tid mod 256; 0; 0; 0; 6; unit; 3;
        address / 256; address mod 256; count / 256; count mod 256].
Proof.
  intros Ht Hu Ha Hc. unfold holding_registers_frame, pack_HHHB_be, pack_BHH_be.
  rewrite !pack_H_be_ok, !pack_B_ok by (assumption || (unfold is_word, is_byte; lia)).
  reflexivity.
Qed.

Lemma parse_holding_registers_ok (pre : list Z) (regs : list Z) :
  length pre = 7%nat -> Forall is_word regs -> (length regs <= 127)%nat ->
  parse_holding_registers
    (pre ++ [3; 2 * Z.of_nat (length regs)] ++ flat_map be16_bytes regs)
  = Ok (Some regs).
Proof.
  intros Hpre Hregs Hlen.
  do 8 (destruct pre as [|? pre]; try discriminate Hpre).
  unfold parse_holding_registers.
  rewrite bool_decide_eq_true_2 by (cbn; lia).
  cbn [app index lookup list_lookup Py.index].
  cbn -[unpack_registers flat_map Z.mul Z.of_nat Z.to_nat Nat.add].
  unfold slice. cbn [skipn].
  replace (9 + Z.to_nat (2 * Z.of_nat (length regs)) - 9)%nat
    with (length (flat_map be16_bytes regs))
    by (rewrite flat_be16_length; lia).
  rewrite ?drop_0, firstn_all, unpack_registers_be16 by assumption.
  reflexivity.
Qed.

(** C7. For a holding-register request whose fields are in range and
    whose count is between 1 and 125, [read_holding_registers] sends the
    7-byte big-endian MBAP header (transaction id, protocol id 0, length
    6, unit id) followed by function code 3, the 16-bit address and the
    16-bit count; and against a well-behaved server it returns exactly
    [count] values, equal to the server's registers at that address. *)
Theorem tcp_holding_registers_round_trip
    (mem : Z -> Z) (self : ModbusTCPProtocol) (address count : Z) :
  socket self = Some (tcp_server mem) ->
  0 <= transaction_id self < 65535 ->
  is_byte (unit_id (tcp_config self)) ->
  is_word address ->
  1 <= count <= 125 ->
  let tid := transaction_id self + 1 in
  let out := (read_holding_registers self address count).2 in
  sent out =
    [[tid / 256; tid mod 256; 0; 0; 0; 6; unit_id (tcp_config self); 3;
      address / 256; address mod 256; count / 256; count mod 256]]
  /\ returned out = Some (registers_at mem address count)
  /\ length (registers_at mem address count) = Z.to_nat count.
Proof.
  intros Hsock Htid Hunit Haddr Hcount tid out.
  assert (Hframe := holding_registers_frame_ok tid
                      (unit_id (tcp_config self)) address count
                      ltac:(unfold is_word, tid; lia) Hunit Haddr
                      ltac:(unfold is_word; lia)).
  assert (Hlen := registers_at_length mem address count).
  subst out. unfold read_holding_registers.
  cbn [transaction_id tcp_set_transaction_id tcp_config socket].
  fold tid. rewrite Hframe, Hsock. cbn [snd sent returned].
  split; [reflexivity|]. split; [|exact Hlen].
  unfold tcp_server. cbn [mbind result_bind Py.bind].
  rewrite !be16_value.
  set (regs := registers_at mem address count) in *.
  assert (Hbc : 2 * count = 2 * Z.of_nat (length regs)) by lia.
  rewrite Hbc.
  assert (Hresp :
    [tid / 256; tid mod 256; 0; 0]
      ++ be16_bytes (3 + 2 * Z.of_nat (length regs))
      ++ [unit_id (tcp_config self); 3; 2 * Z.of_nat (length regs)]
      ++ flat_map be16_bytes regs
    = ([tid / 256; tid mod 256; 0; 0]
         ++ be16_bytes (3 + 2 * Z.of_nat (length regs))
         ++ [unit_id (tcp_config self)])
      ++ [3; 2 * Z.of_nat (length regs)] ++ flat_map be16_bytes regs)
    by reflexivity.
  rewrite Hresp, firstn_all2.
  - rewrite parse_holding_registers_ok; [reflexivity|reflexivity| |lia].
    apply registers_at_words.
  - rewrite !length_app, flat_be16_length. cbn [length be16_bytes]. lia.
Qed.

Lemma tcp_holding_registers_round_trip_witness :
  sent (read_holding_registers example_tcp 16 2).2 =
    [[0; 1; 0; 0; 0; 6; 1; 3; 0; 16; 0; 2]]
  /\ returned (read_holding_registers example_tcp 16 2).2
     = Some [1016; 1017]
  /\ length (registers_at example_registers 16 2) = 2%nat.
Proof.
  apply (tcp_holding_registers_round_trip example_registers example_tcp
           16 2 eq_refl);
    cbn; unfold is_byte, is_word; lia.
Defined.

Lemma drop_last_2_app (body : list Z) lo hi :
  drop_last 2 (body ++ [lo; hi]) = body.
Proof.
  unfold drop_last. rewrite length_app. cbn [length].
  replace (length body + 2 - 2)%nat with (length body) by lia.
  apply take_app_length.
Qed.

Lemma last_n_2_app (body : list Z) lo hi :
  last_n 2 (body ++ [lo; hi]) = [lo; hi].
Proof.
  unfold last_n. rewrite length_app. cbn [length].
  replace (length body + 2 - 2)%nat with (length body) by lia.
  apply drop_app_length.
Qed.

(** The parser never gets past a CRC that does not match. *)
Lemma parse_input_registers_bad_crc body lo hi :
  hi * 256 + lo <> _calculate_crc body ->
  parse_input_registers (body ++ [lo; hi]) = Ok None.
Proof.
  intros Hcrc. unfold parse_input_registers.
  case_bool_decide; [|reflexivity].
  rewrite drop_last_2_app, last_n_2_app.
  cbn [unpack_H_le mbind result_bind Py.bind].
  destruct (Z.eqb_spec (hi * 256 + lo) (_calculate_crc body)); [lia|].
  reflexivity.
Qed.

Lemma parse_input_registers_ok unit regs :
  is_byte unit -> Forall is_word regs -> (length regs <= 127)%nat ->
  parse_input_registers (rtu_response unit regs) = Ok (Some regs).
Proof.
  intros Hu Hregs Hlen. unfold rtu_response, rtu_frame.
  set (body := [unit; 4; 2 * Z.of_nat (length regs)]
                 ++ flat_map be16_bytes regs).
  assert (Hbody : Forall is_byte body).
  { subst body. apply Forall_app. split.
    - repeat (apply Forall_cons_2; [unfold is_byte in *; lia|]).
      apply Forall_nil_2.
    - apply flat_be16_bytes, Hregs. }
  pose proof (calculate_crc_word body Hbody) as Hcrc.
  unfold parse_input_registers.
  rewrite bool_decide_eq_true_2
    by (rewrite length_app; subst body; cbn [length app]; lia).
  rewrite drop_last_2_app, last_n_2_app.
  cbn [unpack_H_le mbind result_bind Py.bind].
  rewrite be16_value, Z.eqb_refl.
  subst body. cbn [app index Py.index lookup list_lookup].
  cbn -[unpack_registers flat_map Z.mul Z.of_nat Z.to_nat Nat.add
        _calculate_crc Z.div Z.modulo].
  unfold slice. cbn [skipn].
  replace (3 + Z.to_nat (2 * Z.of_nat (length regs)) - 3)%nat
    with (length (flat_map be16_bytes regs))
    by (rewrite flat_be16_length; lia).
  rewrite ?drop_0, take_app_length, unpack_registers_be16 by assumption.
  reflexivity.
Qed.

(** The request frame for any checksum function that yields 16-bit
    values on bytes. *)
Lemma framed_request_ok (checksum : list Z -> Z) unit address count :
  (forall data, Forall is_byte data -> is_word (checksum data)) ->
  is_byte unit -> is_word address -> is_word count ->
  exists c1 c0,
    (frame_data ← pack_BBHH_be unit 4 address count;
     crc_bytes ← pack_H_le (checksum frame_data);
     Ok (frame_data ++ crc_bytes))
    = Ok [unit; 4; address / 256; address mod 256;
          count / 256; count mod 256; c0; c1].
Proof.
  intros Hsum Hu Ha Hc. unfold pack_BBHH_be.
  rewrite !pack_B_ok, !pack_H_be_ok
    by (assumption || (unfold is_byte; lia)).
  cbn [mbind result_bind Py.bind].
  remember ([unit] ++ [4] ++ be16_bytes address ++ be16_bytes count)
    as frame_data eqn:Hfd.
  assert (Hbytes : Forall is_byte frame_data).
  { rewrite Hfd. repeat (apply Forall_app; split).
    - apply Forall_cons_2; [exact Hu|apply Forall_nil_2].
    - apply Forall_cons_2; [unfold is_byte; lia|apply Forall_nil_2].
    - apply be16_bytes_are_bytes, Ha.
    - apply be16_bytes_are_bytes, Hc. }
  rewrite (pack_H_le_ok _ (Hsum frame_data Hbytes)).
  cbn [mbind result_bind Py.bind].
  rewrite Hfd.
  exists (checksum frame_data / 256), (checksum frame_data mod 256).
  rewrite Hfd. reflexivity.
Qed.

Lemma input_registers_frame_ok unit address count :
  is_byte unit -> is_word address -> is_word count ->
  exists c1 c0,
    input_registers_frame unit address count =
      Ok [unit; 4; address / 256; address mod 256;
          count / 256; count mod 256; c0; c1].
Proof.
  intros Hu Ha Hc.
  exact (framed_request_ok _calculate_crc unit address count
           calculate_crc_word Hu Ha Hc).
Qed.

Lemma input_registers_frame_framed unit address count :
  is_byte unit -> is_word address -> is_word count ->
  input_registers_frame unit address count
  = Ok (rtu_frame [unit; 4; address / 256; address mod 256;
                   count / 256; count mod 256]).
Proof.
  intros Hu Ha Hc.
  assert (Hgen : forall checksum : list Z -> Z,
    (forall data, Forall is_byte data -> is_word (checksum data)) ->
    (frame_data ← pack_BBHH_be unit 4 address count;
     crc_bytes ← pack_H_le (checksum frame_data);
     Ok (frame_data ++ crc_bytes))
    = Ok ([unit; 4; address / 256; address mod 256;
           count / 256; count mod 256]
          ++ [checksum [unit; 4; address / 256; address mod 256;
                        count / 256; count mod 256] mod 256;
              checksum [unit; 4; address / 256; address mod 256;
                        count / 256; count mod 256] / 256])).
  { intros checksum Hsum. unfold pack_BBHH_be.
    rewrite !pack_B_ok, !pack_H_be_ok
      by (assumption || (unfold is_byte; lia)).
    cbn [mbind result_bind Py.bind app be16_bytes].
    rewrite pack_H_le_ok; [reflexivity|].
    apply Hsum.
    pose proof (be16_bytes_are_bytes address Ha) as H1.
    pose proof (be16_bytes_are_bytes count Hc) as H2.
    apply Forall_cons_2; [exact Hu|].
    apply Forall_cons_2; [unfold is_byte; lia|].
    apply (Forall_app_2 _ (be16_bytes address) (be16_bytes count) H1 H2). }
  unfold input_registers_frame.
  exact (Hgen _calculate_crc calculate_crc_word).
Qed.

Lemma land_1_testbit (y : Z) : Z.land y 1 = Z.b2z (Z.testbit y 0).
Proof.
  change 1 with (Z.ones 1) at 1.
  rewrite Z.land_ones by lia. rewrite Z.bit0_mod. reflexivity.
Qed.

Lemma crc_shift_bit (crc x : Z) :
  crc_shift (Z.lxor crc x)
  = Z.lxor (crc16_bit crc (Z.testbit x 0)) (Z.shiftr x 1).
Proof.
  unfold crc_shift, crc16_bit.
  rewrite land_1_testbit, Z.lxor_spec, Z.shiftr_lxor.
  destruct (xorb (Z.testbit crc 0) (Z.testbit x 0)); cbn [Z.b2z Z.eqb].
  - rewrite !Z.lxor_assoc. f_equal. apply Z.lxor_comm.
  - reflexivity.
Qed.

Lemma iter_crc_shift_bits (n : nat) (crc byte : Z) :
  Nat.iter n crc_shift (Z.lxor crc byte)
  = Z.lxor
      (fold_left crc16_bit
         (map (fun i : nat => Z.testbit byte (Z.of_nat i)) (seq 0 n)) crc)
      (Z.shiftr byte (Z.of_nat n)).
Proof.
  induction n as [|n IH].
  - cbn [Nat.iter nat_rect seq map fold_left]. rewrite Z.shiftr_0_r.
    reflexivity.
  - rewrite Nat.iter_succ, IH, crc_shift_bit.
    rewrite seq_S, map_app, fold_left_app. cbn [map fold_left Nat.add].
    rewrite Z.shiftr_spec by lia. rewrite Z.shiftr_shiftr by lia.
    rewrite Z.add_0_l, Nat2Z.inj_succ, <- Z.add_1_r. reflexivity.
Qed.

Lemma crc_update_bits (crc byte : Z) :
  is_byte byte ->
  crc_update crc byte = fold_left crc16_bit (bits_lsb_first byte) crc.
Proof.
  intros Hb. unfold crc_update. rewrite iter_crc_shift_bits.
  replace (Z.shiftr byte (Z.of_nat 8)) with 0.
  - rewrite Z.lxor_0_r. reflexivity.
  - rewrite Z.shiftr_div_pow2 by lia. symmetry.
    apply Z.div_small. unfold is_byte in Hb.
    change (2 ^ Z.of_nat 8) with 256. lia.
Qed.

Lemma calculate_crc_bits (data : list Z) :
  Forall is_byte data -> _calculate_crc data = crc16_lsb_first data.
Proof.
  unfold _calculate_crc, crc16_lsb_first. generalize 65535.
  induction data as [|byte data IH]; intros crc Hall; [reflexivity|].
  apply Forall_cons in Hall as [Hb Hall].
  cbn [fold_left flat_map]. rewrite fold_left_app.
  rewrite <- (crc_update_bits crc byte Hb). apply IH, Hall.
Qed.

(** C6. A received frame whose last two bytes are not the CRC-16 of the
    bytes before them is rejected: the parser gives no values and
    [read_input_registers] returns [None]. The frame that carries 16-bit
    registers with its CRC appended decodes to these registers, so that
    a read against a well-behaved device returns the device's registers.
    The CRC that is checked and appended is the CRC-16 with polynomial
    0xA001 and initial value 0xFFFF, each byte least significant bit
    first: on every byte sequence it is the value of the bit-by-bit
    definition, on the digits 1 to 9 it is the check value 4B37, and the
    request that the encoder builds is its six bytes followed by this
    CRC, low byte first. *)
Theorem rtu_crc_checked_and_round_trip :
  (forall body lo hi,
      hi * 256 + lo <> _calculate_crc body ->
      parse_input_registers (body ++ [lo; hi]) = Ok None)
  /\ (forall self peer address count body lo hi,
         serial_port self = Some peer ->
         (forall frame,
             exists response,
               peer frame = Ok response
               /\ take 1024 response = body ++ [lo; hi]) ->
         hi * 256 + lo <> _calculate_crc body ->
         returned (read_input_registers self address count) = None)
  /\ (forall unit regs,
         is_byte unit -> Forall is_word regs -> (length regs <= 127)%nat ->
         parse_input_registers (rtu_response unit regs) = Ok (Some regs))
  /\ (forall mem self address count,
         serial_port self = Some (rtu_device mem) ->
         is_byte (unit_id (rtu_config self)) ->
         is_word address -> 0 <= count <= 127 ->
         returned (read_input_registers self address count)
         = Some (registers_at mem address count))
  /\ (forall data,
         Forall is_byte data -> _calculate_crc data = crc16_lsb_first data)
  /\ _calculate_crc [49; 50; 51; 52; 53; 54; 55; 56; 57] = 0x4B37
  /\ (forall unit address count,
         is_byte unit -> is_word address -> is_word count ->
         input_registers_frame unit address count
         = Ok ([unit; 4; address / 256; address mod 256;
                count / 256; count mod 256]
               ++ [crc16_lsb_first
                     [unit; 4; address / 256; address mod 256;
                      count / 256; count mod 256] mod 256;
                   crc16_lsb_first
                     [unit; 4; address / 256; address mod 256;
                      count / 256; count mod 256] / 256]))
  /\ (forall body lo hi,
         Forall is_byte body ->
         hi * 256 + lo <> crc16_lsb_first body ->
         parse_input_registers (body ++ [lo; hi]) = Ok None).
Proof.
  split; [exact parse_input_registers_bad_crc|].
  split.
  { intros self peer address count body lo hi Hport Hpeer Hcrc.
    unfold read_input_registers.
    destruct (input_registers_frame _ _ _) as [frame|]; [|reflexivity].
    rewrite Hport. cbn [returned].
    destruct (Hpeer frame) as (response & -> & Hrecv).
    cbn [mbind result_bind Py.bind]. rewrite Hrecv.
    rewrite (parse_input_registers_bad_crc _ _ _ Hcrc). reflexivity. }
  split; [exact parse_input_registers_ok|].
  split.
  { intros mem self address count Hport Hu Ha Hc.
    unfold read_input_registers.
    destruct (input_registers_frame_ok (unit_id (rtu_config self)) address
                count Hu Ha ltac:(unfold is_word; lia)) as (c1 & c0 & ->).
    rewrite Hport. cbn [returned].
    unfold rtu_device. cbn [mbind result_bind Py.bind].
    rewrite !be16_value.
    set (regs := registers_at mem address count).
    assert (Hlen : length regs = Z.to_nat count)
      by apply registers_at_length.
    rewrite firstn_all2.
    - rewrite parse_input_registers_ok;
        [reflexivity|assumption|apply registers_at_words|lia].
    - unfold rtu_response, rtu_frame.
      rewrite !length_app, flat_be16_length. cbn [length]. lia. }
  split; [exact calculate_crc_bits|].
  split; [vm_compute; reflexivity|].
  split.
  { intros unit address count Hu Ha Hc.
    rewrite (input_registers_frame_framed unit address count Hu Ha Hc).
    unfold rtu_frame. rewrite calculate_crc_bits; [reflexivity|].
    pose proof (be16_bytes_are_bytes address Ha) as H1.
    pose proof (be16_bytes_are_bytes count Hc) as H2.
    apply Forall_cons_2; [exact Hu|].
    apply Forall_cons_2; [unfold is_byte; lia|].
    apply (Forall_app_2 _ (be16_bytes address) (be16_bytes count) H1 H2). }
  intros body lo hi Hbody Hcrc.
  apply parse_input_registers_bad_crc.
  rewrite calculate_crc_bits by exact Hbody. exact Hcrc.
Qed.

Lemma rtu_crc_checked_and_round_trip_witness :
  parse_input_registers ([1; 4; 2; 3; 232] ++ [0; 0]) = Ok None
  /\ parse_input_registers (rtu_response 1 [1000]) = Ok (Some [1000]).
Proof.
  split.
  - apply (proj1 rtu_crc_checked_and_round_trip).
    vm_compute. discriminate.
  - apply (proj1 (proj2 (proj2 rtu_crc_checked_and_round_trip))).
    + unfold is_byte. lia.
    + apply Forall_cons_2; [unfold is_word; lia|apply Forall_nil_2].
    + cbn. lia.
Defined.

(** The request of the Modbus reference (unit 1, function 4, address 0,
    one register) carries the CRC bytes 31 CA, and the check value of
    CRC-16/MODBUS is 4B37. *)
Example crc_reference_request :
  input_registers_frame 1 0 1 = Ok [1; 4; 0; 0; 0; 1; 0x31; 0xCA]
  /\ _calculate_crc [1; 4; 0; 0; 0; 1] = 0xCA31
  /\ _calculate_crc [49; 50; 51; 52; 53; 54; 55; 56; 57] = 0x4B37.
Proof. vm_compute. repeat split. Qed.

End ProtocolTheorems.

(** ** Data buffer *)

Section DictFacts.

Context {V : Type}.
Implicit Types (d : PyDict.t V) (k : string) (v : V).

Lemma get_set_eq d k v : PyDict.get (PyDict.set d k v) k = Some v.
Proof.
  induction d as [|[k' v'] d IH]; cbn.
  - rewrite String.eqb_refl. reflexivity.
  - destruct (String.eqb_spec k k') as [->|Hne]; cbn.
    + rewrite String.eqb_refl. reflexivity.
    + destruct (String.eqb_spec k k'); [contradiction|exact IH].
Qed.

Lemma get_set_ne d k k' v :
  k <> k' -> PyDict.get (PyDict.set d k v) k' = PyDict.get d k'.
Proof.
  intros Hne. induction d as [|[k0 v0] d IH]; cbn.
  - destruct (String.eqb_spec k' k); [congruence|reflexivity].
  - destruct (String.eqb_spec k k0) as [->|Hk]; cbn.
    + destruct (String.eqb_spec k' k0); [congruence|reflexivity].
    + destruct (String.eqb_spec k' k0); [reflexivity|exact IH].
Qed.

Lemma get_del_eq d k : PyDict.get (PyDict.del d k) k = None.
Proof.
  induction d as [|[k' v'] d IH]; cbn; [reflexivity|].
  destruct (String.eqb_spec k k') as [->|Hne]; cbn; [exact IH|].
  destruct (String.eqb_spec k k'); [contradiction|exact IH].
Qed.

Lemma get_del_ne d k k' :
  k <> k' -> PyDict.get (PyDict.del d k) k' = PyDict.get d k'.
Proof.
  intros Hne. induction d as [|[k0 v0] d IH]; cbn; [reflexivity|].
  destruct (String.eqb_spec k k0) as [->|Hk]; cbn.
  - destruct (String.eqb_spec k' k0); [congruence|exact IH].
  - destruct (String.eqb_spec k' k0); [reflexivity|exact IH].
Qed.

End DictFacts.

Section BufferFacts.

Import Monitoring Notions.

Lemma add_point_max_size self p d :
  max_size (add_point self p d) = max_size self.
Proof. reflexivity. Qed.

Lemma add_point_samples self p d :
  samples (add_point self p d) p
  = after_append (max_size self) (samples self p) d.
Proof.
  unfold samples, add_point, after_append, PyDict.contains. cbn [buffer].
  rewrite get_set_eq. cbn [default].
  destruct (PyDict.get (buffer self) p) as [l|] eqn:Hget.
  - rewrite Hget. reflexivity.
  - rewrite get_set_eq. reflexivity.
Qed.

Lemma add_point_samples_other self p q d :
  q <> p -> samples (add_point self q d) p = samples self p.
Proof.
  intros Hne. unfold samples, add_point, PyDict.contains. cbn [buffer].
  rewrite get_set_ne by exact Hne.
  destruct (PyDict.get (buffer self) q); [reflexivity|].
  rewrite get_set_ne by exact Hne. reflexivity.
Qed.

Lemma add_all_max_size inserts self :
  max_size (add_all self inserts) = max_size self.
Proof.
  revert self. induction inserts as [|i inserts IH]; intros self;
    [reflexivity|].
  cbn. unfold add_all in IH. rewrite IH. reflexivity.
Qed.

Lemma after_append_length N old d :
  (length old <= Z.to_nat N)%nat ->
  (length (after_append N old d) <= Z.to_nat N)%nat.
Proof.
  intros Hlen. unfold after_append. rewrite length_app. cbn [length].
  destruct (Z.ltb_spec N (Z.of_nat (length old + 1))).
  - destruct old as [|x old]; cbn in *; [lia|].
    rewrite length_app. cbn. lia.
  - rewrite length_app. cbn. lia.
Qed.

(** The samples of a point are the last [max_size] of those it had and
    those added since. *)
Lemma after_append_window N old d :
  (length old <= Z.to_nat N)%nat ->
  after_append N old d
  = drop (length (old ++ [d]) - Z.to_nat N) (old ++ [d]).
Proof.
  intros Hlen. unfold after_append. rewrite length_app. cbn [length].
  destruct (Z.ltb_spec N (Z.of_nat (length old + 1))).
  - assert (Hfull : length old = Z.to_nat N) by lia.
    replace (length old + 1 - Z.to_nat N)%nat with 1%nat by lia.
    destruct old; reflexivity.
  - replace (length old + 1 - Z.to_nat N)%nat with 0%nat by lia.
    reflexivity.
Qed.

Lemma add_all_window p inserts : forall self,
  (length (samples self p) <= Z.to_nat (max_size self))%nat ->
  let all := samples self p ++ inserted_for p inserts in
  samples (add_all self inserts) p
  = drop (length all - Z.to_nat (max_size self)) all.
Proof.
  induction inserts as [|[q d] inserts IH]; intros self Hlen all.
  - subst all. unfold inserted_for. cbn. rewrite app_nil_r.
    replace (length (samples self p) - Z.to_nat (max_size self))%nat
      with 0%nat by lia.
    reflexivity.
  - cbn [add_all fold_left fst snd]. fold (add_all (add_point self q d) inserts).
    destruct (decide (q = p)) as [->|Hne].
    + assert (Hstep := add_point_samples self p d).
      assert (Hlen' := after_append_length (max_size self) _ d Hlen).
      rewrite <- Hstep in Hlen'.
      rewrite IH by (rewrite add_point_max_size; exact Hlen').
      rewrite add_point_max_size, Hstep.
      subst all. unfold inserted_for.
      rewrite filter_cons_True by reflexivity. cbn [map snd].
      rewrite (after_append_window _ _ _ Hlen).
      set (N := Z.to_nat (max_size self)) in *.
      set (old := samples self p) in *.
      set (rest := map snd (filter _ inserts)).
      replace (old ++ d :: rest) with ((old ++ [d]) ++ rest)
        by (rewrite <- app_assoc; reflexivity).
      set (l := old ++ [d]).
      assert (Hl : (length l <= S N)%nat)
        by (subst l; rewrite length_app; cbn; lia).
      destruct (decide (length l <= N)%nat).
      * replace (length l - N)%nat with 0%nat by lia. rewrite drop_0.
        reflexivity.
      * replace (length l - N)%nat with 1%nat by lia.
        rewrite <- (drop_app_le l rest 1) by lia.
        rewrite drop_drop, length_drop. f_equal.
        rewrite length_app. lia.
    + rewrite IH
        by (rewrite add_point_max_size, add_point_samples_other; auto).
      rewrite add_point_max_size, add_point_samples_other by auto.
      subst all. unfold inserted_for.
      rewrite filter_cons_False by (cbn; auto). reflexivity.
Qed.

Lemma inserted_for_same p (ds : list MonitoringData.t) :
  inserted_for p (map (pair p) ds) = ds.
Proof.
  unfold inserted_for. induction ds as [|d ds IH]; [reflexivity|].
  cbn [map]. rewrite filter_cons_True by reflexivity.
  cbn [map snd]. rewrite IH. reflexivity.
Qed.

Lemma last_tail {A} (l : list A) :
  (2 <= length l)%nat -> last (tail l) = last l.
Proof.
  destruct l as [|x [|y l]]; cbn [length]; try lia. reflexivity.
Qed.

(** C3. A buffer of capacity [N] never holds more than [N] samples of a
    point; adding to a full buffer drops exactly the oldest sample and
    appends the new one; and after [N + 1] insertions into an empty
    buffer exactly [N] samples remain: all but the first, in insertion
    order, the newest last. *)
Theorem data_buffer_fifo_bound (N : Z) :
  0 < N ->
  (forall inserts p,
      (length (samples (add_all (DataBuffer_init N) inserts) p)
       <= Z.to_nat N)%nat)
  /\ (forall self p d,
         max_size self = N ->
         length (samples self p) = Z.to_nat N ->
         samples (add_point self p d) p = tail (samples self p) ++ [d])
  /\ (forall p ds,
         length ds = S (Z.to_nat N) ->
         let after :=
           samples (add_all (DataBuffer_init N) (map (pair p) ds)) p in
         after = tail ds
         /\ length after = Z.to_nat N
         /\ last after = last ds).
Proof.
  intros HN.
  assert (Hinit : forall p,
    (length (samples (DataBuffer_init N) p)
     <= Z.to_nat (max_size (DataBuffer_init N)))%nat)
    by (intros p; cbn; lia).
  split; [|split].
  - intros inserts p.
    rewrite (add_all_window p inserts _ (Hinit p)).
    rewrite length_drop. cbn [max_size DataBuffer_init]. lia.
  - intros self p d HmaxN Hfull.
    rewrite add_point_samples, HmaxN. unfold after_append.
    rewrite length_app. cbn [length].
    destruct (Z.ltb_spec N (Z.of_nat (length (samples self p) + 1)));
      [|lia].
    destruct (samples self p); [cbn in Hfull; lia|reflexivity].
  - intros p ds Hlen after. subst after.
    rewrite (add_all_window p _ _ (Hinit p)).
    rewrite inserted_for_same.
    cbn [samples DataBuffer_init buffer PyDict.get PyDict.empty default
         max_size app].
    rewrite Hlen.
    replace (S (Z.to_nat N) - Z.to_nat N)%nat with 1%nat by lia.
    change (drop 1 ds) with (tail ds).
    split; [reflexivity|]. split.
    + destruct ds; cbn in *; lia.
    + apply last_tail. lia.
Qed.

Lemma data_buffer_fifo_bound_witness :
  0 < 2
  /\ forall a b c : MonitoringData.t,
       samples (add_all (DataBuffer_init 2)
                  (map (pair "T001"%string) [a; b; c])) "T001"
       = [b; c].
Proof.
  split; [reflexivity|]. intros a b c.
  apply (proj2 (proj2 (data_buffer_fifo_bound 2 eq_refl))
           "T001"%string [a; b; c] eq_refl).
Defined.

End BufferFacts.

(** ** Scan scheduler *)

Section ScannerFacts.

Import Monitoring Notions.

Lemma scan_event_buffer self e :
  data_buffer (scan_event self e)
  = match event_insert e with
    | Some i => add_point (data_buffer self) i.1 i.2
    | None => data_buffer self
    end.
Proof.
  destruct e as [[point read] now].
  unfold scan_event, scan_iteration, event_insert. cbn [fst snd].
  destruct read; reflexivity.
Qed.









End ScannerFacts.

Section ScannerTheorems.

Import Protocols Monitoring Notions Examples.


(** C5, as stated, fails: with three retries configured, a read from a
    device that does not answer sends one frame, never reconnects and
    returns [None]; and a pass of the scan loop whose read raises
    records no sample at all. *)
Lemma failed_read_not_retried_nor_recorded :
  retries (tcp_config unreachable_device) = 3
  /\ length (sent (read_holding_registers unreachable_device 0 1).2)
     = 1%nat
  /\ connects (read_holding_registers unreachable_device 0 1).2 = 0%nat
  /\ returned (read_holding_registers unreachable_device 0 1).2 = None
  /\ ~ records_bad_sample
         (scan_loop scanning_T001 T001 0%nat [(Raise IOError, 10)])
         "T001".
Proof.
  repeat split.
  intros (d & Hd & _). vm_compute in Hd. inversion Hd.
Qed.

Lemma samples_good_after_append N old d x :
  x ∈ after_append N old d -> x ∈ old \/ x = d.
Proof.
  unfold after_append. intros Hx.
  assert (Hin : x ∈ old ++ [d]).
  { destruct (_ <? _); [|exact Hx].
    destruct (old ++ [d]); [inversion Hx|]. apply elem_of_cons. auto. }
  apply elem_of_app in Hin. destruct Hin as [Hin|Hin]; [auto|].
  apply list_elem_of_singleton in Hin. auto.
Qed.

Lemma scan_event_samples e self p x :
  x ∈ samples (data_buffer (scan_event self e)) p ->
  x ∈ samples (data_buffer self) p
  \/ (MonitoringData.quality x = "GOOD"%string
      /\ MonitoringData.status x = "ONLINE"%string).
Proof.
  rewrite scan_event_buffer. destruct (event_insert e) as [[q d]|] eqn:He;
    [|auto].
  cbn [fst snd]. destruct (decide (q = p)) as [->|Hne].
  - rewrite add_point_samples. intros Hx.
    apply samples_good_after_append in Hx. destruct Hx as [Hx| ->]; [auto|].
    right. unfold event_insert in He.
    destruct (e.1.2); [|discriminate]. injection He as _ <-. auto.
  - rewrite add_point_samples_other by exact Hne. auto.
Qed.

(** C5, amended. A read makes one attempt: [read_holding_registers]
    sends at most one frame, never reconnects, and returns [None] when
    the exchange fails. A pass of the scan loop whose read raises leaves
    the system, and so the buffer, as it was, and the loop goes on with
    the next pass. Every sample the scan loops record has quality GOOD
    and status ONLINE. *)
Theorem failed_read_makes_one_attempt_and_loop_continues :
  (forall self address count,
      (length (sent (read_holding_registers self address count).2) <= 1)%nat
      /\ connects (read_holding_registers self address count).2 = 0%nat)
  /\ (forall self peer e address count,
         socket self = Some peer ->
         (forall frame, peer frame = Raise e) ->
         returned (read_holding_registers self address count).2 = None)
  /\ (forall self point e now,
         scan_iteration self point (Raise e) now = self)
  /\ (forall self point thread_info e now env,
         scan_guard self thread_info = true ->
         scan_loop self point thread_info ((Raise e, now) :: env)
         = scan_loop self point thread_info env)
  /\ (forall self events p x,
         buffer (data_buffer self) = PyDict.empty ->
         x ∈ samples (data_buffer (run_scans self events)) p ->
         MonitoringData.quality x = "GOOD"%string
         /\ MonitoringData.status x = "ONLINE"%string).
Proof.
  split; [|split; [|split; [|split]]].
  - intros self address count. unfold read_holding_registers.
    destruct (holding_registers_frame _ _ _ _); [|cbn; lia].
    cbn [socket tcp_set_transaction_id].
    destruct (socket self); cbn; lia.
  - intros self peer e address count Hsock Hpeer.
    unfold read_holding_registers.
    destruct (holding_registers_frame _ _ _ _); [|reflexivity].
    cbn [socket tcp_set_transaction_id]. rewrite Hsock.
    cbn [snd returned]. rewrite Hpeer. reflexivity.
  - reflexivity.
  - intros self point thread_info e now env Hguard. cbn [scan_loop].
    rewrite Hguard. reflexivity.
  - intros self events p x Hempty.
    assert (Hinv : forall evs s,
      (forall y, y ∈ samples (data_buffer s) p ->
                 MonitoringData.quality y = "GOOD"%string
                 /\ MonitoringData.status y = "ONLINE"%string) ->
      forall y, y ∈ samples (data_buffer (run_scans s evs)) p ->
                MonitoringData.quality y = "GOOD"%string
                /\ MonitoringData.status y = "ONLINE"%string).
    { induction evs as [|ev evs IH]; intros s Hs y Hy; [auto|].
      cbn [run_scans fold_left] in Hy.
      apply (IH (scan_event s ev)); [|exact Hy].
      intros z Hz. apply scan_event_samples in Hz.
      destruct Hz as [Hz|Hz]; auto. }
    apply Hinv. intros y Hy. unfold samples in Hy. rewrite Hempty in Hy.
    inversion Hy.
Qed.

Lemma failed_read_makes_one_attempt_and_loop_continues_witness :
  returned (read_holding_registers unreachable_device 0 1).2 = None
  /\ scan_loop scanning_T001 T001 0%nat [(Raise IOError, 10); (Ok 96, 11)]
     = scan_loop scanning_T001 T001 0%nat [(Ok 96, 11)].
Proof.
  split.
  - apply (proj1 (proj2 failed_read_makes_one_attempt_and_loop_continues)
             unreachable_device (fun _ => Raise IOError) IOError 0 1
             eq_refl (fun _ => eq_refl)).
  - apply (proj1 (proj2 (proj2 (proj2
             failed_read_makes_one_attempt_and_loop_continues)))
             scanning_T001 T001 0%nat IOError 10 [(Ok 96, 11)] eq_refl).
Defined.

End ScannerTheorems.

(** ** Notification dispatcher *)

Section DispatcherTheorems.

Import Monitoring Examples.

Lemma process_alert_notification_calls self alert :
  (_process_alert_notification self alert).2
  = [Call_send_webhook_alert; Call_broadcast_alert].
Proof.
  unfold _process_alert_notification. cbn [fst snd].
  destruct (Alert.priority alert); reflexivity.
Qed.

(** C4 at a CRITICAL, a HIGH and a LOW alert. The branch of the
    dispatcher that its own comment marks as all channels calls the
    webhook sender and the live broadcast only: the CRITICAL alert
    reaches neither the email nor the SMS sender. The branch marked
    email and webhook does not reach the email sender for the HIGH
    alert. The LOW alert is handed to the webhook sender and also to the
    live broadcast. *)
Theorem critical_alert_not_sent_to_email_or_sms :
  ((_process_alert_notification RealTimeMonitoringSystem_init
      (example_alert CRITICAL)).2
   = [Call_send_webhook_alert; Call_broadcast_alert])
  /\ (Call_send_email_alert
       ∉ (_process_alert_notification RealTimeMonitoringSystem_init
            (example_alert CRITICAL)).2)
  /\ (Call_send_sms_alert
       ∉ (_process_alert_notification RealTimeMonitoringSystem_init
            (example_alert CRITICAL)).2)
  /\ ((_process_alert_notification RealTimeMonitoringSystem_init
         (example_alert HIGH)).2
      = [Call_send_webhook_alert; Call_broadcast_alert])
  /\ (Call_send_email_alert
       ∉ (_process_alert_notification RealTimeMonitoringSystem_init
            (example_alert HIGH)).2)
  /\ (Call_broadcast_alert
       ∈ (_process_alert_notification RealTimeMonitoringSystem_init
            (example_alert LOW)).2).
Proof.
  rewrite !process_alert_notification_calls.
  repeat split;
    try (intros Hin;
         repeat (apply elem_of_cons in Hin as [Hin|Hin]; [discriminate|]);
         inversion Hin).
  apply elem_of_cons. right. apply elem_of_cons. left. reflexivity.
Qed.

End DispatcherTheorems.

(** ** Alert lifecycle *)

Section LifecycleTheorems.

Import Monitoring Examples.

(** C8. Resolving or acknowledging an alert id that is not in the active
    set, whether unknown or already resolved, returns failure and leaves
    the manager and every alert object as they were. Resolving an alert
    of the active set, acknowledged or not, succeeds, sets [resolved]
    and [resolved_time] on the alert object, touches no other object,
    and removes the id from the active set, so that a second resolve
    and a later acknowledge of that id fail without any change. *)
Theorem resolve_and_acknowledge_lifecycle :
  (forall self alert_id now,
      PyDict.get (active_alerts self) alert_id = None ->
      resolve_alert self alert_id now = (self, false))
  /\ (forall self alert_id user now,
         PyDict.get (active_alerts self) alert_id = None ->
         acknowledge_alert self alert_id user now = (self, false))
  /\ (forall self alert_id r a now,
         PyDict.get (active_alerts self) alert_id = Some r ->
         heap self !! r = Some a ->
         let self' := (resolve_alert self alert_id now).1 in
         (resolve_alert self alert_id now).2 = true
         /\ heap self' !! r = Some (Alert.set_resolved a now)
         /\ Alert.resolved (Alert.set_resolved a now) = true
         /\ Alert.resolved_time (Alert.set_resolved a now) = Some now
         /\ (forall r', r' <> r -> heap self' !! r' = heap self !! r')
         /\ PyDict.get (active_alerts self') alert_id = None
         /\ (forall other, other <> alert_id ->
               PyDict.get (active_alerts self') other
               = PyDict.get (active_alerts self) other)
         /\ (forall later, resolve_alert self' alert_id later
                           = (self', false))
         /\ (forall user later,
               acknowledge_alert self' alert_id user later
               = (self', false))).
Proof.
  split; [|split].
  - intros self alert_id now Hnone. unfold resolve_alert.
    rewrite Hnone. reflexivity.
  - intros self alert_id user now Hnone. unfold acknowledge_alert.
    rewrite Hnone. reflexivity.
  - intros self alert_id r a now Hactive Hobj self'.
    assert (Hgone : PyDict.get (active_alerts self') alert_id = None).
    { subst self'. unfold resolve_alert. rewrite Hactive.
      cbn [fst active_alerts]. apply get_del_eq. }
    subst self'. unfold resolve_alert in *. rewrite Hactive in *.
    cbn [fst snd heap active_alerts] in *.
    split; [reflexivity|]. split.
    { rewrite lookup_alter_eq, Hobj. reflexivity. }
    split; [reflexivity|]. split; [reflexivity|]. split.
    { intros r' Hne. apply lookup_alter_ne. congruence. }
    split; [exact Hgone|]. split.
    { intros other Hne. apply get_del_ne. congruence. }
    split.
    + intros later. cbn [active_alerts]. rewrite Hgone. reflexivity.
    + intros user later. unfold acknowledge_alert. cbn [active_alerts].
      rewrite Hgone. reflexivity.
Qed.

Lemma resolve_and_acknowledge_lifecycle_witness :
  resolve_alert manager_with_active_alert "unknown" 5
  = (manager_with_active_alert, false)
  /\ (resolve_alert manager_with_active_alert "TEMP_HIGH_1700000000" 5).2
     = true.
Proof.
  split.
  - apply (proj1 resolve_and_acknowledge_lifecycle). reflexivity.
  - apply (proj2 (proj2 resolve_and_acknowledge_lifecycle)
             manager_with_active_alert "TEMP_HIGH_1700000000"%string
             0%nat (example_alert CRITICAL) 5 eq_refl eq_refl).
Defined.

End LifecycleTheorems.

(** ** Active alerts *)

Section ActiveAlertsTheorems.

Import Monitoring Notions Examples.




Section Sorting.
Context {A : Type} (key : A -> Z * Z).






End Sorting.







Example get_active_alerts_order :
  map Alert.priority (get_active_alerts manager_with_three_alerts None)
  = [EMERGENCY; CRITICAL; HIGH]
  /\ map Alert.priority
       (get_active_alerts manager_with_three_alerts (Some CRITICAL))
     = [CRITICAL].
Proof. vm_compute. split; reflexivity. Qed.

End ActiveAlertsTheorems.

(** ** Alert rule engine *)

Section EngineTheorems.

Import Monitoring.

Section AnyRuntime.
Context `{PyRuntime}.

(** The constructor call of [_trigger_alert] passes the keyword
    [acknowledgement_required], which [Alert] does not declare; so the
    call raises whenever the template has been formatted. *)
Lemma trigger_alert_raises self rule monitoring_data now :
  exists e, _trigger_alert self rule monitoring_data now = Raise e.
Proof.
  unfold _trigger_alert.
  destruct (find_source _ _) as [source_point current_value].
  destruct (str_format _ _ _ _) as [message|e]; cbn; eauto.
Qed.

(** The exception is caught by the handler of [evaluate_alerts]. *)
Lemma evaluate_rule_unchanged monitoring_data now self item :
  evaluate_rule monitoring_data now self item = self.
Proof.
  destruct item as [rule_id rule]. unfold evaluate_rule.
  destruct (negb _); [reflexivity|].
  destruct (in_cooldown _ _ _ _); [reflexivity|].
  destruct (py_eval _ _ _) as [[|]|e]; cbn; try reflexivity.
  destruct (trigger_alert_raises self rule monitoring_data now)
    as [e ->].
  reflexivity.
Qed.

Lemma evaluate_alerts_unchanged self monitoring_data now :
  evaluate_alerts self monitoring_data now = self.
Proof.
  unfold evaluate_alerts. generalize (alert_rules self) at 1.
  intros rules. induction rules as [|item rules IH]; cbn;
    [reflexivity|].
  rewrite evaluate_rule_unchanged. exact IH.
Qed.

Lemma evaluation_cycles_unchanged self monitoring_data clock :
  evaluation_cycles self monitoring_data clock = self.
Proof.
  unfold evaluation_cycles.
  induction clock as [|now clock IH]; cbn; [reflexivity|].
  rewrite evaluate_alerts_unchanged. exact IH.
Qed.

(** The cooldown test itself: a rule whose last trigger is less than
    [cooldown_minutes] old is skipped. *)
Lemma rule_in_cooldown_skipped monitoring_data now self rule_id rule
    last :
  cooldown_tracker self !! rule_id = Some last ->
  now < last + timedelta_minutes (AlertRule.cooldown_minutes rule) ->
  in_cooldown self rule_id rule now = true
  /\ evaluate_rule monitoring_data now self (rule_id, rule) = self.
Proof.
  intros Hlast Hnow. split; [|apply evaluate_rule_unchanged].
  unfold in_cooldown. rewrite Hlast. apply Z.ltb_lt, Hnow.
Qed.

End AnyRuntime.

Import Runtime.

(** C1 at T001 = 96 with the rule [get_value('T001') > 95] at CRITICAL
    priority: the rule is enabled and not in cooldown, its condition is
    true and its template formats to a message with 96 and T001, but
    the construction of the alert raises [TypeError]; the cycle ends
    with no active alert, no history, no cooldown and an empty
    notification queue. *)
Theorem scenario_cycle_creates_no_alert (now : Z) :
  AlertRule.enabled TEMP_HIGH = true
  /\ in_cooldown manager_TEMP_HIGH "TEMP_HIGH" TEMP_HIGH now = false
  /\ py_eval (AlertRule.condition TEMP_HIGH) (snapshot_96 now) now
     = Ok true
  /\ str_format (AlertRule.message_template TEMP_HIGH) (Some 96) "T001"
       (strftime now)
     = Ok "Temperature alarm: 96°C at point T001"%string
  /\ _trigger_alert manager_TEMP_HIGH TEMP_HIGH (snapshot_96 now) now
     = Raise (TypeError
                "__init__() got an unexpected keyword argument 'acknowledgement_required'")
  /\ evaluate_alerts manager_TEMP_HIGH (snapshot_96 now) now
     = manager_TEMP_HIGH
  /\ get_active_alerts
       (evaluate_alerts manager_TEMP_HIGH (snapshot_96 now) now) None
     = []
  /\ alert_queue (evaluate_alerts manager_TEMP_HIGH (snapshot_96 now) now)
     = [].
Proof.
  rewrite evaluate_alerts_unchanged.
  repeat split.
Qed.

(** C2 with a cooldown of 5 minutes and a condition that stays true,
    evaluated every second for 10 minutes: no alert is created, where
    two are expected, because every construction of an alert raises. *)
Theorem cooldown_scenario_creates_no_alert :
  AlertRule.cooldown_minutes TEMP_HIGH = 5
  /\ length (every_second 0 600) = 600%nat
  /\ (forall now,
         py_eval (AlertRule.condition TEMP_HIGH) (snapshot_96 0) now
         = Ok true)
  /\ alert_history
       (evaluation_cycles manager_TEMP_HIGH (snapshot_96 0)
          (every_second 0 600))
     = []
  /\ active_alerts
       (evaluation_cycles manager_TEMP_HIGH (snapshot_96 0)
          (every_second 0 600))
     = [].
Proof.
  rewrite evaluation_cycles_unchanged.
  repeat split.
Qed.

End EngineTheorems.

(** * Further properties of the protocol classes *)

Section ChecksumFacts.

Import Struct Protocols Device.

Lemma lxor_low_byte c : 0 <= c -> Z.lxor c (c mod 256) = 256 * (c / 256).
Proof.
  intros Hc. apply Z.bits_inj'. intros n Hn.
  change 256 with (2 ^ 8).
  rewrite Z.lxor_spec, <- Z.shiftr_div_pow2, Z.mul_comm,
    <- Z.shiftl_mul_pow2 by lia.
  destruct (Z.lt_ge_cases n 8) as [Hlt|Hge].
  - rewrite Z.mod_pow2_bits_low, Z.shiftl_spec_low by lia.
    apply xorb_nilpotent.
  - rewrite Z.mod_pow2_bits_high, Z.shiftl_spec, Z.shiftr_spec by lia.
    rewrite xorb_false_r. f_equal. lia.
Qed.

Lemma crc_shift_double x : 0 <= x -> crc_shift (2 * x) = x.
Proof.
  intros Hx. unfold crc_shift.
  assert (Hland : Z.land (2 * x) 1 = 0).
  { change 1 with (Z.ones 1). rewrite Z.land_ones by lia.
    change (2 ^ 1) with 2. rewrite Z.mul_comm. apply Z.mod_mul. lia. }
  rewrite Hland. cbn [Z.eqb].
  rewrite Z.shiftr_div_pow2 by lia. change (2 ^ 1) with 2.
  rewrite Z.mul_comm. apply Z.div_mul. lia.
Qed.

Lemma iter_crc_shift k x :
  0 <= x -> Nat.iter k crc_shift (2 ^ Z.of_nat k * x) = x.
Proof.
  intros Hx. induction k as [|k IH].
  - cbn [Nat.iter nat_rect]. change (2 ^ Z.of_nat 0) with 1. lia.
  - rewrite Nat.iter_succ_r.
    replace (2 ^ Z.of_nat (S k) * x) with (2 * (2 ^ Z.of_nat k * x))
      by (rewrite Nat2Z.inj_succ, Z.pow_succ_r by lia; ring).
    rewrite crc_shift_double by (apply Z.mul_nonneg_nonneg; lia).
    exact IH.
Qed.

(** Feeding a CRC its own low byte leaves its high byte. *)
Lemma crc_update_low_byte c : 0 <= c -> crc_update c (c mod 256) = c / 256.
Proof.
  intros Hc. unfold crc_update. rewrite lxor_low_byte by exact Hc.
  apply (iter_crc_shift 8 (c / 256)). apply Z.div_pos; lia.
Qed.

Lemma crc_update_self h : crc_update h h = 0.
Proof. unfold crc_update. rewrite Z.lxor_nilpotent. reflexivity. Qed.

Lemma calculate_crc_app data more :
  _calculate_crc (data ++ more)
  = fold_left crc_update more (_calculate_crc data).
Proof. unfold _calculate_crc. apply fold_left_app. Qed.

(** X1. The CRC of a frame followed by its own CRC, low byte first, is
    zero. *)
Theorem crc_of_framed_data_is_zero (data : list Z) :
  Forall is_byte data ->
  _calculate_crc (rtu_frame data) = 0.
Proof.
  intros Hdata. unfold rtu_frame. rewrite calculate_crc_app.
  pose proof (calculate_crc_word data Hdata) as Hw.
  remember (_calculate_crc data) as crc eqn:Hcrc. clear Hcrc.
  cbn [fold_left].
  rewrite crc_update_low_byte by (unfold is_word in Hw; lia).
  apply crc_update_self.
Qed.

Lemma crc_of_framed_data_is_zero_witness :
  _calculate_crc (rtu_frame [1; 4; 0; 0; 0; 1]) = 0.
Proof.
  apply crc_of_framed_data_is_zero.
  repeat (apply Forall_cons_2; [unfold is_byte; lia|]). apply Forall_nil_2.
Defined.

End ChecksumFacts.

Section ModbusExtras.

Import Struct Protocols Device Notions.

Lemma tcp_read_of_exchange self address count frame response :
  tcp_exchange self address count frame response ->
  sent (read_holding_registers self address count).2 = [frame]
  /\ returned (read_holding_registers self address count).2
     = try_except (parse_holding_registers response) (fun _ => None).
Proof.
  intros (Hframe & peer & reply & Hsock & Hpeer & ->).
  unfold read_holding_registers.
  cbn [transaction_id tcp_set_transaction_id tcp_config socket].
  rewrite Hframe, Hsock. cbn [snd sent returned].
  rewrite Hpeer. split; reflexivity.
Qed.

Lemma rtu_read_of_exchange self address count frame response :
  rtu_exchange self address count frame response ->
  sent (read_input_registers self address count) = [frame]
  /\ returned (read_input_registers self address count)
     = try_except (parse_input_registers response) (fun _ => None).
Proof.
  intros (Hframe & peer & reply & Hport & Hpeer & ->).
  unfold read_input_registers. rewrite Hframe, Hport.
  cbn [sent returned]. rewrite Hpeer. split; reflexivity.
Qed.

Lemma unpack_registers_odd n : forall data,
  length data = S (2 * n) -> exists e, unpack_registers data = Raise e.
Proof.
  induction n as [|n IH]; intros data Hlen.
  - destruct data as [|b [|? ?]]; cbn in Hlen; try lia.
    eexists. reflexivity.
  - destruct data as [|hi [|lo rest]]; cbn in Hlen; try lia.
    destruct (IH rest ltac:(lia)) as [e He].
    cbn [unpack_registers unpack_H_be mbind result_bind Py.bind].
    rewrite He. eexists. reflexivity.
Qed.

Lemma rtu_frame_parts body :
  drop_last 2 (rtu_frame body) = body
  /\ unpack_H_le (last_n 2 (rtu_frame body)) = Ok (_calculate_crc body).
Proof.
  unfold rtu_frame. rewrite drop_last_2_app, last_n_2_app.
  split; [reflexivity|]. cbn [unpack_H_le]. rewrite be16_value.
  reflexivity.
Qed.

(** What the RTU parser does with a frame that passes the CRC check. *)
Lemma parse_input_registers_framed body :
  (3 <= length body)%nat ->
  parse_input_registers (rtu_frame body)
  = (fc ← index (rtu_frame body) 1;
     if fc =? 4 then
       byte_count ← index (rtu_frame body) 2;
       values ← unpack_registers
                  (slice (rtu_frame body) 3 (3 + Z.to_nat byte_count));
       Ok (Some values)
     else Ok None).
Proof.
  intros Hlen. unfold parse_input_registers.
  rewrite bool_decide_eq_true_2
    by (unfold rtu_frame; rewrite length_app; cbn [length]; lia).
  destruct (rtu_frame_parts body) as [-> ->].
  cbn [mbind result_bind Py.bind]. rewrite Z.eqb_refl. reflexivity.
Qed.

(** X2. For a unit id, address and count that fit their fields, a read of
    input registers writes exactly one frame: unit id, function code 4,
    address and count big-endian, followed by the CRC of these six bytes,
    low byte first. *)
Theorem rtu_request_is_framed_with_crc
    (self : ModbusRTUProtocol) (peer : Peer) (address count : Z) :
  serial_port self = Some peer ->
  is_byte (unit_id (rtu_config self)) ->
  is_word address -> is_word count ->
  sent (read_input_registers self address count)
  = [rtu_frame [unit_id (rtu_config self); 4;
                address / 256; address mod 256;
                count / 256; count mod 256]].
Proof.
  intros Hport Hu Ha Hc.
  assert (Hgen : forall checksum : list Z -> Z,
    (forall data, Forall is_byte data -> is_word (checksum data)) ->
    (frame_data ← pack_BBHH_be (unit_id (rtu_config self)) 4 address count;
     crc_bytes ← pack_H_le (checksum frame_data);
     Ok (frame_data ++ crc_bytes))
    = Ok ([unit_id (rtu_config self); 4; address / 256; address mod 256;
           count / 256; count mod 256]
          ++ [checksum [unit_id (rtu_config self); 4; address / 256;
                        address mod 256; count / 256; count mod 256]
                mod 256;
              checksum [unit_id (rtu_config self); 4; address / 256;
                        address mod 256; count / 256; count mod 256]
                / 256])).
  { intros checksum Hsum. unfold pack_BBHH_be.
    rewrite !pack_B_ok, !pack_H_be_ok
      by (assumption || (unfold is_byte; lia)).
    cbn [mbind result_bind Py.bind app be16_bytes].
    rewrite pack_H_le_ok; [reflexivity|].
    apply Hsum.
    pose proof (be16_bytes_are_bytes address Ha) as H1.
    pose proof (be16_bytes_are_bytes count Hc) as H2.
    apply Forall_cons_2; [exact Hu|].
    apply Forall_cons_2; [unfold is_byte; lia|].
    apply (Forall_app_2 _ (be16_bytes address) (be16_bytes count) H1 H2). }
  unfold read_input_registers, input_registers_frame.
  rewrite (Hgen _calculate_crc calculate_crc_word), Hport.
  reflexivity.
Qed.

Lemma rtu_request_is_framed_with_crc_witness :
  sent (read_input_registers
          {| rtu_config := tcp_config Examples.example_tcp;
             serial_port := Some (rtu_device Examples.example_registers) |}
          0 1)
  = [[1; 4; 0; 0; 0; 1; 0x31; 0xCA]].
Proof.
  apply (rtu_request_is_framed_with_crc
           {| rtu_config := tcp_config Examples.example_tcp;
              serial_port := Some (rtu_device Examples.example_registers) |}
           (rtu_device Examples.example_registers) 0 1 eq_refl);
    cbn; unfold is_byte, is_word; lia.
Defined.

(** X3. A read of input registers returns [None], and never a partial
    list of values, when the received frame has fewer than 5 bytes, when
    its CRC is right but its function code is not 4 (an exception
    response), or when its CRC and function code are right but the byte
    count it announces is odd and within the frame. *)
Theorem rtu_malformed_response_gives_none
    (self : ModbusRTUProtocol) (address count : Z)
    (frame response : list Z) :
  rtu_exchange self address count frame response ->
  (length response < 5)%nat
  \/ (exists unit fc rest,
        response = rtu_frame (unit :: fc :: rest) /\ fc <> 4
        /\ (1 <= length rest)%nat)
  \/ (exists unit byte_count payload n,
        response = rtu_frame ([unit; 4; byte_count] ++ payload)
        /\ Z.to_nat byte_count = S (2 * n)
        /\ (S (2 * n) <= length payload + 2)%nat) ->
  returned (read_input_registers self address count) = None.
Proof.
  intros Hex Hbad.
  destruct (rtu_read_of_exchange _ _ _ _ _ Hex) as [_ ->].
  destruct Hbad as [Hshort|[Hfc|Hodd]].
  - unfold parse_input_registers.
    rewrite bool_decide_eq_false_2 by lia. reflexivity.
  - destruct Hfc as (unit & fc & rest & -> & Hfc & Hrest).
    rewrite parse_input_registers_framed by (cbn [length]; lia).
    unfold rtu_frame.
    cbn [app index Py.index lookup list_lookup mbind result_bind Py.bind].
    destruct (Z.eqb_spec fc 4); [contradiction|reflexivity].
  - destruct Hodd as (unit & byte_count & payload & n & -> & Hbc & Hlen).
    rewrite parse_input_registers_framed by (cbn [length app]; lia).
    unfold rtu_frame.
    cbn [app index Py.index lookup list_lookup mbind result_bind Py.bind
         Z.eqb Pos.eqb].
    unfold slice. cbn [skipn].
    replace (3 + Z.to_nat byte_count - 3)%nat with (S (2 * n)) by lia.
    rewrite drop_0.
    set (crc := _calculate_crc _).
    assert (Hm : length (take (S (2 * n))
                           (payload ++ [crc mod 256; crc / 256]))
                 = S (2 * n)).
    { rewrite length_take, length_app. cbn [length]. lia. }
    destruct (unpack_registers_odd n _ Hm) as [e ->]. reflexivity.
Qed.

Lemma rtu_malformed_response_gives_none_witness :
  returned (read_input_registers
              {| rtu_config := tcp_config Examples.example_tcp;
                 serial_port := Some (fun _ => Ok [1; 132; 2; 194; 193]) |}
              0 1)
  = None.
Proof.
  apply (rtu_malformed_response_gives_none _ 0 1
           [1; 4; 0; 0; 0; 1; 0x31; 0xCA] [1; 132; 2; 194; 193]).
  - split; [reflexivity|].
    eexists _, _. split; [reflexivity|]. split; reflexivity.
  - right. left. exists 1, 132, [2]. split; [reflexivity|].
    split; [lia|cbn; lia].
Defined.

(** X4. The byte count of a received frame is not checked against the
    length of the frame: when it announces two bytes more than the
    registers that follow, the CRC is returned as one more register. *)
Theorem rtu_byte_count_overshoot_reads_crc
    (unit : Z) (regs : list Z) :
  Forall is_word regs ->
  let body :=
    [unit; 4; 2 * Z.of_nat (length regs) + 2] ++ flat_map be16_bytes regs in
  parse_input_registers (rtu_frame body)
  = Ok (Some (regs ++ [_calculate_crc body mod 256 * 256
                       + _calculate_crc body / 256])).
Proof.
  intros Hregs body.
  rewrite parse_input_registers_framed
    by (subst body; cbn [length app]; lia).
  unfold rtu_frame. remember (_calculate_crc body) as crc eqn:Hcrc.
  clear Hcrc. subst body.
  cbn [app index Py.index lookup list_lookup mbind result_bind Py.bind
       Z.eqb Pos.eqb].
  unfold slice. cbn [skipn]. rewrite drop_0.
  replace (3 + Z.to_nat (2 * Z.of_nat (length regs) + 2) - 3)%nat
    with (length (flat_map be16_bytes regs ++ [crc mod 256; crc / 256]))
    by (rewrite length_app, flat_be16_length; cbn [length]; lia).
  rewrite firstn_all.
  assert (Hun : forall tail v,
    unpack_registers tail = Ok v ->
    unpack_registers (flat_map be16_bytes regs ++ tail) = Ok (regs ++ v)).
  { intros tail v Htail. induction Hregs as [|r regs Hr _ IH];
      [exact Htail|].
    cbn [flat_map be16_bytes app unpack_registers unpack_H_be mbind
         result_bind Py.bind].
    rewrite IH. cbn [mbind result_bind Py.bind]. rewrite be16_value.
    reflexivity. }
  rewrite (Hun [crc mod 256; crc / 256] [crc mod 256 * 256 + crc / 256])
    by reflexivity.
  reflexivity.
Qed.

Lemma rtu_byte_count_overshoot_reads_crc_witness :
  parse_input_registers [1; 4; 2; 163; 1] = Ok (Some [41729]).
Proof.
  apply (rtu_byte_count_overshoot_reads_crc 1 []). apply Forall_nil_2.
Defined.

(** X5. A read of holding registers returns [None] when the response has
    fewer than 9 bytes, when its function code is not 3 (an exception
    response), or when the byte count it announces is odd and within the
    response. *)
Theorem tcp_malformed_response_gives_none
    (self : ModbusTCPProtocol) (address count : Z)
    (frame response : list Z) :
  tcp_exchange self address count frame response ->
  (length response < 9)%nat
  \/ (exists fc, response !! 7%nat = Some fc /\ fc <> 3)
  \/ (exists header byte_count payload n,
        response = header ++ [3; byte_count] ++ payload
        /\ length header = 7%nat
        /\ Z.to_nat byte_count = S (2 * n)
        /\ (S (2 * n) <= length payload)%nat) ->
  returned (read_holding_registers self address count).2 = None.
Proof.
  intros Hex Hbad.
  destruct (tcp_read_of_exchange _ _ _ _ _ Hex) as [_ ->].
  unfold parse_holding_registers.
  destruct Hbad as [Hshort|[Hfc|Hodd]].
  - rewrite bool_decide_eq_false_2 by lia. reflexivity.
  - destruct Hfc as (fc & Hfc & Hne).
    case_bool_decide; [|reflexivity].
    unfold index. rewrite Hfc. cbn [mbind result_bind Py.bind].
    destruct (Z.eqb_spec fc 3); [contradiction|reflexivity].
  - destruct Hodd as (header & byte_count & payload & n & -> & Hh & Hbc
                      & Hlen).
    do 8 (destruct header as [|? header]; try discriminate Hh).
    rewrite bool_decide_eq_true_2 by (cbn [length app]; lia).
    cbn [app index Py.index lookup list_lookup mbind result_bind Py.bind
         Z.eqb Pos.eqb].
    unfold slice. cbn [skipn]. rewrite drop_0.
    replace (9 + Z.to_nat byte_count - 9)%nat with (S (2 * n)) by lia.
    assert (Hm : length (take (S (2 * n)) payload) = S (2 * n))
      by (rewrite length_take; lia).
    destruct (unpack_registers_odd n _ Hm) as [e ->]. reflexivity.
Qed.

Lemma tcp_malformed_response_gives_none_witness :
  returned (read_holding_registers
              {| tcp_config := tcp_config Examples.example_tcp;
                 socket := Some (fun _ => Ok [0; 1; 0; 0; 0; 3; 1; 131; 2]);
                 transaction_id := 0 |} 0 1).2
  = None.
Proof.
  apply (tcp_malformed_response_gives_none _ 0 1
           [0; 1; 0; 0; 0; 6; 1; 3; 0; 0; 0; 1]
           [0; 1; 0; 0; 0; 3; 1; 131; 2]).
  - split; [reflexivity|].
    eexists _, _. split; [reflexivity|]. split; reflexivity.
  - right. left. exists 131. split; [reflexivity|lia].
Defined.

Lemma pack_H_be_out_of_range v : ~ is_word v -> pack_H_be v = Raise StructError.
Proof.
  unfold is_word, pack_H_be, is_u16. intros Hv.
  destruct (Z.leb_spec 0 v), (Z.leb_spec v 65535); try lia; reflexivity.
Qed.

Lemma pack_B_out_of_range v : ~ is_byte v -> pack_B v = Raise StructError.
Proof.
  unfold is_byte, pack_B, is_u8. intros Hv.
  destruct (Z.leb_spec 0 v), (Z.leb_spec v 255); try lia; reflexivity.
Qed.

Lemma holding_registers_frame_out_of_range tid unit address count :
  ~ is_word tid \/ ~ is_byte unit \/ ~ is_word address \/ ~ is_word count ->
  holding_registers_frame tid unit address count = Raise StructError.
Proof.
  intros Hbad. unfold holding_registers_frame, pack_HHHB_be, pack_BHH_be.
  destruct (decide (is_word tid)) as [Ht|Ht];
    [rewrite (pack_H_be_ok tid Ht)
    |rewrite (pack_H_be_out_of_range tid Ht); reflexivity].
  destruct (decide (is_byte unit)) as [Hu|Hu];
    [rewrite (pack_B_ok unit Hu)
    |rewrite (pack_B_out_of_range unit Hu); reflexivity].
  destruct (decide (is_word address)) as [Ha|Ha];
    [rewrite (pack_H_be_ok address Ha)
    |rewrite (pack_H_be_out_of_range address Ha); reflexivity].
  destruct (decide (is_word count)) as [Hc|Hc];
    [tauto|rewrite (pack_H_be_out_of_range count Hc); reflexivity].
Qed.

(** X6. The transaction id grows by one with every read and is never
    wrapped: once it has reached 65535, every later read puts nothing on
    the wire and returns [None], whatever is asked and whatever the
    device would answer. *)
Theorem tcp_transaction_id_exhaustion
    (self : ModbusTCPProtocol) (requests : list (Z * Z)) :
  65535 <= transaction_id self ->
  transaction_id (read_many self requests).1
  = transaction_id self + Z.of_nat (length requests)
  /\ Forall silent_failure (read_many self requests).2.
Proof.
  revert self. induction requests as [|[address count] rest IH];
    intros self Htid.
  - cbn. split; [lia|apply Forall_nil_2].
  - cbn [read_many].
    destruct (read_holding_registers self address count) as [self1 out]
      eqn:Hread.
    assert (Hself1 : transaction_id self1 = transaction_id self + 1
                     /\ silent_failure out).
    { unfold read_holding_registers in Hread.
      cbn [transaction_id tcp_set_transaction_id tcp_config] in Hread.
      rewrite holding_registers_frame_out_of_range in Hread
        by (left; unfold is_word; lia).
      injection Hread as <- <-. split; [reflexivity|]. split; reflexivity. }
    destruct Hself1 as [Hid Hout].
    specialize (IH self1 ltac:(lia)).
    destruct (read_many self1 rest) as [self2 outs].
    cbn [fst snd length] in *. destruct IH as [IHid IHouts].
    split; [lia|]. apply Forall_cons_2; assumption.
Qed.

Lemma tcp_transaction_id_exhaustion_witness :
  Forall silent_failure
    (read_many
       {| tcp_config := tcp_config Examples.example_tcp;
          socket := socket Examples.example_tcp;
          transaction_id := 65535 |} [(0, 1); (16, 2)]).2.
Proof.
  apply tcp_transaction_id_exhaustion. cbn. lia.
Defined.

(** X7. A read whose address or count does not fit 16 bits puts nothing
    on the wire and returns [None]; this holds for holding and for input
    registers. *)
Theorem read_out_of_range_sends_nothing
    (tcp : ModbusTCPProtocol) (rtu : ModbusRTUProtocol)
    (address count : Z) :
  ~ is_word address \/ ~ is_word count ->
  silent_failure (read_holding_registers tcp address count).2
  /\ silent_failure (read_input_registers rtu address count).
Proof.
  intros Hbad. split.
  - unfold read_holding_registers.
    rewrite holding_registers_frame_out_of_range by tauto.
    split; reflexivity.
  - unfold read_input_registers, input_registers_frame, pack_BBHH_be.
    destruct (pack_B (unit_id (rtu_config rtu))) as [pu|];
      [|split; reflexivity].
    cbn [mbind result_bind Py.bind]. rewrite pack_B_ok by (unfold is_byte; lia).
    cbn [mbind result_bind Py.bind].
    destruct (decide (is_word address)) as [Ha|Ha];
      [rewrite (pack_H_be_ok address Ha)
      |rewrite (pack_H_be_out_of_range address Ha); split; reflexivity].
    cbn [mbind result_bind Py.bind].
    destruct (decide (is_word count)) as [Hc|Hc]; [tauto|].
    rewrite (pack_H_be_out_of_range count Hc). split; reflexivity.
Qed.

Lemma read_out_of_range_sends_nothing_witness :
  silent_failure (read_holding_registers Examples.example_tcp 70000 1).2.
Proof.
  apply (proj1 (read_out_of_range_sends_nothing Examples.example_tcp
                  {| rtu_config := tcp_config Examples.example_tcp;
                     serial_port := None |} 70000 1
                  ltac:(left; unfold is_word; lia))).
Defined.

(** X8. The response to a read of holding registers is matched neither
    against the transaction id, the unit id or the length of its header
    nor against the number of registers asked for: whatever these are,
    the registers the response carries are returned. *)
Theorem tcp_response_header_and_count_unchecked
    (self : ModbusTCPProtocol) (address count : Z)
    (frame header regs : list Z) :
  tcp_exchange self address count frame
    (header ++ [3; 2 * Z.of_nat (length regs)] ++ flat_map be16_bytes regs) ->
  length header = 7%nat ->
  Forall is_word regs -> (length regs <= 127)%nat ->
  returned (read_holding_registers self address count).2 = Some regs.
Proof.
  intros Hex Hh Hregs Hlen.
  destruct (tcp_read_of_exchange _ _ _ _ _ Hex) as [_ ->].
  rewrite parse_holding_registers_ok by assumption. reflexivity.
Qed.

Lemma tcp_response_header_and_count_unchecked_witness :
  returned (read_holding_registers
              {| tcp_config := tcp_config Examples.example_tcp;
                 socket :=
                   Some (fun _ => Ok [9; 9; 9; 9; 9; 9; 9; 3; 4; 0; 7; 0; 8]);
                 transaction_id := 0 |} 0 1).2
  = Some [7; 8].
Proof.
  apply (tcp_response_header_and_count_unchecked _ 0 1
           [0; 1; 0; 0; 0; 6; 1; 3; 0; 0; 0; 1] [9; 9; 9; 9; 9; 9; 9] [7; 8]).
  - split; [reflexivity|].
    eexists _, _. split; [reflexivity|]. split; reflexivity.
  - reflexivity.
  - repeat (apply Forall_cons_2; [unfold is_word; lia|]). apply Forall_nil_2.
  - cbn. lia.
Defined.

Lemma single_register_frame_ok tid unit address value :
  is_word tid -> is_byte unit -> is_word address -> is_word value ->
  single_register_frame tid unit address value =
    Ok [tid / 256; tid mod 256; 0; 0; 0; 6; unit; 6;
        address / 256; address mod 256; value / 256; value mod 256].
Proof.
  intros Ht Hu Ha Hv. unfold single_register_frame, pack_HHHB_be, pack_BHH_be.
  rewrite !pack_H_be_ok, !pack_B_ok
    by (assumption || (unfold is_word, is_byte; lia)).
  reflexivity.
Qed.

(** X9. A write of a single register whose fields are in range sends one
    12-byte frame: MBAP header with length 6, function code 6, address
    and value big-endian. It returns [True] exactly when the device
    answers with at least 9 bytes of which the eighth is 6, so in
    particular when the device echoes the request; the address and value
    of the answer are not compared with those written. *)
Theorem write_single_register_acknowledged
    (self : ModbusTCPProtocol) (peer : Peer) (address value : Z) :
  socket self = Some peer ->
  0 <= transaction_id self < 65535 ->
  is_byte (unit_id (tcp_config self)) ->
  is_word address -> is_word value ->
  let tid := transaction_id self + 1 in
  let frame :=
    [tid / 256; tid mod 256; 0; 0; 0; 6; unit_id (tcp_config self); 6;
     address / 256; address mod 256; value / 256; value mod 256] in
  let out := (write_single_register self address value).2 in
  written out = [frame]
  /\ (succeeded out = true
      <-> exists reply,
            peer frame = Ok reply
            /\ (9 <= length (take 1024 reply))%nat
            /\ take 1024 reply !! 7%nat = Some 6)
  /\ (peer frame = Ok frame -> succeeded out = true).
Proof.
  intros Hsock Htid Hu Ha Hv tid frame out.
  assert (Hframe := single_register_frame_ok tid (unit_id (tcp_config self))
                      address value ltac:(unfold is_word, tid; lia)
                      Hu Ha Hv).
  assert (Hout : out = {| written := [frame];
                          succeeded :=
                            try_except
                              (response ← peer frame;
                               Ok (write_acknowledged (take 1024 response)))
                              (fun _ => false) |}).
  { subst out. unfold write_single_register.
    cbn [transaction_id tcp_set_transaction_id tcp_config socket].
    fold tid. rewrite Hframe, Hsock. reflexivity. }
  rewrite Hout. cbn [written succeeded].
  assert (Hiff : forall reply,
    write_acknowledged (take 1024 reply) = true
    <-> (9 <= length (take 1024 reply))%nat
        /\ take 1024 reply !! 7%nat = Some 6).
  { intros reply. unfold write_acknowledged.
    rewrite andb_true_iff, bool_decide_eq_true.
    destruct (take 1024 reply !! 7%nat) as [fc|].
    - rewrite Z.eqb_eq. split; intros [H1 H2]; split; congruence.
    - split; intros [H1 H2]; discriminate. }
  split; [reflexivity|]. split.
  - destruct (peer frame) as [reply|e];
      cbn [mbind result_bind Py.bind try_except].
    + rewrite Hiff. split.
      * intros H. exists reply. tauto.
      * intros (reply' & Heq & H). injection Heq as <-. exact H.
    + split; [discriminate|]. intros (reply & Heq & _). discriminate.
  - intros ->. cbn [mbind result_bind Py.bind try_except].
    apply Hiff. subst frame. cbn [take firstn length]. split; [lia|reflexivity].
Qed.

Lemma write_single_register_acknowledged_witness :
  written (write_single_register
             {| tcp_config := tcp_config Examples.example_tcp;
                socket := Some (fun frame => Ok frame);
                transaction_id := 0 |} 5 9).2
  = [[0; 1; 0; 0; 0; 6; 1; 6; 0; 5; 0; 9]]
  /\ succeeded (write_single_register
                  {| tcp_config := tcp_config Examples.example_tcp;
                     socket := Some (fun frame => Ok frame);
                     transaction_id := 0 |} 5 9).2
     = true.
Proof.
  destruct (write_single_register_acknowledged
              {| tcp_config := tcp_config Examples.example_tcp;
                 socket := Some (fun frame => Ok frame);
                 transaction_id := 0 |} (fun frame => Ok frame) 5 9
              eq_refl ltac:(cbn; lia) ltac:(cbn; unfold is_byte; lia)
              ltac:(unfold is_word; lia) ltac:(unfold is_word; lia))
    as (Hw & _ & Hecho).
  split; [exact Hw|exact (Hecho eq_refl)].
Defined.

End ModbusExtras.

Section DNP3Extras.

Import Struct Protocols Device Notions.

Lemma transport_byte_wraps s : transport_byte s = 64 + s mod 64.
Proof.
  unfold transport_byte.
  change 0x3F with (Z.ones 6). rewrite Z.land_ones by lia.
  change (2 ^ 6) with 64.
  assert (Hland : Z.land 0x40 (s mod 64) = 0).
  { apply Z.bits_inj'. intros n Hn. rewrite Z.land_spec, Z.bits_0.
    change 0x40 with (2 ^ 6). rewrite Z.pow2_bits_eqb by lia.
    destruct (Z.eqb_spec 6 n) as [<-|Hne]; [|reflexivity].
    change 64 with (2 ^ 6). rewrite Z.mod_pow2_bits_high by lia.
    reflexivity. }
  rewrite <- Z.lxor_lor by exact Hland.
  symmetry. apply Z.add_nocarry_lxor, Hland.
Qed.

Lemma mock_analog_halves_lookup count (i : nat) :
  (i < Z.to_nat count)%nat ->
  mock_analog_halves count !! i = Some (21 * Z.of_nat i).
Proof.
  intros Hi. unfold mock_analog_halves.
  rewrite list_lookup_fmap, lookup_seq_lt by exact Hi. reflexivity.
Qed.

(** X10. A DNP3 read with a destination that fits 16 bits sends one
    14-byte frame whose transport byte carries the sequence number
    modulo 64, and advances the sequence number by one. Whenever the
    device answers with more than 10 bytes the read returns [count]
    values, the i-th being [i * 10.5], whatever the answer contains;
    with 10 bytes or fewer, or on an exception, it returns [None]. *)
Theorem dnp3_read_returns_mock_values
    (self : DNP3Protocol) (peer : Peer) (start_index count : Z) :
  dnp3_socket self = Some peer ->
  is_word (unit_id (dnp3_config self)) ->
  let unit := unit_id (dnp3_config self) in
  let frame :=
    [0x64; 0x05; 10; 0x44; unit mod 256; unit / 256; 1; 0;
     64 + sequence_number self mod 64; 0; 1; 30; 1; 6] in
  let out := (read_analog_inputs self start_index count).2 in
  analog_sent out = [frame]
  /\ sequence_number (read_analog_inputs self start_index count).1
     = sequence_number self + 1
  /\ (forall reply,
         peer frame = Ok reply ->
         analog_halves out
         = if bool_decide (10 < length (take 1024 reply))%nat
           then Some (mock_analog_halves count) else None)
  /\ (forall e, peer frame = Raise e -> analog_halves out = None)
  /\ length (mock_analog_halves count) = Z.to_nat count
  /\ (forall i : nat,
         (i < Z.to_nat count)%nat ->
         mock_analog_halves count !! i = Some (21 * Z.of_nat i)).
Proof.
  intros Hsock Hu unit frame out.
  assert (Hdl : pack_HBBHH_le 0x0564 10 0x44 unit 1
                = Ok [0x64; 0x05; 10; 0x44; unit mod 256; unit / 256;
                      1; 0]).
  { unfold pack_HBBHH_le.
    rewrite (pack_H_le_ok unit Hu).
    rewrite !pack_H_le_ok, !pack_B_ok by (unfold is_word, is_byte; lia).
    reflexivity. }
  assert (Htb : is_byte (transport_byte (sequence_number self))).
  { rewrite transport_byte_wraps. unfold is_byte.
    pose proof (Z.mod_pos_bound (sequence_number self) 64). lia. }
  assert (Hframe : analog_inputs_frame unit (sequence_number self)
                   = Ok frame).
  { unfold analog_inputs_frame, pack_BBB. rewrite Hdl.
    rewrite (pack_B_ok _ Htb).
    rewrite !pack_B_ok by (unfold is_byte; lia).
    cbn [mbind result_bind Py.bind app].
    rewrite transport_byte_wraps. reflexivity. }
  subst out. unfold read_analog_inputs. fold unit.
  rewrite Hdl, Hframe, Hsock. cbn [fst snd analog_sent analog_halves
                                    sequence_number].
  split; [reflexivity|]. split; [reflexivity|]. split.
  { intros reply ->. cbn [mbind result_bind Py.bind].
    case_bool_decide; reflexivity. }
  split.
  { intros e ->. reflexivity. }
  split.
  { unfold mock_analog_halves. rewrite length_map, length_seq. reflexivity. }
  intros i Hi. apply mock_analog_halves_lookup, Hi.
Qed.

Lemma dnp3_read_returns_mock_values_witness :
  analog_halves
    (read_analog_inputs
       {| dnp3_config := tcp_config Examples.example_tcp;
          dnp3_socket := Some (fun _ => Ok (replicate 11 0));
          sequence_number := 70 |} 0 3).2
  = Some [0; 21; 42].
Proof.
  destruct (dnp3_read_returns_mock_values
              {| dnp3_config := tcp_config Examples.example_tcp;
                 dnp3_socket := Some (fun _ => Ok (replicate 11 0));
                 sequence_number := 70 |}
              (fun _ => Ok (replicate 11 0)) 0 3 eq_refl
              ltac:(cbn; unfold is_word; lia))
    as (_ & _ & Hreply & _).
  exact (Hreply (replicate 11 0) eq_refl).
Defined.

End DNP3Extras.

Section ManagerExtras.

Import Struct Protocols Manager Device Notions.

Lemma get_not_in_keys {V} (d : PyDict.t V) k :
  k ∉ PyDict.keys d -> PyDict.get d k = None.
Proof.
  induction d as [|[k' v] d IH]; [reflexivity|].
  cbn. intros Hnin. apply not_elem_of_cons in Hnin. destruct Hnin as [Hne Hnin].
  destruct (String.eqb_spec k k'); [contradiction|]. apply IH, Hnin.
Qed.

Lemma get_in_keys {V} (d : PyDict.t V) k :
  PyDict.get d k <> None -> k ∈ PyDict.keys d.
Proof.
  induction d as [|[k' v] d IH]; [intros H; contradiction|].
  cbn. destruct (String.eqb_spec k k') as [->|Hne]; intros H.
  - apply elem_of_cons. left. reflexivity.
  - apply elem_of_cons. right. apply IH, H.
Qed.

Lemma remove_connection_get self name other :
  get_connection (remove_connection self name) other
  = if decide (other = name) then None else get_connection self other.
Proof.
  unfold get_connection, remove_connection, PyDict.contains.
  destruct (decide (other = name)) as [->|Hne].
  - destruct (PyDict.get (connections self) name) eqn:Hget; cbn.
    + apply get_del_eq.
    + exact Hget.
  - destruct (PyDict.get (connections self) name); cbn;
      [apply get_del_ne; congruence|reflexivity].
Qed.

Lemma remove_all_get names : forall self other,
  get_connection (fold_left remove_connection names self) other
  = if decide (other ∈ names) then None else get_connection self other.
Proof.
  induction names as [|name names IH]; intros self other.
  - cbn. destruct (decide (other ∈ [])) as [Hin|]; [inversion Hin|reflexivity].
  - cbn [fold_left]. rewrite IH, remove_connection_get.
    destruct (decide (other ∈ names)) as [Hin|Hnin].
    + rewrite decide_True by (apply elem_of_cons; auto). reflexivity.
    + destruct (decide (other = name)) as [->|Hne].
      * rewrite decide_True by (apply elem_of_cons; auto). reflexivity.
      * rewrite decide_False; [reflexivity|].
        intros Hin. apply elem_of_cons in Hin. tauto.
Qed.

(** X11. A connection is registered only if its [connect] succeeds:
    then it is found under its name and the other names are untouched;
    when [connect] fails the manager is returned unchanged with [False],
    and OPC UA, PROFINET and EtherCAT are refused without any attempt to
    connect. A removed name is no longer found, the others still are,
    and after [shutdown] no name is found. *)
Theorem connection_registry_round_trip
    (net : Network) (self : ProtocolManager) (name : string)
    (config : ManagedConfig) :
  (forall protocol,
      open_connection net config = Some protocol ->
      (add_connection net self name config).2 = true
      /\ get_connection (add_connection net self name config).1 name
         = Some protocol
      /\ forall other, other <> name ->
           get_connection (add_connection net self name config).1 other
           = get_connection self other)
  /\ (open_connection net config = None ->
      add_connection net self name config = (self, false))
  /\ (protocol_type config = OPC_UA \/ protocol_type config = PROFINET
      \/ protocol_type config = ETHERCAT ->
      add_connection net self name config = (self, false))
  /\ get_connection (remove_connection self name) name = None
  /\ (forall other, other <> name ->
        get_connection (remove_connection self name) other
        = get_connection self other)
  /\ (forall other, get_connection (shutdown self) other = None).
Proof.
  split; [|split; [|split; [|split; [|split]]]].
  - intros protocol Hopen. unfold add_connection. rewrite Hopen.
    cbn [fst snd]. unfold get_connection. cbn [connections].
    split; [reflexivity|]. split; [apply get_set_eq|].
    intros other Hne. apply get_set_ne. congruence.
  - intros Hopen. unfold add_connection. rewrite Hopen. reflexivity.
  - intros Htype. unfold add_connection, open_connection.
    destruct Htype as [->|[->| ->]]; reflexivity.
  - rewrite remove_connection_get, decide_True by reflexivity. reflexivity.
  - intros other Hne. rewrite remove_connection_get, decide_False by exact Hne.
    reflexivity.
  - intros other. unfold shutdown. rewrite remove_all_get.
    destruct (decide (other ∈ PyDict.keys (connections self)))
      as [Hin|Hnin]; [reflexivity|].
    apply get_not_in_keys, Hnin.
Qed.

Lemma connection_registry_round_trip_witness :
  let net : Network :=
    fun e => match e with
             | TcpEndpoint _ 502 => Some (tcp_server Examples.example_registers)
             | _ => None
             end in
  let config :=
    {| protocol_type := MODBUS_TCP;
       settings := tcp_config Examples.example_tcp |} in
  (add_connection net ProtocolManager_init "plc" config).2 = true
  /\ get_connection
       (remove_connection
          (add_connection net ProtocolManager_init "plc" config).1 "plc")
       "plc" = None.
Proof.
  intros net config. split.
  - apply (proj1 (connection_registry_round_trip net ProtocolManager_init
                    "plc" config) _ eq_refl).
  - apply (proj1 (proj2 (proj2 (proj2
             (connection_registry_round_trip net
                (add_connection net ProtocolManager_init "plc" config).1
                "plc" config))))).
Defined.





End ManagerExtras.

(** * Further properties of the monitoring classes *)

Section BufferExtras.

Import Monitoring Notions.

Lemma get_latest_samples self p : get_latest self p = last (samples self p).
Proof.
  unfold get_latest, samples.
  destruct (PyDict.get (buffer self) p); reflexivity.
Qed.

(** X13. With a capacity of at least one, the latest sample of a point is
    the one just added, and the latest samples of the other points are
    untouched. With a capacity of zero or less nothing is ever retained:
    a point never gets a latest sample. *)
Theorem get_latest_after_add_point
    (self : DataBuffer) (p : string) (d : MonitoringData.t) :
  (1 <= max_size self -> get_latest (add_point self p d) p = Some d)
  /\ (forall q, q <> p ->
        get_latest (add_point self p d) q = get_latest self q)
  /\ (forall N inserts,
        N <= 0 ->
        get_latest (add_all (DataBuffer_init N) inserts) p = None).
Proof.
  split; [|split].
  - intros Hcap. rewrite get_latest_samples, add_point_samples.
    unfold after_append. rewrite length_app. cbn [length].
    destruct (Z.ltb_spec (max_size self)
                (Z.of_nat (length (samples self p) + 1))).
    + destruct (samples self p) as [|x [|y l]] eqn:Hs;
        cbn [length] in *; [lia| |].
      * reflexivity.
      * cbn [app tail]. change (y :: l ++ [d]) with ((y :: l) ++ [d]).
        apply last_snoc.
    + apply last_snoc.
  - intros q Hne. rewrite !get_latest_samples.
    rewrite add_point_samples_other by congruence. reflexivity.
  - intros N inserts HN. rewrite get_latest_samples.
    rewrite add_all_window by (cbn; lia).
    cbn [max_size DataBuffer_init].
    replace (Z.to_nat N) with 0%nat by lia.
    rewrite Nat.sub_0_r, drop_all. reflexivity.
Qed.

Lemma get_latest_after_add_point_witness :
  get_latest
    (add_point (DataBuffer_init 10000) "T001" (Runtime.T001_96 5)) "T001"
  = Some (Runtime.T001_96 5).
Proof.
  apply (proj1 (get_latest_after_add_point (DataBuffer_init 10000) "T001"
                  (Runtime.T001_96 5))).
  cbn. lia.
Defined.

Lemma get_latest_not_buffered self p :
  p ∉ PyDict.keys (buffer self) -> get_latest self p = None.
Proof.
  intros Hnin. unfold get_latest. rewrite get_not_in_keys by exact Hnin.
  reflexivity.
Qed.

(** X14. The snapshot [get_all_latest] holds, for every point, exactly
    its latest sample: a point without samples has no entry. *)
Theorem get_all_latest_is_latest_of_each (self : DataBuffer) (p : string) :
  PyDict.get (get_all_latest self) p = get_latest self p.
Proof.
  unfold get_all_latest.
  assert (Hgen : forall ks acc,
    PyDict.get
      (fold_left
         (fun result point_id =>
            match get_latest self point_id with
            | Some latest => PyDict.set result point_id latest
            | None => result
            end) ks acc) p
    = if decide (p ∈ ks)
      then match get_latest self p with
           | Some latest => Some latest
           | None => PyDict.get acc p
           end
      else PyDict.get acc p).
  { induction ks as [|k ks IH]; intros acc.
    - cbn. destruct (decide (p ∈ [])) as [Hin|]; [inversion Hin|reflexivity].
    - cbn [fold_left]. rewrite IH.
      destruct (decide (p = k)) as [->|Hne].
      + rewrite (decide_True (P := k ∈ k :: ks))
          by (apply elem_of_cons; auto).
        destruct (get_latest self k) as [latest|] eqn:Hk.
        * destruct (decide (k ∈ ks)); [reflexivity|apply get_set_eq].
        * destruct (decide (k ∈ ks)); reflexivity.
      + assert (Hacc : PyDict.get
                         match get_latest self k with
                         | Some latest => PyDict.set acc k latest
                         | None => acc
                         end p = PyDict.get acc p).
        { destruct (get_latest self k); [|reflexivity].
          apply get_set_ne. congruence. }
        rewrite Hacc.
        destruct (decide (p ∈ ks)) as [Hin|Hnin].
        * rewrite decide_True by (apply elem_of_cons; auto). reflexivity.
        * rewrite decide_False; [reflexivity|].
          intros Hin. apply elem_of_cons in Hin. tauto. }
  rewrite Hgen.
  destruct (decide (p ∈ PyDict.keys (buffer self))) as [Hin|Hnin].
  - destruct (get_latest self p); reflexivity.
  - rewrite get_latest_not_buffered by exact Hnin. reflexivity.
Qed.

Lemma filter_recent_suffix (cutoff : Z) (l : list MonitoringData.t) :
  StronglySorted Z.le (map MonitoringData.timestamp l) ->
  exists k,
    filter (fun d => cutoff <= MonitoringData.timestamp d) l = drop k l
    /\ Forall (fun d => MonitoringData.timestamp d < cutoff) (take k l).
Proof.
  induction l as [|x l IH]; intros Hs.
  - exists 0%nat. split; [reflexivity|apply Forall_nil_2].
  - cbn [map] in Hs. apply StronglySorted_inv in Hs.
    destruct Hs as [Hs Hall].
    destruct (decide (cutoff <= MonitoringData.timestamp x)) as [Hx|Hx].
    + exists 0%nat. split; [|apply Forall_nil_2].
      rewrite drop_0. rewrite filter_cons_True by exact Hx. f_equal.
      clear IH Hs. induction l as [|y l IHl]; [reflexivity|].
      cbn [map] in Hall. apply Forall_cons in Hall.
      destruct Hall as [Hy Hall].
      rewrite filter_cons_True by lia. f_equal. apply IHl, Hall.
    + destruct (IH Hs) as (k & Hk & Hold). exists (S k).
      rewrite filter_cons_False by exact Hx. cbn [drop take].
      split; [exact Hk|]. apply Forall_cons_2; [lia|exact Hold].
Qed.

Lemma timedelta_cases (minutes : Z) :
  (-999999999 <= minutes / 1440 <= 999999999
   /\ timedelta minutes = Ok (timedelta_minutes minutes))
  \/ (~ -999999999 <= minutes / 1440 <= 999999999
      /\ timedelta minutes = Raise OverflowError).
Proof.
  unfold timedelta.
  destruct (Z.leb_spec (-999999999) (minutes / 1440));
    destruct (Z.leb_spec (minutes / 1440) 999999999); cbn [andb];
    solve [left; split; [lia|reflexivity]
          |right; split; [lia|reflexivity]].
Qed.

Lemma datetime_sub_cases (t delta : Z) :
  (datetime_min <= t - delta <= datetime_max
   /\ datetime_sub t delta = Ok (t - delta))
  \/ (~ datetime_min <= t - delta <= datetime_max
      /\ datetime_sub t delta = Raise OverflowError).
Proof.
  unfold datetime_sub.
  destruct (Z.leb_spec datetime_min (t - delta));
    destruct (Z.leb_spec (t - delta) datetime_max); cbn [andb];
    solve [left; split; [lia|reflexivity]
          |right; split; [lia|reflexivity]].
Qed.

(** X15. For a point that is not buffered [get_history] returns the
    empty list, whatever the number of minutes. For a buffered point it
    raises [OverflowError] when the minutes do not fit a [timedelta] or
    the cut-off leaves the range of [datetime]; otherwise it returns the
    samples of the point that are at or after the cut-off, in buffer
    order. On a buffer whose timestamps do not decrease these are a
    suffix of the buffer: the samples left out are those at its front
    that are older than the cut-off. *)
Theorem get_history_is_recent_suffix
    (self : DataBuffer) (p : string) (minutes now : Z) :
  let cutoff_time := now - timedelta_minutes minutes in
  let in_range :=
    (-999999999 <= minutes / 1440 <= 999999999)
    /\ datetime_min <= cutoff_time <= datetime_max in
  (PyDict.get (buffer self) p = None ->
   get_history self p minutes now = Ok [])
  /\ (PyDict.get (buffer self) p <> None ->
      in_range ->
      get_history self p minutes now
      = Ok (filter (fun d => cutoff_time <= MonitoringData.timestamp d)
              (samples self p)))
  /\ (PyDict.get (buffer self) p <> None ->
      in_range ->
      Sorted Z.le (map MonitoringData.timestamp (samples self p)) ->
      exists history k,
        get_history self p minutes now = Ok history
        /\ history = drop k (samples self p)
        /\ Forall (fun d => MonitoringData.timestamp d < cutoff_time)
             (take k (samples self p))
        /\ Forall (fun d => cutoff_time <= MonitoringData.timestamp d)
             history)
  /\ (PyDict.get (buffer self) p <> None ->
      ~ in_range ->
      get_history self p minutes now = Raise OverflowError).
Proof.
  intros cutoff_time in_range. subst in_range.
  unfold get_history, samples in *.
  destruct (PyDict.get (buffer self) p) as [l|]; cbn [default id] in *.
  - split; [discriminate|].
    destruct (timedelta_cases minutes) as [[Hdays ->]|[Hdays ->]];
      cbn [mbind result_bind Py.bind].
    + destruct (datetime_sub_cases now (timedelta_minutes minutes))
        as [[Hcut ->]|[Hcut ->]]; cbn [mbind result_bind Py.bind].
      * fold cutoff_time. split; [reflexivity|].
        split; [|intros _ Hout; exfalso; apply Hout; split; assumption].
        intros _ _ Hs.
        apply Sorted_StronglySorted in Hs; [|exact Z.le_trans].
        destruct (filter_recent_suffix cutoff_time l Hs)
          as (k & Hk & Hold).
        eexists _, k. split; [reflexivity|]. split; [exact Hk|].
        split; [exact Hold|].
        apply Forall_forall. intros d Hd.
        apply list_elem_of_filter in Hd. tauto.
      * split; [intros _ [_ Hin]; contradiction|].
        split; [intros _ [_ Hin]; contradiction|reflexivity].
    + split; [intros _ [Hin _]; contradiction|].
      split; [intros _ [Hin _]; contradiction|reflexivity].
  - split; [reflexivity|]. repeat split; intros Hne; contradiction.
Qed.

Lemma get_history_is_recent_suffix_witness :
  get_history
    (add_all (DataBuffer_init 10000)
       [("T001"%string, Runtime.T001_96 50);
        ("T001"%string, Runtime.T001_96 150)])
    "T001" 0 100
  = Ok [Runtime.T001_96 150]
  /\ get_history
       (add_all (DataBuffer_init 10000)
          [("T001"%string, Runtime.T001_96 50);
           ("T001"%string, Runtime.T001_96 150)])
       "T001" (999999999 * 1440 + 1440) 100
     = Raise OverflowError.
Proof.
  split.
  - rewrite (proj1 (proj2 (get_history_is_recent_suffix
                             (add_all (DataBuffer_init 10000)
                                [("T001"%string, Runtime.T001_96 50);
                                 ("T001"%string, Runtime.T001_96 150)])
                             "T001" 0 100))).
    + vm_compute. reflexivity.
    + discriminate.
    + unfold datetime_min, datetime_max, timedelta_minutes.
      change (0 / 1440) with 0. lia.
  - apply (proj2 (proj2 (proj2 (get_history_is_recent_suffix
                             (add_all (DataBuffer_init 10000)
                                [("T001"%string, Runtime.T001_96 50);
                                 ("T001"%string, Runtime.T001_96 150)])
                             "T001" (999999999 * 1440 + 1440) 100)))).
    + discriminate.
    + intros [Hdays _].
      change ((999999999 * 1440 + 1440) / 1440) with 1000000000 in Hdays.
      lia.
Defined.

End BufferExtras.

Section AlertManagerExtras.

Import Monitoring Notions.

(** X16. A rule that has been added is found under its id and the other
    rules are untouched; adding a rule under an id that is taken replaces
    the rule without adding an entry; a removed rule is not found any
    more. Adding and removing rules leaves the active alerts and the
    cooldown times as they are, so a rule that is removed and added
    again is still within the cooldown of its last trigger. *)
Theorem alert_rule_registry
    (self : AlertManager) (rule : AlertRule.t) :
  let id := AlertRule.rule_id rule in
  PyDict.get (alert_rules (add_alert_rule self rule)) id = Some rule
  /\ (forall other, other <> id ->
        PyDict.get (alert_rules (add_alert_rule self rule)) other
        = PyDict.get (alert_rules self) other)
  /\ (PyDict.get (alert_rules self) id <> None ->
      length (alert_rules (add_alert_rule self rule))
      = length (alert_rules self))
  /\ PyDict.get (alert_rules (remove_alert_rule self id)) id = None
  /\ (forall other, other <> id ->
        PyDict.get (alert_rules (remove_alert_rule self id)) other
        = PyDict.get (alert_rules self) other)
  /\ cooldown_tracker (add_alert_rule (remove_alert_rule self id) rule)
     = cooldown_tracker self
  /\ active_alerts (add_alert_rule (remove_alert_rule self id) rule)
     = active_alerts self.
Proof.
  intros id. split; [|split; [|split; [|split; [|split; [|split]]]]].
  - apply get_set_eq.
  - intros other Hne. apply get_set_ne. intros Heq. apply Hne.
    symmetry. exact Heq.
  - intros Hin. cbn [add_alert_rule alert_rules]. fold id.
    induction (alert_rules self) as [|[k v] d IH]; [contradiction|].
    cbn in *. destruct (String.eqb_spec id k); [reflexivity|].
    cbn. f_equal. apply IH, Hin.
  - unfold remove_alert_rule, PyDict.contains.
    destruct (PyDict.get (alert_rules self) id) eqn:Hget;
      cbn [alert_rules]; [apply get_del_eq|exact Hget].
  - intros other Hne. unfold remove_alert_rule, PyDict.contains.
    destruct (PyDict.get (alert_rules self) id);
      cbn [alert_rules]; [|reflexivity].
    apply get_del_ne. intros Heq. apply Hne. symmetry. exact Heq.
  - unfold remove_alert_rule.
    destruct (PyDict.contains _ _); reflexivity.
  - unfold remove_alert_rule.
    destruct (PyDict.contains _ _); reflexivity.
Qed.

Lemma alert_rule_registry_witness :
  PyDict.get
    (alert_rules (add_alert_rule Runtime.manager_TEMP_HIGH Runtime.TEMP_HIGH))
    "OTHER"
  = None
  /\ length (alert_rules
               (add_alert_rule Runtime.manager_TEMP_HIGH Runtime.TEMP_HIGH))
     = 1%nat.
Proof.
  destruct (alert_rule_registry Runtime.manager_TEMP_HIGH Runtime.TEMP_HIGH)
    as (_ & Hother & Hlen & _).
  split.
  - rewrite (Hother "OTHER"%string); [reflexivity|discriminate].
  - rewrite Hlen; [reflexivity|discriminate].
Defined.

(** X17. Acknowledging an alert of the active set succeeds. The alert
    object then has [acknowledged] set, [acknowledged_by] the given
    user and [acknowledged_time] the given time, and each of its ten
    other fields as before. The other objects, the active set, the
    history, the rules, the cooldowns and the queue are as they were,
    so the alert is still reported as active. An alert that is already
    acknowledged can be acknowledged again; the later user and time
    replace the earlier ones. *)
Theorem acknowledge_alert_marks_object
    (self : AlertManager) (alert_id : string) (r : ref) (a : Alert.t)
    (user : string) (now : Z) :
  PyDict.get (active_alerts self) alert_id = Some r ->
  heap self !! r = Some a ->
  let self' := (acknowledge_alert self alert_id user now).1 in
  (acknowledge_alert self alert_id user now).2 = true
  /\ (exists a',
        heap self' !! r = Some a'
        /\ Alert.acknowledged a' = true
        /\ Alert.acknowledged_by a' = Some user
        /\ Alert.acknowledged_time a' = Some now
        /\ Alert.alert_id a' = Alert.alert_id a
        /\ Alert.rule_id a' = Alert.rule_id a
        /\ Alert.timestamp a' = Alert.timestamp a
        /\ Alert.alert_type a' = Alert.alert_type a
        /\ Alert.priority a' = Alert.priority a
        /\ Alert.message a' = Alert.message a
        /\ Alert.source_point a' = Alert.source_point a
        /\ Alert.current_value a' = Alert.current_value a
        /\ Alert.resolved a' = Alert.resolved a
        /\ Alert.resolved_time a' = Alert.resolved_time a)
  /\ (forall r', r' <> r -> heap self' !! r' = heap self !! r')
  /\ active_alerts self' = active_alerts self
  /\ alert_history self' = alert_history self
  /\ alert_rules self' = alert_rules self
  /\ cooldown_tracker self' = cooldown_tracker self
  /\ alert_queue self' = alert_queue self
  /\ (forall user2 later,
        (acknowledge_alert self' alert_id user2 later).2 = true
        /\ (exists a2,
              heap (acknowledge_alert self' alert_id user2 later).1 !! r
              = Some a2
              /\ Alert.acknowledged a2 = true
              /\ Alert.acknowledged_by a2 = Some user2
              /\ Alert.acknowledged_time a2 = Some later)).
Proof.
  intros Hactive Hobj self'. subst self'.
  unfold acknowledge_alert. rewrite Hactive.
  cbn [fst snd heap active_alerts alert_history alert_rules
       cooldown_tracker alert_queue].
  split; [reflexivity|]. split.
  { exists (Alert.set_acknowledged a user now). split.
    - rewrite lookup_alter_eq, Hobj. reflexivity.
    - repeat split. }
  split.
  { intros r' Hne. apply lookup_alter_ne. congruence. }
  do 5 (split; [reflexivity|]).
  intros user2 later. rewrite Hactive. cbn [fst snd heap].
  split; [reflexivity|].
  exists (Alert.set_acknowledged (Alert.set_acknowledged a user now)
            user2 later).
  split.
  - rewrite !lookup_alter_eq, Hobj. reflexivity.
  - repeat split.
Qed.

Lemma acknowledge_alert_marks_object_witness :
  (acknowledge_alert Examples.manager_with_active_alert
     "TEMP_HIGH_1700000000" "operator" 9).2 = true.
Proof.
  apply (acknowledge_alert_marks_object Examples.manager_with_active_alert
           "TEMP_HIGH_1700000000" 0%nat (Examples.example_alert CRITICAL)
           "operator" 9 eq_refl eq_refl).
Defined.

(** X18. An alert that is acknowledged and then resolved ends up outside
    the active set with both marks on the one object: acknowledged by
    the user at the first time and resolved at the second. The history
    still lists the same object, so the history shows it resolved. *)
Theorem acknowledge_then_resolve
    (self : AlertManager) (alert_id : string) (r : ref) (a : Alert.t)
    (user : string) (t1 t2 : Z) :
  PyDict.get (active_alerts self) alert_id = Some r ->
  heap self !! r = Some a ->
  let acked := (acknowledge_alert self alert_id user t1).1 in
  let final := (resolve_alert acked alert_id t2).1 in
  (resolve_alert acked alert_id t2).2 = true
  /\ PyDict.get (active_alerts final) alert_id = None
  /\ alert_history final = alert_history self
  /\ exists a',
       heap final !! r = Some a'
       /\ Alert.acknowledged a' = true
       /\ Alert.acknowledged_by a' = Some user
       /\ Alert.acknowledged_time a' = Some t1
       /\ Alert.resolved a' = true
       /\ Alert.resolved_time a' = Some t2
       /\ Alert.alert_id a' = Alert.alert_id a
       /\ Alert.message a' = Alert.message a.
Proof.
  intros Hactive Hobj acked final. subst final acked.
  unfold acknowledge_alert. rewrite Hactive. cbn [fst].
  unfold resolve_alert. cbn [active_alerts]. rewrite Hactive.
  cbn [fst snd heap active_alerts alert_history].
  split; [reflexivity|]. split; [apply get_del_eq|].
  split; [reflexivity|].
  exists (Alert.set_resolved (Alert.set_acknowledged a user t1) t2).
  split.
  { rewrite !lookup_alter_eq, Hobj. reflexivity. }
  repeat split.
Qed.

Lemma acknowledge_then_resolve_witness :
  PyDict.get
    (active_alerts
       (resolve_alert
          (acknowledge_alert Examples.manager_with_active_alert
             "TEMP_HIGH_1700000000" "operator" 9).1
          "TEMP_HIGH_1700000000" 12).1)
    "TEMP_HIGH_1700000000"
  = None.
Proof.
  apply (acknowledge_then_resolve Examples.manager_with_active_alert
           "TEMP_HIGH_1700000000" 0%nat (Examples.example_alert CRITICAL)
           "operator" 9 12 eq_refl eq_refl).
Defined.




End AlertManagerExtras.

Section NotificationExtras.

Import Monitoring Notions.

Lemma post_each_all_ok post urls :
  Forall (fun url => exists u, post url = Ok u) urls ->
  post_each post urls = (urls, true).
Proof.
  induction 1 as [|url urls [u Hu] _ IH]; [reflexivity|].
  cbn [post_each]. rewrite Hu, IH. reflexivity.
Qed.

(** X20. [send_webhook_alert] posts to the configured URLs in order and
    stops at the first one that fails: when every post succeeds all URLs
    are contacted and it returns [True]; when one fails, the URLs after
    it are not contacted and it returns [False]. With no URL configured
    it contacts nothing and returns [True]. *)
Theorem send_webhook_alert_stops_at_first_failure
    (self : NotificationSystem) (post : string -> result unit)
    (alert : Alert.t) :
  (Forall (fun url => exists u, post url = Ok u) (webhook_urls self) ->
   send_webhook_alert self post alert = (webhook_urls self, true))
  /\ (forall reached bad rest e,
         webhook_urls self = reached ++ bad :: rest ->
         Forall (fun url => exists u, post url = Ok u) reached ->
         post bad = Raise e ->
         send_webhook_alert self post alert = (reached ++ [bad], false))
  /\ (webhook_urls self = [] ->
      send_webhook_alert self post alert = ([], true)).
Proof.
  unfold send_webhook_alert. split; [|split].
  - apply post_each_all_ok.
  - intros reached bad rest e -> Hok Hbad.
    induction Hok as [|url reached [u Hu] _ IH].
    + cbn [app post_each]. rewrite Hbad. reflexivity.
    + cbn [app post_each]. rewrite Hu, IH. reflexivity.
  - intros ->. reflexivity.
Qed.

Lemma send_webhook_alert_stops_at_first_failure_witness :
  send_webhook_alert
    (add_webhook (add_webhook NotificationSystem_init "http://a/alerts")
       "http://b/alerts")
    (fun _ => Raise IOError) (Examples.example_alert CRITICAL)
  = (["http://a/alerts"%string], false).
Proof.
  apply (proj1 (proj2 (send_webhook_alert_stops_at_first_failure
                         (add_webhook
                            (add_webhook NotificationSystem_init
                               "http://a/alerts") "http://b/alerts")
                         (fun _ => Raise IOError)
                         (Examples.example_alert CRITICAL)))
           [] "http://a/alerts"%string ["http://b/alerts"%string] IOError
           eq_refl (Forall_nil_2 _) eq_refl).
Defined.

Lemma process_alert_notification_frame self alert :
  let self' := (_process_alert_notification self alert).1 in
  status self' = status self
  /\ alert_manager self' = alert_manager self
  /\ alerts_generated (performance_stats self')
     = alerts_generated (performance_stats self)
  /\ notifications_sent (performance_stats self')
     = notifications_sent (performance_stats self) + 1.
Proof. repeat split. Qed.

(** X21. As long as the system is active, the notification loop takes the
    queued alerts one by one in queue order, the first queued first: the
    calls it makes are, for each alert of the queue in turn, the webhook
    sender and then the live broadcast with that alert. Each alert is
    counted once as generated and once as notified. After as many passes
    as alerts were queued the queue is empty; a pass on an empty queue
    changes nothing. *)
Theorem notification_loop_drains_queue
    (self : RealTimeMonitoringSystem) :
  status self = ACTIVE ->
  queue_valid (alert_manager self) ->
  let n := length (alert_queue (alert_manager self)) in
  let after := (notification_passes n self).1 in
  alert_queue (alert_manager after) = []
  /\ alerts_generated (performance_stats after)
     = alerts_generated (performance_stats self) + Z.of_nat n
  /\ notifications_sent (performance_stats after)
     = notifications_sent (performance_stats self) + Z.of_nat n
  /\ (notification_passes n self).2
     = served_in_queue_order (alert_queue (alert_manager self))
  /\ notification_pass after = (after, [])
  /\ (forall r rest,
        alert_queue (alert_manager self) = r :: rest ->
        (notification_pass self).2
        = [(r, Call_send_webhook_alert); (r, Call_broadcast_alert)]
        /\ alert_queue (alert_manager (notification_pass self).1) = rest).
Proof.
  intros Hactive Hvalid n after. subst after n.
  remember (alert_queue (alert_manager self)) as queue eqn:Hq.
  revert self Hactive Hvalid Hq.
  induction queue as [|r queue IH]; intros self Hactive Hvalid Hq.
  - cbn [length notification_passes fst snd served_in_queue_order flat_map].
    unfold notification_pass. rewrite <- Hq.
    repeat split; try lia; discriminate.
  - cbn [length notification_passes].
    rewrite bool_decide_eq_true_2 by exact Hactive.
    unfold queue_valid in Hvalid. rewrite <- Hq in Hvalid.
    apply Forall_cons in Hvalid. destruct Hvalid as [[alert Halert] Hrest].
    set (taken := {| monitoring_points := monitoring_points self;
                     data_buffer := data_buffer self;
                     alert_manager := with_queue (alert_manager self) queue;
                     status := status self;
                     scan_threads := scan_threads self;
                     thread_infos := thread_infos self;
                     performance_stats := performance_stats self |}).
    set (self2 := count_alert_generated
                    (_process_alert_notification taken alert).1).
    assert (Hpass : notification_pass self
                    = (self2, [(r, Call_send_webhook_alert);
                               (r, Call_broadcast_alert)])).
    { unfold notification_pass. rewrite <- Hq, Halert. fold taken.
      pose proof (process_alert_notification_calls taken alert) as Hcalls.
      subst self2.
      destruct (_process_alert_notification taken alert) as [s1 c1].
      cbn [fst snd] in *. rewrite Hcalls. reflexivity. }
    rewrite Hpass.
    destruct (process_alert_notification_frame taken alert)
      as (Hst & Ham & Hgen & Hsent).
    specialize (IH self2).
    assert (Hq2 : queue = alert_queue (alert_manager self2)).
    { subst self2. cbn [count_alert_generated alert_manager].
      rewrite Ham. reflexivity. }
    assert (Hactive2 : status self2 = ACTIVE).
    { subst self2. cbn [count_alert_generated status].
      rewrite Hst. exact Hactive. }
    assert (Hvalid2 : queue_valid (alert_manager self2)).
    { unfold queue_valid. rewrite <- Hq2. subst self2.
      cbn [count_alert_generated alert_manager]. rewrite Ham. exact Hrest. }
    specialize (IH Hactive2 Hvalid2 Hq2).
    assert (Hgen2 : alerts_generated (performance_stats self2)
                    = alerts_generated (performance_stats self) + 1).
    { subst self2.
      cbn [count_alert_generated performance_stats alerts_generated].
      rewrite Hgen. reflexivity. }
    assert (Hsent2 : notifications_sent (performance_stats self2)
                     = notifications_sent (performance_stats self) + 1).
    { subst self2.
      cbn [count_alert_generated performance_stats notifications_sent].
      rewrite Hsent. reflexivity. }
    destruct (notification_passes (length queue) self2) as [self3 calls3].
    cbn [fst snd] in *.
    destruct IH as (IHq & IHgen & IHsent & IHcalls & IHpass & _).
    split; [exact IHq|]. split; [lia|]. split; [lia|].
    split; [|split; [exact IHpass|]].
    + rewrite IHcalls. reflexivity.
    + intros r' rest' Heq. injection Heq as <- <-.
      split; [reflexivity|]. symmetry. exact Hq2.
Qed.

Lemma notification_loop_drains_queue_witness :
  alert_queue
    (alert_manager
       (notification_passes 1
          {| monitoring_points := PyDict.empty;
             data_buffer := DataBuffer_init default_max_size;
             alert_manager :=
               with_queue Examples.manager_with_active_alert [0%nat];
             status := ACTIVE;
             scan_threads := PyDict.empty;
             thread_infos := [];
             performance_stats :=
               performance_stats RealTimeMonitoringSystem_init |}).1)
  = [].
Proof.
  apply (notification_loop_drains_queue
           {| monitoring_points := PyDict.empty;
              data_buffer := DataBuffer_init default_max_size;
              alert_manager :=
                with_queue Examples.manager_with_active_alert [0%nat];
              status := ACTIVE;
              scan_threads := PyDict.empty;
              thread_infos := [];
              performance_stats :=
                performance_stats RealTimeMonitoringSystem_init |}
           eq_refl).
  apply Forall_cons_2; [|apply Forall_nil_2].
  exists (Examples.example_alert CRITICAL). reflexivity.
Defined.

End NotificationExtras.

Section SchedulerExtras.

Import Monitoring Notions.

Lemma scan_iteration_keeps_guard self point thread_info read now :
  scan_guard (scan_iteration self point read now) thread_info
  = scan_guard self thread_info.
Proof. destruct read; reflexivity. Qed.

Lemma scan_loop_stopped self point thread_info env :
  scan_guard self thread_info = false ->
  scan_loop self point thread_info env = self.
Proof.
  intros Hguard. destruct env as [|[read now] env]; [reflexivity|].
  cbn [scan_loop]. rewrite Hguard. reflexivity.
Qed.

Lemma stop_flag_stays (l : list ref) : forall (infos : list bool) (i : ref),
  infos !! i = Some true ->
  fold_left (fun infos thread_info => <[thread_info := true]> infos) l infos
    !! i = Some true.
Proof.
  induction l as [|t l IH]; intros infos i Hi; [exact Hi|].
  cbn [fold_left]. apply IH.
  destruct (decide (t = i)) as [->|Hne].
  - apply list_lookup_insert_eq. eapply lookup_lt_Some, Hi.
  - rewrite list_lookup_insert_ne by exact Hne. exact Hi.
Qed.

Lemma stop_flags_set (l : list ref) : forall (infos : list bool) (i : ref),
  i ∈ l -> (i < length infos)%nat ->
  fold_left (fun infos thread_info => <[thread_info := true]> infos) l infos
    !! i = Some true.
Proof.
  induction l as [|t l IH]; intros infos i Hin Hlen; [inversion Hin|].
  cbn [fold_left]. apply elem_of_cons in Hin as [->|Hin].
  - apply stop_flag_stays, list_lookup_insert_eq, Hlen.
  - apply IH; [exact Hin|]. rewrite length_insert. exact Hlen.
Qed.

(** X22. A scan loop tests the stop flag of its own [thread_info] object
    and the status. After [stop_monitoring] no loop makes a further
    pass, and the flag of every registered object is up. After
    [remove_monitoring_point] the loop whose object is registered for
    the point makes no further pass; a loop of the same point whose
    object has been replaced in [scan_threads] is tested as before, so
    it keeps scanning. Removing an unknown point changes nothing. A loop
    that registers after the removal scans as long as the system is
    active. When two loops have registered for one point, removing the
    point stops the second and not the first. *)
Theorem stopping_ends_the_scan_loop
    (self : RealTimeMonitoringSystem) (point : MonitoringPoint.t)
    (thread_info : ref) (env : list (result Z * Z)) :
  let id := MonitoringPoint.point_id point in
  scan_loop (stop_monitoring self) point thread_info env
  = stop_monitoring self
  /\ (forall (other : string) (registered : ref),
        (other, registered) ∈ scan_threads self ->
        (registered < length (thread_infos self))%nat ->
        thread_infos (stop_monitoring self) !! registered = Some true)
  /\ (PyDict.get (monitoring_points self) id <> None ->
      PyDict.get (scan_threads self) id = Some thread_info ->
      (thread_info < length (thread_infos self))%nat ->
      scan_loop (remove_monitoring_point self id) point thread_info env
      = remove_monitoring_point self id)
  /\ (forall registered : ref,
        PyDict.get (scan_threads self) id = Some registered ->
        registered <> thread_info ->
        scan_guard (remove_monitoring_point self id) thread_info
        = scan_guard self thread_info)
  /\ (PyDict.get (scan_threads self) id = None ->
      scan_guard (remove_monitoring_point self id) thread_info
      = scan_guard self thread_info)
  /\ (PyDict.get (monitoring_points self) id = None ->
      remove_monitoring_point self id = self)
  /\ (status self = ACTIVE ->
      let started :=
        register_scan_thread (remove_monitoring_point self id) point in
      scan_guard started.1 started.2 = true)
  /\ (status self = ACTIVE ->
      PyDict.get (monitoring_points self) id <> None ->
      let first := register_scan_thread self point in
      let second := register_scan_thread first.1 point in
      let removed := remove_monitoring_point second.1 id in
      first.2 <> second.2
      /\ scan_guard removed first.2 = true
      /\ scan_guard removed second.2 = false).
Proof.
  intros id.
  split; [|split; [|split; [|split; [|split; [|split; [|split]]]]]].
  - apply scan_loop_stopped. unfold scan_guard. cbn [stop_monitoring status].
    rewrite bool_decide_eq_false_2 by discriminate. apply andb_false_r.
  - intros other registered Hin Hlen. cbn [stop_monitoring thread_infos].
    apply stop_flags_set; [|exact Hlen].
    unfold PyDict.values. apply list_elem_of_fmap.
    exists (other, registered). split; [reflexivity|exact Hin].
  - intros Hpoint Hthread Hlen. apply scan_loop_stopped.
    unfold scan_guard, remove_monitoring_point, PyDict.contains. fold id.
    destruct (PyDict.get (monitoring_points self) id); [|contradiction].
    rewrite Hthread. cbn [with_points_and_threads thread_infos status].
    rewrite list_lookup_insert_eq by exact Hlen. reflexivity.
  - intros registered Hthread Hne.
    unfold scan_guard, remove_monitoring_point, PyDict.contains. fold id.
    destruct (PyDict.get (monitoring_points self) id); [|reflexivity].
    rewrite Hthread. cbn [with_points_and_threads thread_infos status].
    rewrite list_lookup_insert_ne by exact Hne. reflexivity.
  - intros Hthread.
    unfold scan_guard, remove_monitoring_point, PyDict.contains. fold id.
    destruct (PyDict.get (monitoring_points self) id); [|reflexivity].
    rewrite Hthread. reflexivity.
  - intros Hnone. unfold remove_monitoring_point, PyDict.contains.
    rewrite Hnone. reflexivity.
  - intros Hactive started. subst started.
    unfold scan_guard, register_scan_thread.
    cbn [fst snd with_points_and_threads thread_infos status].
    rewrite list_lookup_middle by reflexivity. cbn [default negb andb].
    apply bool_decide_eq_true_2.
    unfold remove_monitoring_point.
    destruct (PyDict.contains _ _); exact Hactive.
  - intros Hactive Hpoint first second removed.
    subst removed second first.
    unfold scan_guard, remove_monitoring_point, PyDict.contains,
      register_scan_thread.
    cbn [fst snd with_points_and_threads thread_infos status
         monitoring_points scan_threads].
    fold id.
    destruct (PyDict.get (monitoring_points self) id); [|contradiction].
    rewrite get_set_eq.
    cbn [with_points_and_threads thread_infos status].
    rewrite length_app. cbn [length].
    set (infos := thread_infos self).
    split; [lia|]. split.
    + rewrite list_lookup_insert_ne by lia.
      rewrite lookup_app_l by (rewrite length_app; cbn [length]; lia).
      rewrite list_lookup_middle by reflexivity. cbn [default negb andb].
      apply bool_decide_eq_true_2, Hactive.
    + rewrite list_lookup_insert_eq
        by (rewrite !length_app; cbn [length]; lia).
      reflexivity.
Qed.

Lemma stopping_ends_the_scan_loop_witness :
  scan_loop (remove_monitoring_point Examples.scanning_T001 "T001")
    Examples.T001 0%nat [(Ok 96, 10)]
  = remove_monitoring_point Examples.scanning_T001 "T001".
Proof.
  apply (proj1 (proj2 (proj2 (stopping_ends_the_scan_loop
                                Examples.scanning_T001 Examples.T001
                                0%nat [(Ok 96, 10)]))));
    [discriminate|reflexivity|cbn; lia].
Defined.

Lemma scan_loop_stats point thread_info env : forall self,
  scan_guard self thread_info = true ->
  points_scanned
    (performance_stats (scan_loop self point thread_info env))
  = points_scanned (performance_stats self)
    + Z.of_nat (length (successful_reads env))
  /\ last_scan_time
       (performance_stats (scan_loop self point thread_info env))
     = match last (successful_reads env) with
       | Some t => Some t
       | None => last_scan_time (performance_stats self)
       end
  /\ alerts_generated
       (performance_stats (scan_loop self point thread_info env))
     = alerts_generated (performance_stats self)
  /\ monitoring_points (scan_loop self point thread_info env)
     = monitoring_points self
  /\ alert_manager (scan_loop self point thread_info env)
     = alert_manager self
  /\ status (scan_loop self point thread_info env) = status self.
Proof.
  induction env as [|[read now] env IH]; intros self Hguard.
  - cbn. repeat split; lia.
  - cbn [scan_loop]. rewrite Hguard.
    specialize (IH (scan_iteration self point read now)).
    rewrite scan_iteration_keeps_guard in IH. specialize (IH Hguard).
    destruct IH as (IHn & IHt & IHg & IHp & IHm & IHs).
    rewrite IHn, IHt, IHg, IHp, IHm, IHs.
    unfold successful_reads. cbn [omap list_omap fst snd].
    fold (successful_reads env).
    destruct read as [value|e];
      cbn [scan_iteration fst performance_stats points_scanned
           last_scan_time alerts_generated monitoring_points alert_manager
           status length].
    + repeat split; try lia.
      destruct (successful_reads env) as [|t ts] eqn:Hts; [reflexivity|].
      change (last (now :: t :: ts)) with (last (t :: ts)).
      destruct (last (t :: ts)) eqn:Hlast; [reflexivity|].
      apply last_None in Hlast. discriminate.
    + repeat split.
Qed.

(** X23. The scan statistics count successful reads only: after a run of
    the scan loop, [points_scanned] has grown by the number of passes
    whose read succeeded and [last_scan_time] is the clock reading of
    the last of them; passes whose read raised leave both as they
    were. *)
Theorem scan_statistics_count_successful_reads
    (self : RealTimeMonitoringSystem) (point : MonitoringPoint.t)
    (thread_info : ref) (env : list (result Z * Z)) :
  scan_guard self thread_info = true ->
  points_scanned
    (performance_stats (scan_loop self point thread_info env))
  = points_scanned (performance_stats self)
    + Z.of_nat (length (successful_reads env))
  /\ last_scan_time
       (performance_stats (scan_loop self point thread_info env))
     = match last (successful_reads env) with
       | Some t => Some t
       | None => last_scan_time (performance_stats self)
       end.
Proof.
  intros Hguard.
  destruct (scan_loop_stats point thread_info env self Hguard)
    as (Hn & Ht & _).
  split; assumption.
Qed.

Lemma scan_statistics_count_successful_reads_witness :
  points_scanned
    (performance_stats
       (scan_loop Examples.scanning_T001 Examples.T001 0%nat
          [(Ok 96, 10); (Raise IOError, 11); (Ok 97, 12)]))
  = 0 + Z.of_nat 2.
Proof.
  apply (proj1 (scan_statistics_count_successful_reads
                  Examples.scanning_T001 Examples.T001 0%nat
                  [(Ok 96, 10); (Raise IOError, 11); (Ok 97, 12)]
                  eq_refl)).
Defined.

(** X24. [get_system_status] raises [AttributeError] as long as no read
    has succeeded, for instance on a new system and after any run of a
    scan loop whose reads all raised. After a successful read it returns
    the status text, the number of monitoring points and of active
    alerts, and the time of the last successful read. *)
Theorem system_status_needs_a_successful_scan
    (self : RealTimeMonitoringSystem) (clients : nat) :
  (last_scan_time (performance_stats self) = None ->
   get_system_status self clients = Raise AttributeError)
  /\ get_system_status RealTimeMonitoringSystem_init clients
     = Raise AttributeError
  /\ (forall point thread_info env,
         last_scan_time (performance_stats self) = None ->
         successful_reads env = [] ->
         get_system_status (scan_loop self point thread_info env) clients
         = Raise AttributeError)
  /\ (forall point thread_info env t,
         scan_guard self thread_info = true ->
         last (successful_reads env) = Some t ->
         exists st,
           get_system_status (scan_loop self point thread_info env) clients
           = Ok st
           /\ uptime st = t
           /\ status_text st = status_value (status self)
           /\ monitoring_points_count st = length (monitoring_points self)
           /\ active_alerts_count st
              = length (active_alerts (alert_manager self))
           /\ connected_clients_count st = clients).
Proof.
  split; [|split; [|split]].
  - intros Hnone. unfold get_system_status. rewrite Hnone. reflexivity.
  - reflexivity.
  - intros point thread_info env Hnone Hreads.
    destruct (scan_guard self thread_info) eqn:Hguard.
    + destruct (scan_loop_stats point thread_info env self Hguard)
        as (_ & Ht & _).
      rewrite Hreads in Ht. cbn [last] in Ht.
      unfold get_system_status. rewrite Ht, Hnone. reflexivity.
    + rewrite scan_loop_stopped by exact Hguard.
      unfold get_system_status. rewrite Hnone. reflexivity.
  - intros point thread_info env t Hguard Hlast.
    destruct (scan_loop_stats point thread_info env self Hguard)
      as (_ & Ht & _ & Hp & Hm & Hs).
    rewrite Hlast in Ht.
    unfold get_system_status. rewrite Ht, Hp, Hm, Hs.
    eexists. split; [reflexivity|]. repeat split.
Qed.

Lemma system_status_needs_a_successful_scan_witness :
  get_system_status
    (scan_loop Examples.scanning_T001 Examples.T001 0%nat
       [(Raise IOError, 10)])
    0
  = Raise AttributeError.
Proof.
  apply (proj1 (proj2 (proj2 (system_status_needs_a_successful_scan
                                Examples.scanning_T001 0)))
           Examples.T001 0%nat [(Raise IOError, 10)] eq_refl eq_refl).
Defined.

End SchedulerExtras.

Section SourcePointExtras.

Import Monitoring Notions.

Lemma prefix_occurs a s :
  String.prefix a s = true <-> exists post, s = (a ++ post)%string.
Proof.
  revert s. induction a as [|c a IH]; intros s.
  - split; [intros _; exists s; reflexivity|].
    intros _. destruct s; reflexivity.
  - destruct s as [|c' s]; cbn.
    + split; [discriminate|]. intros [post Hpost]. discriminate.
    + destruct (Ascii.ascii_dec c c') as [->|Hne].
      * rewrite IH. split; intros [post Hpost]; exists post.
        -- cbn [String.append]. rewrite Hpost. reflexivity.
        -- cbn [String.append] in Hpost. injection Hpost as Hpost.
           exact Hpost.
      * split; [discriminate|]. intros [post Hpost].
        cbn [String.append] in Hpost. injection Hpost as Hc _.
        symmetry in Hc. contradiction.
Qed.

Lemma str_contains_occurs sub s :
  str_contains sub s = true <-> occurs_in sub s.
Proof.
  unfold occurs_in. induction s as [|c s IH].
  - cbn [str_contains]. rewrite orb_false_r, prefix_occurs. split.
    + intros [post Hpost]. exists ""%string, post. exact Hpost.
    + intros (pre & post & Hs). destruct pre; [|discriminate].
      exists post. exact Hs.
  - cbn [str_contains]. rewrite orb_true_iff, prefix_occurs, IH. split.
    + intros [[post Hpost]|(pre & post & Hs)].
      * exists ""%string, post. exact Hpost.
      * exists (String c pre), post. cbn. rewrite Hs. reflexivity.
    + intros (pre & post & Hs). destruct pre as [|c' pre].
      * left. exists post. exact Hs.
      * right. cbn in Hs. injection Hs as _ Hs. exists pre, post. exact Hs.
Qed.

(** X25. The source point of an alert is found by text search: it is the
    first point of the snapshot, in snapshot order, whose id occurs
    anywhere in the text of the condition, with the value that point has
    in the snapshot; when no point id occurs in the condition it is
    "unknown" with no value. So a point whose id is part of the id that
    the condition names is taken when it comes first. *)
Theorem source_point_is_first_textual_match
    (condition : string) (monitoring_data : PyDict.t MonitoringData.t) :
  (Forall (fun kv => ~ occurs_in kv.1 condition) monitoring_data ->
   find_source condition monitoring_data = ("unknown"%string, None))
  /\ (forall earlier p d later,
         monitoring_data = earlier ++ (p, d) :: later ->
         Forall (fun kv => ~ occurs_in kv.1 condition) earlier ->
         occurs_in p condition ->
         find_source condition monitoring_data
         = (p, Some (MonitoringData.value d))).
Proof.
  split.
  - induction 1 as [|[k d] rest Hk _ IH]; [reflexivity|].
    cbn [find_source]. cbn [fst] in Hk.
    destruct (str_contains k condition) eqn:Hc; [|exact IH].
    apply str_contains_occurs in Hc. contradiction.
  - intros earlier p d later -> Hearlier Hp.
    induction Hearlier as [|[k d'] rest Hk _ IH].
    + cbn [app find_source].
      apply str_contains_occurs in Hp. rewrite Hp. reflexivity.
    + cbn [app find_source]. cbn [fst] in Hk.
      destruct (str_contains k condition) eqn:Hc; [|exact IH].
      apply str_contains_occurs in Hc. contradiction.
Qed.

Lemma source_point_is_first_textual_match_witness :
  find_source "get_value('T10') > 5"
    [("T1"%string, Runtime.T001_96 0); ("T10"%string, Runtime.T001_96 0)]
  = ("T1"%string, Some 96).
Proof.
  apply (proj2 (source_point_is_first_textual_match
                  "get_value('T10') > 5"
                  [("T1"%string, Runtime.T001_96 0);
                   ("T10"%string, Runtime.T001_96 0)])
           [] "T1"%string (Runtime.T001_96 0)
           [("T10"%string, Runtime.T001_96 0)] eq_refl (Forall_nil_2 _)).
  exists "get_value('"%string, "0') > 5"%string. reflexivity.
Defined.

End SourcePointExtras.
